(** * OCR Gaby: chunked upload, batch dispatch and extraction, verified

    A shallow embedding of the Python sources [cli.py], [api.py] and
    [batch_cli.py].  Python dictionaries are finite maps, the file system
    is a finite map from paths to contents, exceptions are an explicit
    result type, and the external engines (Tesseract, PIL, OpenCV, Gemini,
    werkzeug's [secure_filename], [uuid4], the clock) are parameters. *)

From Stdlib Require Import ZArith Lia Ascii Floats.SpecFloat.
From stdpp Require Import base option list strings pretty gmap sorting.

Open Scope Z_scope.
Set Default Proof Using "Type".

(** ** Python primitives used by the sources *)

Module Py.

(** An exception instance: its class name and [str(e)]. *)
Record PyExn := mkExn { exn_class : string; exn_str : string }.

(** The outcome of evaluating a Python expression. *)
Inductive Res (A : Type) : Type :=
| Return (a : A)
| Raise (e : PyExn).
Arguments Return {A} a.
Arguments Raise {A} e.

#[export] Instance Res_ret : MRet Res := fun A a => Return a.
#[export] Instance Res_bind : MBind Res := fun A B f m =>
  match m with
  | Return a => f a
  | Raise e => Raise e
  end.
#[export] Instance Res_fmap : FMap Res := fun A B f m =>
  match m with
  | Return a => Return (f a)
  | Raise e => Raise e
  end.

(** [try: body except Exception as e: handler(e)], around a body whose
    exceptions are instances of [Exception]. *)
Definition try_except {A} (body : Res A) (handler : PyExn -> A) : A :=
  match body with
  | Return a => a
  | Raise e => handler e
  end.

(** *** Strings.  Characters are code points below 256. *)

Definition chr_code (c : Ascii.ascii) : N := Ascii.N_of_ascii c.

(** [str.lower] on one character (the ASCII letters). *)
Definition lower_char (c : Ascii.ascii) : Ascii.ascii :=
  if ((65 <=? chr_code c) && (chr_code c <=? 90))%N
  then Ascii.ascii_of_N (chr_code c + 32)
  else c.

Fixpoint lower (s : string) : string :=
  match s with
  | EmptyString => EmptyString
  | String c r => String (lower_char c) (lower r)
  end.

(** [str.isspace] on one character. *)
Definition isspace (c : Ascii.ascii) : bool :=
  let n := chr_code c in
  (((9 <=? n) && (n <=? 13)) || ((28 <=? n) && (n <=? 32))
   || (n =? 133) || (n =? 160))%N.

Fixpoint lstrip (s : string) : string :=
  match s with
  | EmptyString => EmptyString
  | String c r => if isspace c then lstrip r else s
  end.

(** [rstrip] returns the empty string exactly when nothing but
    whitespace follows. *)
Fixpoint rstrip (s : string) : string :=
  match s with
  | EmptyString => EmptyString
  | String c r =>
      match rstrip r with
      | EmptyString => if isspace c then EmptyString else String c EmptyString
      | r' => String c r'
      end
  end.

(** [str.strip()] *)
Definition strip (s : string) : string := rstrip (lstrip s).

(** [str.split()]: the maximal runs of non-whitespace characters;
    [cur] is the run being read, reversed. *)
Fixpoint split_go (cur : list Ascii.ascii) (s : string) : list string :=
  let flush (k : list string) :=
    match cur with
    | [] => k
    | _ => String.string_of_list_ascii (rev cur) :: k
    end in
  match s with
  | EmptyString => flush []
  | String c r =>
      if isspace c then flush (split_go [] r) else split_go (c :: cur) r
  end.

Definition split (s : string) : list string := split_go [] s.

(** ['.' in s and s.rsplit('.', 1)[1]]: the text after the last dot,
    [None] when [s] has no dot. *)
Fixpoint rsplit_dot (s : string) : option string :=
  match s with
  | EmptyString => None
  | String c r =>
      match rsplit_dot r with
      | Some t => Some t
      | None => if Ascii.eqb c "."%char then Some r else None
      end
  end.

(** [x in collection] for strings. *)
Definition str_in (x : string) (l : list string) : bool :=
  existsb (String.eqb x) l.

(** *** Exception classes *)

(** The built-in classes that derive from [BaseException] without
    deriving from [Exception]. *)
Definition outside_Exception : list string :=
  ["BaseException"; "BaseExceptionGroup"; "GeneratorExit";
   "KeyboardInterrupt"; "SystemExit"].

(** [isinstance(e, Exception)], for the built-in classes. *)
Definition is_Exception (e : PyExn) : bool :=
  negb (str_in (exn_class e) outside_Exception).

(** [try: body except Exception as e: handler(e)] around a body that
    may raise any exception: what [except Exception] does not catch
    leaves the statement. *)
Definition try_except_Exception {A} (body : Res A) (handler : PyExn -> A) : Res A :=
  match body with
  | Return a => Return a
  | Raise e => if is_Exception e then Return (handler e) else Raise e
  end.

(** [os.path.join(a, b)] on POSIX. *)
Definition startswith_slash (s : string) : bool :=
  match s with
  | String c _ => Ascii.eqb c "/"%char
  | EmptyString => false
  end.

Fixpoint endswith_slash (s : string) : bool :=
  match s with
  | EmptyString => false
  | String c EmptyString => Ascii.eqb c "/"%char
  | String _ r => endswith_slash r
  end.

Definition os_path_join (a b : string) : string :=
  if startswith_slash b then b
  else if String.eqb a "" || endswith_slash a then a +:+ b
  else a +:+ "/" +:+ b.

(** *** Numbers.  A Python [float] is an IEEE 754 binary64 value. *)

Definition prec : Z := 53.
Definition emax : Z := 1024.

Definition is_infinity (x : spec_float) : bool :=
  match x with
  | S754_infinity _ => true
  | _ => false
  end.

(** [a / b] on two [int]s: the quotient of the exact integers, rounded
    once to the nearest float, ties to even. *)
Definition int_truediv (a b : Z) : Res spec_float :=
  if b =? 0 then Raise (mkExn "ZeroDivisionError" "division by zero")
  else
    let negate := xorb (a <? 0) (b <? 0) in
    match Z.abs a, Z.abs b with
    | Zpos ma, Zpos mb =>
        let q := SFdiv prec emax (S754_finite (a <? 0) ma 0)
                                 (S754_finite (b <? 0) mb 0) in
        if is_infinity q
        then Raise (mkExn "OverflowError"
                      "integer division result too large for a float")
        else Return q
    | _, _ => Return (S754_zero negate)
    end.

(** The integer nearest to [n * 2^e], ties to even ([0 <= n]). *)
Definition nearest_even (n e : Z) : Z :=
  if 0 <=? e then n * 2 ^ e
  else
    let d := 2 ^ (- e) in
    let q := n / d in
    let r := n mod d in
    match 2 * r ?= d with
    | Lt => q
    | Gt => q + 1
    | Eq => if Z.even q then q else q + 1
    end.

(** The number of hundredths [round(x, 2)] keeps of a finite [x]: the
    exact binary value of [x], times 100, rounded ties to even. *)
Definition hundredths (m : positive) (e : Z) : Z :=
  nearest_even (Zpos m * 100) e.

(** [round(x, 2)] on a [float]: the decimal with two places nearest to
    the exact value of [x], converted back to the nearest float. *)
Definition round2 (x : spec_float) : Res spec_float :=
  match x with
  | S754_finite s m e =>
      match hundredths m e with
      | Zpos h =>
          let r := SFdiv prec emax (S754_finite s h 0)
                                   (S754_finite false 100 0) in
          if is_infinity r
          then Raise (mkExn "OverflowError"
                        "rounded value too large to represent")
          else Return r
      | _ => Return (S754_zero s)
      end
  | _ => Return x
  end.

(** The float nearest to the decimal [n / 100], as a literal such as
    [70.0] or [1.33] denotes it. *)
Definition float_of_hundredths (n : positive) : spec_float :=
  SFdiv prec emax (S754_finite false n 0) (S754_finite false 100 0).

(** *** Values and dictionaries *)

#[local] Set Warnings "-register-all".
Inductive PyVal : Type :=
| VNone
| VBool (b : bool)
| VInt (z : Z)
| VFloat (f : spec_float)
| VStr (s : string)
| VDict (d : gmap string PyVal).

Abbreviation PyDict := (gmap string PyVal).

(** [key in d] *)
Definition has_key (d : PyDict) (k : string) : bool :=
  bool_decide (is_Some (d !! k)).

(** Truth value of [d.get(k)]. *)
Definition truthy (v : option PyVal) : bool :=
  match v with
  | None | Some VNone => false
  | Some (VBool b) => b
  | Some (VInt z) => negb (z =? 0)
  | Some (VFloat (S754_zero _)) => false
  | Some (VFloat _) => true
  | Some (VStr s) => negb (String.eqb s "")
  | Some (VDict d) => negb (bool_decide (d = ∅))
  end.

(** [d[k]] *)
Definition getitem (d : PyDict) (k : string) : Res PyVal :=
  match d !! k with
  | Some v => Return v
  | None => Raise (mkExn "KeyError" ("'" +:+ k +:+ "'"))
  end.

(** *** Objects: a class name and the methods found on the instance *)

Record PyObject (M : Type) := mkObject {
  class_name : string;
  methods : gmap string M
}.
Arguments mkObject {M} _ _.
Arguments class_name {M} _.
Arguments methods {M} _.

(** [o.name] *)
Definition getattr {M} (o : PyObject M) (name : string) : Res M :=
  match methods o !! name with
  | Some m => Return m
  | None =>
      Raise (mkExn "AttributeError"
               ("'" +:+ class_name o +:+ "' object has no attribute '"
                +:+ name +:+ "'"))
  end.

(** Binding keyword arguments to a function's parameters: the first
    keyword that is no parameter is a [TypeError]. *)
Definition check_keywords (fname : string) (params : list string)
    (kwargs : list (string * PyVal)) : Res unit :=
  match List.find (fun kv => negb (str_in (fst kv) params)) kwargs with
  | Some (k, _) =>
      Raise (mkExn "TypeError"
               (fname +:+ "() got an unexpected keyword argument '"
                +:+ k +:+ "'"))
  | None => Return tt
  end.

(** *** Files: a flat map from paths to contents *)

Abbreviation Files := (gmap string string).

Definition no_such_file (what : string) : PyExn :=
  mkExn "FileNotFoundError" ("[Errno 2] No such file or directory: " +:+ what).

(** [os.path.exists(p)] *)
Definition os_path_exists (p : string) (fs : Files) : bool :=
  bool_decide (is_Some (fs !! p)).

(** [os.remove(p)] *)
Definition os_remove (p : string) (fs : Files) : Res Files :=
  match fs !! p with
  | Some _ => Return (delete p fs)
  | None => Raise (no_such_file ("'" +:+ p +:+ "'"))
  end.

(** [os.rename(src, dst)]: an existing [dst] is replaced. *)
Definition os_rename (src dst : string) (fs : Files) : Res Files :=
  match fs !! src with
  | Some content => Return (<[dst := content]> (delete src fs))
  | None => Raise (no_such_file ("'" +:+ src +:+ "' -> '" +:+ dst +:+ "'"))
  end.

(** [with open(p, 'ab') as f: f.write(data)]: the file is created when
    it does not exist. *)
Definition append_file (p data : string) (fs : Files) : Files :=
  <[p := default "" (fs !! p) +:+ data]> fs.

(** [file.save(p)] when the file system carries it out: the file is
    created or truncated. *)
Definition save_file (p data : string) (fs : Files) : Files :=
  <[p := data]> fs.

(** What the file system does to a [file.save(p)] that it does not
    carry out (a name that is too long, a full disk): the [OSError]
    raised, and what has been written at [p] if the file was opened
    before the failure. *)
Record SaveFault := mkSaveFault {
  save_error : PyExn;
  save_written : option string
}.

(** [file.save(p)]: the files afterwards, and the exception raised,
    if any. *)
Definition file_save (fault : option SaveFault) (p data : string) (fs : Files)
  : Files * option PyExn :=
  match fault with
  | None => (save_file p data fs, None)
  | Some fault =>
      (match save_written fault with
       | Some written => <[p := written]> fs
       | None => fs
       end,
       Some (save_error fault))
  end.

End Py.

(** ** cli.py: the extraction invoker *)

Module Cli.
Import Py.

(** A value of the [conf] column of [image_to_data], seen through the
    only operation the code applies to it: what [int(conf)] evaluates
    to. *)
Definition ConfCell : Type := Res Z.

(** [[int(conf) for conf in data['conf'] if int(conf) > 0]].  The
    condition is evaluated first, then the element expression. *)
Fixpoint positive_confidences (cells : list ConfCell) : Res (list Z) :=
  match cells with
  | [] => Return []
  | conf :: rest =>
      c ← conf;
      if 0 <? c
      then v ← conf; vs ← positive_confidences rest; Return (v :: vs)
      else positive_confidences rest
  end.

(** [sum(confidences)] *)
Definition sum (l : list Z) : Z := foldl Z.add 0 l.

(** [sum(confidences) / len(confidences) if confidences else 0] *)
Definition avg_confidence (confidences : list Z) : Res PyVal :=
  match confidences with
  | [] => Return (VInt 0)
  | _ => VFloat <$> int_truediv (sum confidences) (Z.of_nat (length confidences))
  end.

(** [round(avg_confidence, 2)]: an [int] stays an [int]. *)
Definition round_2 (v : PyVal) : Res PyVal :=
  match v with
  | VFloat x => VFloat <$> round2 x
  | VInt z => Return (VInt z)
  | _ => Raise (mkExn "TypeError" "type doesn't define __round__ method")
  end.

(** Lines 67-73 of [extract_text]: the value stored under
    ['confidence']. *)
Definition confidence_of (data_conf : list ConfCell) : Res PyVal :=
  confidences ← positive_confidences data_conf;
  avg ← avg_confidence confidences;
  round_2 avg.

(** The libraries behind the processor: PIL images, OpenCV arrays and
    the calls on them.  A path is read through the file system: a call
    that opens a path receives the content stored there, [None] when
    there is no such file. *)
Record Engine := mkEngine {
  Image : Type;
  Mat : Type;
  Image_open : option string -> Res Image;
  Image_fromarray : Mat -> Res Image;
  cv2_imread : option string -> Res (option Mat);
  cv2_cvtColor : option Mat -> Res Mat;
  cv2_medianBlur : Mat -> Res Mat;
  cv2_threshold : Mat -> Res Mat;
  image_to_string : Image -> string -> string -> Res string;
  image_to_data : Image -> string -> string -> Res (list ConfCell)
}.

Section OCRProcessor.
Variable eng : Engine.

(** [OCRProcessor._preprocess_image] *)
Definition _preprocess_image (fs : Files) (image_path : string)
  : Res (Image eng) :=
  img ← cv2_imread eng (fs !! image_path);
  gray ← cv2_cvtColor eng img;
  denoised ← cv2_medianBlur eng gray;
  thresh ← cv2_threshold eng denoised;
  Image_fromarray eng thresh.

(** The [try] block of [OCRProcessor.extract_text]. *)
Definition extract_text_try (fs : Files)
    (image_path language config : string) (preprocess : bool) : Res PyDict :=
  image ← (if preprocess then _preprocess_image fs image_path
           else Image_open eng (fs !! image_path));
  text ← image_to_string eng image language config;
  data_conf ← image_to_data eng image language config;
  confidence ← confidence_of data_conf;
  Return (<["text" := VStr (strip text)]>
          (<["confidence" := confidence]>
          (<["word_count" := VInt (Z.of_nat (length (split text)))]>
          (<["character_count" := VInt (Z.of_nat (String.length text))]>
          (<["language" := VStr language]>
          (<["config" := VStr config]> ∅)))))).

(** The [except Exception as e] clause of [OCRProcessor.extract_text]. *)
Definition extract_text_except (e : PyExn) : PyDict :=
  <["error" := VStr (exn_str e)]>
    (<["text" := VStr ""]>
    (<["confidence" := VInt 0]> ∅)).

(** [OCRProcessor.extract_text], whatever the libraries raise: the
    dictionary it returns, or the exception that leaves it. *)
Definition extract_text_outcome (fs : Files)
    (image_path language config : string) (preprocess : bool) : Res PyDict :=
  try_except_Exception
    (extract_text_try fs image_path language config preprocess)
    extract_text_except.

(** [OCRProcessor.extract_text], when the libraries raise instances of
    [Exception] only: the dictionary it returns. *)
Definition extract_text (fs : Files)
    (image_path language config : string) (preprocess : bool) : PyDict :=
  try_except (extract_text_try fs image_path language config preprocess)
    (fun e => <["error" := VStr (exn_str e)]>
              (<["text" := VStr ""]>
              (<["confidence" := VInt 0]> ∅))).

(** How a method of the processor is called from [api.py]:
    [m(path, language=.., config=.., preprocess=..)], [config] being
    left out by some callers. *)
Definition OcrMethod : Type :=
  Files -> string -> string -> option string -> bool -> Res PyDict.

Definition call_extract_text : OcrMethod :=
  fun fs image_path language config preprocess =>
    Return (extract_text fs image_path language
              (default "--psm 6" config) preprocess).

(** The other methods take no [language] keyword. *)
Definition call_other (qualname : string) : OcrMethod :=
  fun _ _ _ _ _ =>
    Raise (mkExn "TypeError"
             (qualname +:+ "() got an unexpected keyword argument 'language'")).

(** [class OCRProcessor]: [__init__], [extract_text],
    [_preprocess_image] and [get_available_languages]; [__init__]
    sets no attribute on the instance. *)
Definition OCRProcessor : PyObject OcrMethod :=
  mkObject "OCRProcessor"
    (<["__init__" := call_other "OCRProcessor.__init__"]>
    (<["extract_text" := call_extract_text]>
    (<["_preprocess_image" := call_other "OCRProcessor._preprocess_image"]>
    (<["get_available_languages" :=
         call_other "OCRProcessor.get_available_languages"]> ∅)))).
End OCRProcessor.

End Cli.

(** ** app/gemini.py: the LLM client, as far as its callers see it *)

Module Gemini.
Import Py.

(** The keyword parameters of [GeminiProcessor.process_text]. *)
Definition process_text_params : list string :=
  ["text"; "prompt"; "task"; "temperature"; "max_tokens"].

Section GeminiProcessor.
(** [os.getenv('GEMINI_API_KEY')] *)
Variable getenv_GEMINI_API_KEY : option string.
(** [genai.configure] and [genai.GenerativeModel], given the key. *)
Variable genai_configure : string -> Res unit.
(** The body of [process_text]: it builds the prompt, calls the model
    and returns a dictionary on success and on failure alike. *)
Variable process_text_body : PyVal -> list (string * PyVal) -> PyDict.

(** [x or y] on optional strings: the first non-empty one. *)
Definition str_or (x y : option string) : option string :=
  match x with
  | Some k => if String.eqb k "" then y else x
  | None => y
  end.

(** [GeminiProcessor(api_key)]: the key the instance holds. *)
Definition __init__ (api_key : option string) : Res string :=
  match str_or api_key getenv_GEMINI_API_KEY with
  | Some k =>
      if String.eqb k ""
      then Raise (mkExn "ValueError"
                    "GEMINI_API_KEY not found in environment variables")
      else _ ← genai_configure k; Return k
  | None =>
      Raise (mkExn "ValueError"
               "GEMINI_API_KEY not found in environment variables")
  end.

(** [gemini.process_text(text, **kwargs)] *)
Definition process_text (text : PyVal) (kwargs : list (string * PyVal))
  : Res PyDict :=
  _ ← check_keywords "GeminiProcessor.process_text" process_text_params kwargs;
  Return (process_text_body text kwargs).
End GeminiProcessor.

End Gemini.

(** ** api.py: the chunked upload store and the batch endpoint *)

Module Api.
Import Py.

Definition ALLOWED_EXTENSIONS : list string :=
  ["jpg"; "jpeg"; "png"; "bmp"; "tiff"; "tif"; "gif"; "webp"; "pdf"].
Definition MAX_FILE_SIZE : Z := 50 * 1024 * 1024.
Definition CHUNK_SIZE : Z := 1024 * 1024.

(** [allowed_file] *)
Definition allowed_file (filename : string) : bool :=
  match rsplit_dot filename with
  | Some ext => str_in (lower ext) ALLOWED_EXTENSIONS
  | None => false
  end.

(** One entry of [UPLOAD_SESSIONS]. *)
Record Session := mkSession {
  filename : string;
  filesize : Z;
  chunk_count : Z;
  received_chunks : list Z;
  temp_path : string
}.

(** The process state the handlers share: the session dictionary and
    the files under the upload folder. *)
Record World := mkWorld {
  UPLOAD_SESSIONS : gmap string Session;
  files : Files
}.

Definition empty_world : World := mkWorld ∅ ∅.

(** The JSON bodies the handlers return. *)
Inductive Body : Type :=
| Error (error : string)
| InitOk (upload_id : string) (chunk_size : Z)
| ChunkOk (chunk_index : Z) (received : nat) (total : Z) (is_complete : bool)
| CompleteOk (data : PyDict)
| CancelOk (message : string)
| BatchOk (total processed failed : nat)
          (results : list PyDict) (failures : list (string * string)).

Record Response := mkResponse { status : Z; body : Body }.

(** [jsonify({'success': False, 'error': msg}), code] *)
Definition failure (code : Z) (msg : string) : Response :=
  mkResponse code (Error msg).

(** The JSON object posted to [/upload/init]. *)
Record InitJson := mkInitJson {
  json_filename : option string;
  json_filesize : option Z;
  json_chunk_count : option Z
}.

(** The form posted to [/upload/chunk/<id>]: the uploaded part, and
    what [int()] makes of the [chunk_index] field when it is sent. *)
Record ChunkForm := mkChunkForm {
  form_chunk : option string;
  form_chunk_index : option (Res Z)
}.

(** [request.form.get(key, default)] *)
Definition form_get (form : gmap string string) (key dflt : string) : string :=
  default dflt (form !! key).

Section Handlers.
Variable UPLOAD_FOLDER : string.
(** [werkzeug.utils.secure_filename] *)
Variable secure_filename : string -> string.
Variable GEMINI_AVAILABLE : bool.
(** The module-level [ocr_processor] instance. *)
Variable ocr_processor : PyObject Cli.OcrMethod.
(** The Gemini client: the environment key, [GeminiProcessor(key)]
    and [process_text]. *)
Variable getenv_GEMINI_API_KEY : option string.
Variable GeminiProcessor : option string -> Res string.
Variable gemini_process_text : PyVal -> list (string * PyVal) -> Res PyDict.
(** The file system, as to saving an upload with a given content at a
    given path: [None] when the save is carried out. *)
Variable save_fault : string -> string -> option SaveFault.

(** [init_chunked_upload]; [uuid4] is the string [str(uuid.uuid4())]
    evaluates to in this call. *)
Definition init_chunked_upload (uuid4 : string) (data : InitJson) (w : World)
  : World * Response :=
  let filename := secure_filename (default "" (json_filename data)) in
  let filesize := default 0 (json_filesize data) in
  let chunk_count := default 0 (json_chunk_count data) in
  if String.eqb filename "" || negb (allowed_file filename) then
    (w, failure 400 "Invalid filename or file type")
  else if MAX_FILE_SIZE <? filesize then
    (w, failure 400 "File too large. Maximum size is 50.0MB")
  else
    let upload_id := uuid4 in
    let temp_path := os_path_join UPLOAD_FOLDER ("upload_" +:+ upload_id) in
    (mkWorld (<[upload_id := mkSession filename filesize chunk_count [] temp_path]>
                (UPLOAD_SESSIONS w))
             (files w),
     mkResponse 200 (InitOk upload_id CHUNK_SIZE)).

(** [upload_chunk] *)
Definition upload_chunk (upload_id : string) (form : ChunkForm) (w : World)
  : World * Response :=
  match UPLOAD_SESSIONS w !! upload_id with
  | None => (w, failure 400 "Invalid upload session")
  | Some session =>
      match form_chunk form with
      | None => (w, failure 400 "No chunk data provided")
      | Some chunk =>
          match default (Return (-1)) (form_chunk_index form) with
          | Raise e => (w, failure 500 (exn_str e))
          | Return chunk_index =>
              if chunk_index <? 0 then (w, failure 400 "Invalid chunk index")
              else
                let files' := append_file (temp_path session) chunk (files w) in
                let session' :=
                  mkSession (filename session) (filesize session)
                    (chunk_count session)
                    (received_chunks session ++ [chunk_index])
                    (temp_path session) in
                let received := length (received_chunks session') in
                let is_complete := Z.of_nat received =? chunk_count session' in
                (mkWorld (<[upload_id := session']> (UPLOAD_SESSIONS w)) files',
                 mkResponse 200
                   (ChunkOk chunk_index received (chunk_count session') is_complete))
          end
      end
  end.

(** The [try] block of [complete_chunked_upload] up to its cleanup:
    the OCR call and the optional Gemini call. *)
Definition complete_process (fs : Files) (final_path language : string)
    (preprocess use_gemini : bool) (gemini_task gemini_prompt : string)
  : Res PyDict :=
  process_image ← getattr ocr_processor "process_image";
  ocr_result ← process_image fs final_path language None preprocess;
  let response_data : PyDict := <["ocr" := VDict ocr_result]> ∅ in
  if use_gemini && GEMINI_AVAILABLE then
    gemini_processor ← GeminiProcessor None;
    text ← getitem ocr_result "text";
    gemini_result ←
      gemini_process_text text
        [("task", VStr gemini_task);
         ("custom_prompt",
          if String.eqb gemini_prompt "" then VNone else VStr gemini_prompt)];
    Return (<["gemini" := VDict gemini_result]> response_data)
  else Return response_data.

(** The processing parameters [complete_chunked_upload] reads from
    the form, and its processing call with them. *)
Definition complete_process_form (form : gmap string string) (fs : Files)
    (final_path : string) : Res PyDict :=
  let language := form_get form "language" "eng" in
  let preprocess := String.eqb (lower (form_get form "preprocess" "false")) "true" in
  let use_gemini := String.eqb (lower (form_get form "use_gemini" "false")) "true" in
  let gemini_task := form_get form "gemini_task" "analyze" in
  let gemini_prompt := form_get form "gemini_prompt" "" in
  complete_process fs final_path language preprocess use_gemini
    gemini_task gemini_prompt.

(** [complete_chunked_upload] *)
Definition complete_chunked_upload (upload_id : string)
    (form : gmap string string) (w : World) : World * Response :=
  match UPLOAD_SESSIONS w !! upload_id with
  | None => (w, failure 400 "Invalid upload session")
  | Some session =>
      let received := length (received_chunks session) in
      if negb (Z.of_nat received =? chunk_count session) then
        (w, failure 400
              ("Incomplete upload: " +:+ pretty received +:+ "/"
               +:+ pretty (chunk_count session) +:+ " chunks received"))
      else
        let final_path := os_path_join UPLOAD_FOLDER (filename session) in
        match os_rename (temp_path session) final_path (files w) with
        | Raise e => (w, failure 500 (exn_str e))
        | Return fs =>
            match
              response_data ← complete_process_form form fs final_path;
              fs' ← os_remove final_path fs;
              Return (response_data, fs')
            with
            | Return (response_data, fs') =>
                (mkWorld (delete upload_id (UPLOAD_SESSIONS w)) fs',
                 mkResponse 200 (CompleteOk response_data))
            | Raise e =>
                let fs' := if os_path_exists final_path fs
                           then delete final_path fs else fs in
                (mkWorld (delete upload_id (UPLOAD_SESSIONS w)) fs',
                 failure 500 (exn_str e))
            end
        end
  end.

(** [cancel_chunked_upload] *)
Definition cancel_chunked_upload (upload_id : string) (w : World)
  : World * Response :=
  match UPLOAD_SESSIONS w !! upload_id with
  | None => (w, failure 400 "Invalid upload session")
  | Some session =>
      let fs' := if os_path_exists (temp_path session) (files w)
                 then delete (temp_path session) (files w) else files w in
      (mkWorld (delete upload_id (UPLOAD_SESSIONS w)) fs',
       mkResponse 200 (CancelOk "Upload cancelled"))
  end.

(** The requests of the chunked upload protocol; an init request
    carries the identifier [uuid4] hands out for it. *)
Inductive Request : Type :=
| Init (uuid4 : string) (data : InitJson)
| Chunk (upload_id : string) (form : ChunkForm)
| Complete (upload_id : string) (form : gmap string string)
| Cancel (upload_id : string).

Definition handle (w : World) (r : Request) : World * Response :=
  match r with
  | Init uuid4 data => init_chunked_upload uuid4 data w
  | Chunk upload_id form => upload_chunk upload_id form w
  | Complete upload_id form => complete_chunked_upload upload_id form w
  | Cancel upload_id => cancel_chunked_upload upload_id w
  end.

(** The state after serving a sequence of requests, one at a time. *)
Definition serve (w : World) (rs : list Request) : World :=
  foldl (fun w r => fst (handle w r)) w rs.

(** One uploaded part of a multipart request. *)
Record Upload := mkUpload { up_filename : string; up_content : string }.

(** The body of the loop of [batch_process] for one file; the state
    is the files, [results] and [failed]. *)
Definition batch_step (language config : string)
    (preprocess use_gemini : bool) (gemini_task : string)
    (st : Files * list PyDict * list (string * string)) (file : Upload)
  : Files * list PyDict * list (string * string) :=
  let '(fs, results, failed) := st in
  if negb (allowed_file (up_filename file)) then
    (fs, results, failed ++ [(up_filename file, "File type not allowed")])
  else
    let filename := secure_filename (up_filename file) in
    let filepath := os_path_join UPLOAD_FOLDER filename in
    let on_error (fs : Files) results (e : PyExn) :=
      (if os_path_exists filepath fs then delete filepath fs else fs,
       results, failed ++ [(up_filename file, exn_str e)]) in
    match
      file_save (save_fault filepath (up_content file)) filepath (up_content file) fs
    with
    | (fs1, Some e) => on_error fs1 results e
    | (fs1, None) =>
        match
          extract_text ← getattr ocr_processor "extract_text";
          result ← extract_text fs1 filepath language (Some config) preprocess;
          let result := <["filename" := VStr filename]> result in
          if use_gemini && GEMINI_AVAILABLE && negb (has_key result "error") then
            match getenv_GEMINI_API_KEY with
            | Some key =>
                if String.eqb key "" then Return result
                else
                  gemini ← GeminiProcessor (Some key);
                  text ← getitem result "text";
                  gemini_result ←
                    gemini_process_text text [("task", VStr gemini_task)];
                  Return (<["gemini" := VDict gemini_result]> result)
            | None => Return result
            end
          else Return result
        with
        | Raise e => on_error fs1 results e
        | Return result =>
            match os_remove filepath fs1 with
            | Return fs2 => (fs2, results ++ [result], failed)
            | Raise e => on_error fs1 (results ++ [result]) e
            end
        end
    end.

(** [batch_process]: the form fields and the parts uploaded under
    [files]. *)
Definition batch_process (form : gmap string string) (uploads : list Upload)
    (w : World) : World * Response :=
  match uploads with
  | [] => (w, failure 400 "No files provided")
  | _ =>
      let language := form_get form "language" "eng" in
      let config := form_get form "config" "--psm 6" in
      let preprocess := String.eqb (lower (form_get form "preprocess" "false")) "true" in
      let use_gemini := String.eqb (lower (form_get form "use_gemini" "false")) "true" in
      let gemini_task := form_get form "gemini_task" "analyze" in
      let '(fs, results, failed) :=
        foldl (batch_step language config preprocess use_gemini gemini_task)
              (files w, [], []) uploads in
      (mkWorld (UPLOAD_SESSIONS w) fs,
       mkResponse 200
         (BatchOk (length uploads) (length results) (length failed)
            results failed))
  end.
End Handlers.

End Api.

(** ** batch_cli.py: the batch dispatcher *)

Module BatchCli.
Import Py.

(** The Gemini options of the parsed command line. *)
Record GeminiArgs := mkGeminiArgs {
  gemini : bool;
  gemini_task : string;
  gemini_prompt : option string;
  gemini_temperature : spec_float;
  gemini_max_tokens : option Z
}.

(** The parsed command line; the Gemini options exist only when the
    Gemini module could be imported. *)
Record Args := mkArgs {
  language : string;
  config : string;
  preprocess : bool;
  workers : Z;
  continue_on_error : bool;
  gemini_args : option GeminiArgs
}.

Definition opt_val {A} (f : A -> PyVal) (o : option A) : PyVal :=
  match o with
  | Some a => f a
  | None => VNone
  end.

Section Dispatcher.
Variable eng : Cli.Engine.
(** The files on disk. *)
Variable fs : Files.

(** [process_file]; [gemini] is the [process_text] method of the
    client when one was built, [processing_time] the difference of
    the two clock readings. *)
Definition process_file (file_path : string) (args : Args)
    (gemini : option (PyVal -> list (string * PyVal) -> Res PyDict))
    (processing_time : spec_float) : Res PyDict :=
  let result :=
    Cli.extract_text eng fs file_path (language args) (config args)
      (preprocess args) in
  let result := <["file_path" := VStr file_path]> result in
  rounded ← round2 processing_time;
  let result := <["processing_time" := VFloat rounded]> result in
  match gemini, gemini_args args with
  | Some process_text, Some ga =>
      if negb (truthy (result !! "error")) && BatchCli.gemini ga then
        Return
          (try_except
             (text ← getitem result "text";
              gemini_result ←
                process_text text
                  [("prompt", opt_val VStr (gemini_prompt ga));
                   ("task", VStr (gemini_task ga));
                   ("temperature", VFloat (gemini_temperature ga));
                   ("max_tokens", opt_val VInt (gemini_max_tokens ga))];
              Return (<["gemini" := VDict gemini_result]> result))
             (fun e =>
                <["gemini" := VDict (<["success" := VBool false]>
                                      (<["error" := VStr (exn_str e)]> ∅))]>
                  result))
      else Return result
  | _, _ => Return result
  end.

(** The [summary] dictionary of [main]: the counts and the two
    collections (the success rate, a percentage derived from the
    counts, is left out). *)
Record Summary := mkSummary {
  total_files : nat;
  successful : nat;
  failed : nat;
  results : list PyDict;
  failed_files : list (string * PyVal)
}.

(** What the main thread does, in order; and, in the runs that follow
    the workers too, what a worker of the pool does. *)
Inductive Event : Type :=
| Submit (file_path : string)      (* [executor.submit(process_file, file_path, ..)] *)
| Completed (file_path : string)   (* [as_completed] hands over this file's future *)
| Exit (code : Z)                  (* [sys.exit(code)]: the process exits *)
| Uncaught (e : PyExn)             (* an exception leaves [main] *)
| Output (summary : Summary)       (* the summary is printed or saved *)
| Started (file_path : string).    (* a worker takes this file's work item and
                                      calls [process_file] on it *)

(** How the loop over [as_completed] ends. *)
Inductive LoopEnd : Type :=
| Finished (results : list PyDict) (failed_files : list (string * PyVal))
| SysExit (code : Z) (results : list PyDict) (failed_files : list (string * PyVal)).

(** The loop [for future in as_completed(future_to_file)]:
    [completed] lists, in the order [as_completed] yields them, each
    future's file and what [future.result()] does. *)
Fixpoint collect (continue_on_error : bool)
    (completed : list (string * Res PyDict))
    (results : list PyDict) (failed_files : list (string * PyVal))
  : list Event * LoopEnd :=
  match completed with
  | [] => ([], Finished results failed_files)
  | (file_path, outcome) :: rest =>
      let on_failure (err : PyVal) :=
        let failed_files := failed_files ++ [(file_path, err)] in
        if negb continue_on_error
        then ([Completed file_path; Exit 1], SysExit 1 results failed_files)
        else
          let '(tr, e) := collect continue_on_error rest results failed_files in
          (Completed file_path :: tr, e) in
      match outcome with
      | Return result =>
          match result !! "error" with
          | Some err => on_failure err
          | None =>
              let '(tr, e) :=
                collect continue_on_error rest (results ++ [result]) failed_files in
              (Completed file_path :: tr, e)
          end
      | Raise e => on_failure (VStr (exn_str e))
      end
  end.

(** [future_to_file]: one future per file, in submission order, with
    what [future.result()] does once it is done; [processing_time i]
    is the time measured for future [i]. *)
Definition future_to_file (args : Args)
    (gemini : option (PyVal -> list (string * PyVal) -> Res PyDict))
    (files_to_process : list string) (processing_time : nat -> spec_float)
  : list (string * Res PyDict) :=
  imap (fun i file_path =>
          (file_path, process_file file_path args gemini (processing_time i)))
       files_to_process.

(** [as_completed(future_to_file)]: the futures in the order they are
    yielded; [order] lists them by position in [files_to_process]. *)
Definition as_completed {A} (futures : list A) (order : list nat) : list A :=
  omap (fun i => futures !! i) order.

(** [main] from the point where [files_to_process] is collected and
    the Gemini client is built: what the main thread does.  (What the
    workers do meanwhile, and while the main thread leaves the [with]
    block, is in [run] below.) *)
Definition main (args : Args)
    (gemini : option (PyVal -> list (string * PyVal) -> Res PyDict))
    (files_to_process : list string) (order : list nat)
    (processing_time : nat -> spec_float) : list Event :=
  match files_to_process with
  | [] => [Exit 1]
  | _ =>
      if workers args <=? 0 then
        [Uncaught (mkExn "ValueError" "max_workers must be greater than 0")]
      else
        let futures := future_to_file args gemini files_to_process processing_time in
        let '(tr, e) :=
          collect (continue_on_error args) (as_completed futures order) [] [] in
        map Submit files_to_process ++ tr ++
        match e with
        | SysExit _ _ _ => []
        | Finished results failed_files =>
            [Output (mkSummary (length files_to_process) (length results)
                       (length failed_files) results failed_files)]
        end
  end.

(** *** The pool at work

    [with ThreadPoolExecutor(max_workers=args.workers) as executor]:
    the main thread and the workers of the pool, under a schedule that
    says which thread moves next.  A work item is named by the position
    of its file in [files_to_process]. *)

Inductive Step : Type :=
| Main_submits            (* the main thread submits the next file *)
| Worker_takes            (* an idle worker takes the oldest work item of the queue *)
| Worker_ends (i : nat)   (* the worker that runs work item [i] finishes it *)
| Main_takes (i : nat).   (* [as_completed] yields the finished future [i] *)

(** Where the main thread is. *)
Inductive MainThread : Type :=
| Submitting      (* in the comprehension that submits the files *)
| Looping (results : list PyDict) (failed_files : list (string * PyVal))
                  (* in the loop over [as_completed] *)
| Leaving (code : Z)
                  (* [sys.exit(code)] was raised inside the [with] block, whose
                     exit, [executor.shutdown(wait=True)], waits for the workers *)
| Ended.          (* the process has exited, or the summary is out *)

Record Pool := mkPool {
  main_thread : MainThread;
  submitted : nat;        (* how many files have been submitted *)
  queue : list nat;       (* the work items not yet taken, oldest first *)
  running : list nat;     (* the work items the workers are running *)
  finished : list nat;    (* the futures that are done and not yet yielded *)
  yielded : nat;          (* how many futures [as_completed] has yielded *)
  trace : list Event      (* what has happened, in order *)
}.

Definition start : Pool := mkPool Submitting 0 [] [] [] 0 [].

(** [l] without the first occurrence of [i]. *)
Fixpoint remove_one (i : nat) (l : list nat) : list nat :=
  match l with
  | [] => []
  | j :: l => if Nat.eqb i j then l else j :: remove_one i l
  end.

Definition mem (i : nat) (l : list nat) : bool := existsb (Nat.eqb i) l.

Section Run.
Variable args : Args.
Variable gemini : option (PyVal -> list (string * PyVal) -> Res PyDict).
Variable files_to_process : list string.
Variable processing_time : nat -> spec_float.

(** The body of the loop for the future of work item [i], whose file
    is [file_path]: where the main thread is afterwards. *)
Definition loop_body (i : nat) (file_path : string)
    (results : list PyDict) (failed_files : list (string * PyVal)) : MainThread :=
  let on_failure (err : PyVal) :=
    if negb (continue_on_error args) then Leaving 1
    else Looping results (failed_files ++ [(file_path, err)]) in
  match process_file file_path args gemini (processing_time i) with
  | Return result =>
      match result !! "error" with
      | Some err => on_failure err
      | None => Looping (results ++ [result]) failed_files
      end
  | Raise e => on_failure (VStr (exn_str e))
  end.

(** One move of the thread the schedule names; a thread that cannot
    move stays where it is. *)
Definition step (p : Pool) (s : Step) : Pool :=
  match main_thread p, s with
  | Ended, _ => p
  | Submitting, Main_submits =>
      match files_to_process !! submitted p with
      | Some file_path =>
          mkPool (if (S (submitted p) =? length files_to_process)%nat
                  then Looping [] [] else Submitting)
            (S (submitted p)) (queue p ++ [submitted p]) (running p) (finished p)
            (yielded p) (trace p ++ [Submit file_path])
      | None => p
      end
  | _, Worker_takes =>
      match queue p with
      | i :: rest =>
          if Z.of_nat (length (running p)) <? workers args then
            mkPool (main_thread p) (submitted p) rest (running p ++ [i])
              (finished p) (yielded p)
              (trace p ++ [Started (default "" (files_to_process !! i))])
          else p
      | [] => p
      end
  | _, Worker_ends i =>
      if mem i (running p) then
        mkPool (main_thread p) (submitted p) (queue p) (remove_one i (running p))
          (finished p ++ [i]) (yielded p) (trace p)
      else p
  | Looping results failed_files, Main_takes i =>
      if mem i (finished p) then
        let file_path := default "" (files_to_process !! i) in
        let tr := trace p ++ [Completed file_path] in
        match loop_body i file_path results failed_files with
        | Looping results failed_files =>
            if (S (yielded p) =? length files_to_process)%nat then
              mkPool Ended (submitted p) (queue p) (running p)
                (remove_one i (finished p)) (S (yielded p))
                (tr ++ [Output (mkSummary (length files_to_process) (length results)
                                  (length failed_files) results failed_files)])
            else
              mkPool (Looping results failed_files) (submitted p) (queue p)
                (running p) (remove_one i (finished p)) (S (yielded p)) tr
        | after =>
            mkPool after (submitted p) (queue p) (running p)
              (remove_one i (finished p)) (S (yielded p)) tr
        end
      else p
  | _, _ => p
  end.

(** [executor.shutdown(wait=True)] returns once no work item is queued
    or running; the [SystemExit] then ends the process. *)
Definition settle (p : Pool) : Pool :=
  match main_thread p, queue p, running p with
  | Leaving code, [], [] =>
      mkPool Ended (submitted p) [] [] (finished p) (yielded p)
        (trace p ++ [Exit code])
  | _, _, _ => p
  end.

Definition steps (schedule : list Step) : Pool :=
  foldl (fun p s => settle (step p s)) start schedule.

(** [main] from the point where [files_to_process] is collected and
    the Gemini client is built, the workers included: what has
    happened when the schedule is through. *)
Definition run (schedule : list Step) : list Event :=
  match files_to_process with
  | [] => [Exit 1]
  | _ =>
      if workers args <=? 0 then
        [Uncaught (mkExn "ValueError" "max_workers must be greater than 0")]
      else trace (steps schedule)
  end.
End Run.
End Dispatcher.

End BatchCli.

(** ** The specification's own words, for comparison with the code *)

Module Spec.
Import Py.

(** The confidences strictly greater than zero. *)
Definition positive (confs : list Z) : list Z :=
  filter (fun c => 0 < c) confs.

Definition total (l : list Z) : Z := foldr Z.add 0 l.

(** "The arithmetic mean of confidences strictly greater than zero ...
    and 0 when no token clears that bar". *)
Definition mean_of_positive (confs : list Z) : Res PyVal :=
  match positive confs with
  | [] => Return (VInt 0)
  | pos => VFloat <$> int_truediv (total pos) (Z.of_nat (length pos))
  end.

(** When [init] is to fail: the filename, once sanitized, is empty or
    has a disallowed extension, or the declared size exceeds the
    maximum. *)
Definition init_rejects (secure_filename : string -> string)
    (data : Api.InitJson) : Prop :=
  let filename := secure_filename (default "" (Api.json_filename data)) in
  filename = "" ∨ Api.allowed_file filename = false
  ∨ Api.MAX_FILE_SIZE < default 0 (Api.json_filesize data).

(** Every chunk index recorded in the store is nonnegative. *)
Definition indices_nonnegative (w : Api.World) : Prop :=
  ∀ upload_id session,
    Api.UPLOAD_SESSIONS w !! upload_id = Some session ->
    Forall (fun i => 0 <= i) (Api.received_chunks session).

(** "The received chunk indices are unique and a subset of
    [0, chunk_count)", for every session of the store. *)
Definition indices_unique_in_range (w : Api.World) : Prop :=
  ∀ upload_id session,
    Api.UPLOAD_SESSIONS w !! upload_id = Some session ->
    NoDup (Api.received_chunks session)
    ∧ Forall (fun i => 0 <= i < Api.chunk_count session)
             (Api.received_chunks session).

(** "[init] allocates a fresh empty destination file" for the session
    stored under [upload_id]. *)
Definition destination_allocated (w : Api.World) (upload_id : string) : Prop :=
  ∃ session, Api.UPLOAD_SESSIONS w !! upload_id = Some session
             ∧ Api.files w !! Api.temp_path session = Some "".

(** "It returns a result dictionary and never propagates an
    exception." *)
Definition returns_dictionary (outcome : Res PyDict) : Prop :=
  ∃ d, outcome = Return d.

(** A failed future, as the batch loop sees it. *)
Definition is_failure (outcome : Res PyDict) : bool :=
  match outcome with
  | Raise _ => true
  | Return result => has_key result "error"
  end.

(** The number of files whose result the main thread has taken. *)
Definition is_completed (ev : BatchCli.Event) : bool :=
  match ev with
  | BatchCli.Completed _ => true
  | _ => false
  end.

Definition processed (trace : list BatchCli.Event) : nat :=
  length (List.filter is_completed trace).

(** "Files accepted for processing" by the batch endpoint: those whose
    extension is allowed. *)
Definition accepted (uploads : list Api.Upload) : list Api.Upload :=
  filter (fun u => Api.allowed_file (Api.up_filename u) = true) uploads.
End Spec.

(** ** A stand-in engine and environment for concrete runs *)

Module Fixture.
Import Py.

(** A file decodes to its own content; a missing file cannot be
    opened. *)
Definition open_content (c : option string) : Res string :=
  match c with
  | Some s => Return s
  | None => Raise (no_such_file "image")
  end.

Definition read_content (c : option string) : Res (option string) := Return c.

Definition need_array (m : option string) : Res string :=
  match m with
  | Some s => Return s
  | None => Raise (mkExn "error" "(-215:Assertion failed) !_src.empty()")
  end.

(** The recognised text is the content, every call reports the
    confidence column [0, 0, 80, 60]. *)
Definition engine : Cli.Engine :=
  Cli.mkEngine string string
    open_content (fun m => Return m) read_content need_array
    (fun m => Return m) (fun m => Return m)
    (fun img _ _ => Return img)
    (fun _ _ _ => Return [Return 0; Return 0; Return 80; Return 60]).

(** The engine when the user interrupts the program while an image is
    being opened. *)
Definition interrupted_engine : Cli.Engine :=
  Cli.mkEngine string string
    (fun _ => Raise (mkExn "KeyboardInterrupt" "")) (fun m => Return m)
    read_content need_array
    (fun m => Return m) (fun m => Return m)
    (fun img _ _ => Return img)
    (fun _ _ _ => Return [Return 0; Return 0; Return 80; Return 60]).

(** [secure_filename] on names it leaves unchanged. *)
Definition keep_name (s : string) : string := s.

(** A file system that carries out every save. *)
Definition no_fault (p data : string) : option SaveFault := None.

(** The Gemini client of [app/gemini.py] in an environment without an
    API key; the model, were it reached, answers with an empty
    dictionary. *)
Definition no_gemini_init : option string -> Res string :=
  Gemini.__init__ None (fun _ => Return tt).

Definition no_gemini_call : PyVal -> list (string * PyVal) -> Res PyDict :=
  Gemini.process_text (fun _ _ => ∅).

Definition png_request : Api.InitJson :=
  Api.mkInitJson (Some "a.png") (Some 1000) (Some 2).

Definition chunk (index : Z) (data : string) : Api.ChunkForm :=
  Api.mkChunkForm (Some data) (Some (Return index)).

Definition args (continue_on_error : bool) (workers : Z) : BatchCli.Args :=
  BatchCli.mkArgs "eng" "--psm 6" false workers continue_on_error None.

Definition disk : Files :=
  <["one.png" := "first"]> (<["three.png" := "third"]> ∅).

Definition no_time (_ : nat) : spec_float := S754_zero false.

(** The upload handlers on the stand-ins, with [/tmp] as the upload
    folder and the processor of [cli.py]. *)
Definition handle : Api.World -> Api.Request -> Api.World * Api.Response :=
  Api.handle "/tmp" keep_name false (Cli.OCRProcessor engine)
    no_gemini_init no_gemini_call.

Definition serve : Api.World -> list Api.Request -> Api.World :=
  Api.serve "/tmp" keep_name false (Cli.OCRProcessor engine)
    no_gemini_init no_gemini_call.

(** The store after [init] and the first chunk; after both chunks;
    and after a run that sends index 0 twice and then index 7. *)
Definition one_chunk : Api.World :=
  serve Api.empty_world [Api.Init "u1" png_request; Api.Chunk "u1" (chunk 0 "AAAA")].

Definition both_chunks : Api.World :=
  serve Api.empty_world
    [Api.Init "u1" png_request; Api.Chunk "u1" (chunk 0 "AAAA");
     Api.Chunk "u1" (chunk 1 "BBBB")].

Definition repeated_requests : list Api.Request :=
  [Api.Init "u1" png_request; Api.Chunk "u1" (chunk 0 "AAAA");
   Api.Chunk "u1" (chunk 0 "AAAA"); Api.Chunk "u1" (chunk 7 "CCCC")].

Definition repeated_index : Api.World :=
  serve Api.empty_world repeated_requests.

(** The batch endpoint on the stand-ins. *)
Definition batch_process
  : gmap string string -> list Api.Upload -> Api.World -> Api.World * Api.Response :=
  Api.batch_process "/tmp" keep_name false (Cli.OCRProcessor engine) None
    no_gemini_init no_gemini_call no_fault.

(** Three files to process, the second of which is not on [disk]. *)
Definition three_files : list string := ["one.png"; "two.png"; "three.png"].

(** The future of the file at position [i]: its path and what its
    result is. *)
Definition future (continue_on_error : bool) (i : nat) (file_path : string)
  : string * Res PyDict :=
  (file_path,
   BatchCli.process_file engine disk file_path (args continue_on_error 2) None
     (no_time i)).

(** Uploads for the batch endpoint: a text file, and an image. *)
Definition text_upload : Api.Upload := Api.mkUpload "notes.txt" "hello".
Definition image_upload : Api.Upload := Api.mkUpload "a.png" "pixels".

Definition oversize_request : Api.InitJson :=
  Api.mkInitJson (Some "a.png") (Some (Api.MAX_FILE_SIZE + 1)) (Some 2).
End Fixture.

(** ** batch_cli.py: collecting the files to process *)

Module BatchInputs.
Import Py.

(** [image_extensions] of [find_image_files]. *)
Definition image_extensions : list string :=
  [".jpg"; ".jpeg"; ".png"; ".bmp"; ".tiff"; ".tif"; ".gif"; ".webp"].

(** The text after the last occurrence of [sep], [None] when [sep] does
    not occur. *)
Fixpoint after_last (sep : ascii) (s : string) : option string :=
  match s with
  | EmptyString => None
  | String c r =>
      match after_last sep r with
      | Some t => Some t
      | None => if Ascii.eqb c sep then Some r else None
      end
  end.

(** [Path(p).name]: the last component of the path. *)
Definition path_name (p : string) : string :=
  default p (after_last "/" p).

(** [Path(p).suffix]: with [i] the last dot of the name, the name from
    [i] on when [0 < i < len(name) - 1], else the empty string. *)
Definition path_suffix (p : string) : string :=
  let name := path_name p in
  match after_last "." name with
  | Some ext =>
      if (String.length ext =? 0)%nat
         || (String.length name =? S (String.length ext))%nat
      then ""
      else "." +:+ ext
  | None => ""
  end.

(** [sorted] on a list of strings: the strings are compared character
    by character, by character code. *)
Definition sorted (l : list string) : list string := merge_sort String.le l.

Section FileSystem.
(** [os.path.isfile] and [Path.is_file], [os.path.isdir], and the paths
    [Path(directory).glob(pattern)] yields, as strings. *)
Variable isfile : string -> bool.
Variable isdir : string -> bool.
Variable glob : string -> string -> list string.

(** The test of the loop of [find_image_files]. *)
Definition is_image_file (file_path : string) : bool :=
  isfile file_path && str_in (lower (path_suffix file_path)) image_extensions.

(** [find_image_files] *)
Definition find_image_files (directory : string) (recursive : bool) : list string :=
  let pattern := if recursive then "**/*" else "*" in
  sorted (List.filter is_image_file (glob directory pattern)).

(** The loop of [main] over [args.inputs] that fills
    [files_to_process]. *)
Definition files_to_process (recursive : bool) (inputs : list string) : list string :=
  foldl (fun files input_path =>
           if isfile input_path then files ++ [input_path]
           else if isdir input_path
                then files ++ find_image_files input_path recursive
                else files)
        [] inputs.
End FileSystem.
End BatchInputs.

(** ** api.py: the single-file endpoints *)

Module ApiOcr.
Import Py.

(** The JSON bodies of these endpoints. *)
Inductive Payload : Type :=
| Failed (error : PyVal)
| Data (data : PyDict).

Record Reply := mkReply { code : Z; payload : Payload }.

(** [jsonify({'success': False, 'error': msg}), code] *)
Definition refuse (code : Z) (msg : string) : Reply :=
  mkReply code (Failed (VStr msg)).

(** The literal [0.7]. *)
Definition default_temperature : spec_float :=
  SFdiv prec emax (S754_finite false 7 0) (S754_finite false 10 0).

Section Endpoints.
Variable UPLOAD_FOLDER : string.
Variable secure_filename : string -> string.
Variable GEMINI_AVAILABLE : bool.
Variable ocr_processor : PyObject Cli.OcrMethod.
Variable getenv_GEMINI_API_KEY : option string.
Variable GeminiProcessor : option string -> Res string.
Variable gemini_process_text : PyVal -> list (string * PyVal) -> Res PyDict.
(** [", ".join(ALLOWED_EXTENSIONS)], the set in its iteration order. *)
Variable allowed_types : string.
(** [float()] and [int()] on the text of a form field. *)
Variable parse_float : string -> Res spec_float.
Variable parse_int : string -> Res Z.
(** The file system, as to saving an upload with a given content at a
    given path: [None] when the save is carried out. *)
Variable save_fault : string -> string -> option SaveFault.

(** The checks on [request.files] with which both handlers start: the
    refusal, or the part uploaded under [file]. *)
Definition check_upload (file : option Api.Upload) : Reply + Api.Upload :=
  match file with
  | None => inl (refuse 400 "No file provided")
  | Some file =>
      if String.eqb (Api.up_filename file) "" then inl (refuse 400 "No file selected")
      else if negb (Api.allowed_file (Api.up_filename file)) then
        inl (refuse 400 ("File type not allowed. Allowed types: " +:+ allowed_types))
      else inr file
  end.

(** The [except] clause of the handlers, on the files as the exception
    found them. *)
Definition on_exception (filepath : string) (fs : Files) (e : PyExn) : Files * Reply :=
  (if os_path_exists filepath fs then delete filepath fs else fs,
   refuse 500 (exn_str e)).

(** [process_ocr]: the part uploaded under [file], the form, the files. *)
Definition process_ocr (file : option Api.Upload) (form : gmap string string)
    (fs : Files) : Files * Reply :=
  match check_upload file with
  | inl refusal => (fs, refusal)
  | inr file =>
      let filename := secure_filename (Api.up_filename file) in
      let filepath := os_path_join UPLOAD_FOLDER filename in
      match
        file_save (save_fault filepath (Api.up_content file))
          filepath (Api.up_content file) fs
      with
      | (fs1, Some e) => on_exception filepath fs1 e
      | (fs1, None) =>
          let language := Api.form_get form "language" "eng" in
          let config := Api.form_get form "config" "--psm 6" in
          let preprocess :=
            String.eqb (lower (Api.form_get form "preprocess" "false")) "true" in
          match
            extract_text ← getattr ocr_processor "extract_text";
            result ← extract_text fs1 filepath language (Some config) preprocess;
            fs2 ← os_remove filepath fs1;
            Return (result, fs2)
          with
          | Return (result, fs2) =>
              match result !! "error" with
              | Some err => (fs2, mkReply 500 (Failed err))
              | None => (fs2, mkReply 200 (Data result))
              end
          | Raise e => on_exception filepath fs1 e
          end
      end
  end.

(** [process_ocr_with_gemini] *)
Definition process_ocr_with_gemini (file : option Api.Upload)
    (form : gmap string string) (fs : Files) : Files * Reply :=
  if negb GEMINI_AVAILABLE then (fs, refuse 400 "Gemini integration not available")
  else
    match check_upload file with
    | inl refusal => (fs, refusal)
    | inr file =>
        let filename := secure_filename (Api.up_filename file) in
        let filepath := os_path_join UPLOAD_FOLDER filename in
        match
          file_save (save_fault filepath (Api.up_content file))
            filepath (Api.up_content file) fs
        with
        | (fs1, Some e) => on_exception filepath fs1 e
        | (fs1, None) =>
            let language := Api.form_get form "language" "eng" in
            let config := Api.form_get form "config" "--psm 6" in
            let preprocess :=
              String.eqb (lower (Api.form_get form "preprocess" "false")) "true" in
            let gemini_task := Api.form_get form "gemini_task" "analyze" in
            let gemini_prompt := BatchCli.opt_val VStr (form !! "gemini_prompt") in
            match
              gemini_temperature ←
                match form !! "gemini_temperature" with
                | Some t => parse_float t
                | None => Return default_temperature
                end;
              gemini_max_tokens ←
                match form !! "gemini_max_tokens" with
                | Some t => if String.eqb t "" then Return (VStr "") else VInt <$> parse_int t
                | None => Return VNone
                end;
              Return (gemini_temperature, gemini_max_tokens)
            with
            | Raise e => on_exception filepath fs1 e
            | Return (gemini_temperature, gemini_max_tokens) =>
                match Gemini.str_or (form !! "gemini_api_key") getenv_GEMINI_API_KEY with
                | None | Some EmptyString =>
                    match os_remove filepath fs1 with
                    | Raise e => on_exception filepath fs1 e
                    | Return fs2 =>
                        (fs2, refuse 400 "GEMINI_API_KEY not found. Please provide it in the request or set environment variable")
                    end
                | Some gemini_api_key =>
                    match
                      extract_text ← getattr ocr_processor "extract_text";
                      ocr_result ← extract_text fs1 filepath language (Some config) preprocess;
                      fs2 ← os_remove filepath fs1;
                      Return (ocr_result, fs2)
                    with
                    | Raise e => on_exception filepath fs1 e
                    | Return (ocr_result, fs2) =>
                        match ocr_result !! "error" with
                        | Some err => (fs2, mkReply 500 (Failed err))
                        | None =>
                            match
                              gemini ← GeminiProcessor (Some gemini_api_key);
                              text ← getitem ocr_result "text";
                              gemini_process_text text
                                [("prompt", gemini_prompt);
                                 ("task", VStr gemini_task);
                                 ("temperature", VFloat gemini_temperature);
                                 ("max_tokens", gemini_max_tokens)]
                            with
                            | Raise e => on_exception filepath fs2 e
                            | Return gemini_result =>
                                (fs2,
                                 mkReply 200
                                   (Data (<["ocr" := VDict ocr_result]>
                                            (<["gemini" := VDict gemini_result]> ∅))))
                            end
                        end
                    end
                end
            end
        end
    end.
End Endpoints.
End ApiOcr.

(** ** app/gemini.py: the prompts and the body of [process_text] *)

Module GeminiText.
Import Py.

(** A line break. *)
Definition nl : string := String "010"%char "".

(** A triple-quoted template, line by line: every line is followed by
    a line break. *)
Definition lines (l : list string) : string :=
  foldr (fun line rest => line +:+ nl +:+ rest) "" l.

Definition analyze (text : string) : string :=
  lines [""; "Analyze the following OCR-extracted text and provide insights:";
         "";
         "1. Document type and structure";
         "2. Key information extracted";
         "3. Data quality assessment";
         "4. Potential improvements needed";
         "5. Summary of content";
         "";
         "Text to analyze:";
         text].

(** The [prompts] dictionary of [_build_task_prompt]. *)
Definition prompts (text : string) : gmap string string :=
  <["analyze" := analyze text]>
  (<["summarize" :=
      lines [""; "Create a concise summary of the following OCR-extracted text. Focus on the main points and key information:";
             "";
             "Text to summarize:";
             text]]>
  (<["structure" :=
      lines [""; "Structure and organize the following OCR-extracted text into a clean, readable format. Fix any OCR errors and improve formatting:";
             "";
             "Text to structure:";
             text]]>
  (<["extract" :=
      lines [""; "Extract and organize key information from the following OCR text. Identify:";
             "- Names, dates, addresses";
             "- Important numbers, amounts, IDs";
             "- Key facts and data points";
             "- Contact information";
             "";
             "Present the information in a structured format (JSON or organized list):";
             "";
             "Text to extract from:";
             text]]>
  (<["translate" :=
      lines [""; "First, detect the language of the following OCR-extracted text, then translate it to English. If it's already in English, just clean up any OCR errors:";
             "";
             "Text to translate:";
             text]]>
  (<["validate" :=
      lines [""; "Validate and fact-check the information in the following OCR-extracted text. Look for:";
             "- Inconsistencies or errors";
             "- Missing information";
             "- Data that seems incorrect";
             "- Suggestions for verification";
             "";
             "Text to validate:";
             text]]>
  (<["format" :=
      lines [""; "Format the following OCR-extracted text into a professional document format. Clean up OCR errors, improve structure, and make it presentation-ready:";
             "";
             "Text to format:";
             text]]> ∅)))))).

(** [_build_task_prompt]: [prompts.get(task, prompts["analyze"])] *)
Definition _build_task_prompt (text task : string) : string :=
  default (analyze text) (prompts text !! task).

(** [get_available_tasks] *)
Definition get_available_tasks : gmap string string :=
  <["analyze" := "Analyze document structure and content"]>
  (<["summarize" := "Create a concise summary"]>
  (<["structure" := "Clean and organize the text"]>
  (<["extract" := "Extract key information and data"]>
  (<["translate" := "Detect language and translate to English"]>
  (<["validate" := "Validate and fact-check information"]>
  (<["format" := "Format into professional document"]> ∅)))))).

(** The literal [0.95]. *)
Definition top_p : spec_float :=
  SFdiv prec emax (S754_finite false 95 0) (S754_finite false 100 0).

(** [generation_config], with [max_output_tokens] when [max_tokens] is
    true. *)
Definition generation_config (temperature max_tokens : PyVal) : PyDict :=
  let generation_config :=
    <["temperature" := temperature]>
      (<["top_p" := VFloat top_p]> (<["top_k" := VInt 64]> ∅)) in
  if truthy (Some max_tokens)
  then <["max_output_tokens" := max_tokens]> generation_config
  else generation_config.

(** The prompt [process_text] sends: the custom prompt when it is true,
    else the template of the task. *)
Definition full_prompt (text : string) (prompt : option string) (task : string)
  : string :=
  match prompt with
  | Some p =>
      if String.eqb p "" then _build_task_prompt text task
      else p +:+ nl +:+ nl +:+ "Text to process:" +:+ nl +:+ text
  | None => _build_task_prompt text task
  end.

Section Model.
(** [self.model.generate_content(prompt, generation_config=...)], and
    the [text] of the response. *)
Variable generate_content : string -> PyDict -> Res (option string).

(** [GeminiProcessor.process_text], on a text that is a string. *)
Definition process_text (text : string) (prompt : option string) (task : string)
    (temperature max_tokens : PyVal) : PyDict :=
  try_except
    (let full_prompt := full_prompt text prompt task in
     let generation_config := generation_config temperature max_tokens in
     response_text ← generate_content full_prompt generation_config;
     Return (<["success" := VBool true]>
             (<["response" := BatchCli.opt_val VStr response_text]>
             (<["task" := VStr task]>
             (<["prompt_used" := VStr full_prompt]>
             (<["usage" :=
                 VDict (<["prompt_tokens" :=
                           VInt (Z.of_nat (length (split full_prompt)))]>
                       (<["completion_tokens" :=
                           VInt (match response_text with
                                 | Some t =>
                                     if String.eqb t "" then 0
                                     else Z.of_nat (length (split t))
                                 | None => 0
                                 end)]> ∅))]> ∅))))))
    (fun e => <["success" := VBool false]>
              (<["error" := VStr (exn_str e)]>
              (<["task" := VStr task]>
              (<["response" := VNone]> ∅)))).
End Model.
End GeminiText.

(** ** Further notions used to state properties of the code *)

Module Protocol.
Import Py.

(** The requests that send the given chunks, index and payload, to one
    session, in this order. *)
Definition chunk_requests (upload_id : string) (chunks : list (Z * string))
  : list Api.Request :=
  map (fun c => Api.Chunk upload_id (Api.mkChunkForm (Some (snd c)) (Some (Return (fst c)))))
      chunks.

(** The identifiers [uuid4] produced for the [init] requests of a
    run, in order. *)
Definition generated (rs : list Api.Request) : list string :=
  omap (fun r => match r with
                 | Api.Init uuid4 _ => Some uuid4
                 | _ => None
                 end) rs.

(** The payloads one after the other. *)
Definition joined (payloads : list string) : string :=
  foldr String.append "" payloads.

(** What [init_chunked_upload] establishes for the session it stores
    under [upload_id]: where its backing file is, and what its file
    name is like. *)
Definition session_well_formed (folder upload_id : string) (s : Api.Session) : Prop :=
  Api.temp_path s = os_path_join folder ("upload_" +:+ upload_id)
  ∧ Api.filename s ≠ ""
  ∧ Api.allowed_file (Api.filename s) = true.

(** A session as [upload_chunk] leaves it after recording [indices]. *)
Definition with_received (s : Api.Session) (indices : list Z) : Api.Session :=
  Api.mkSession (Api.filename s) (Api.filesize s) (Api.chunk_count s)
    (Api.received_chunks s ++ indices) (Api.temp_path s).
End Protocol.

Module Outcome.
Import Py.

(** The results of the futures that did not fail, in the order given. *)
Definition successes (completed : list (string * Res PyDict)) : list PyDict :=
  omap (fun f => match snd f with
                 | Return result =>
                     match result !! "error" with
                     | None => Some result
                     | Some _ => None
                     end
                 | Raise _ => None
                 end) completed.

(** The failed futures, each with its file and its error, in the order
    given. *)
Definition failures (completed : list (string * Res PyDict))
  : list (string * PyVal) :=
  omap (fun f => match snd f with
                 | Return result => (fun err => (fst f, err)) <$> result !! "error"
                 | Raise e => Some (fst f, VStr (exn_str e))
                 end) completed.

(** Where the batch endpoint saves an upload. *)
Definition upload_path (folder : string) (secure_filename : string -> string)
    (u : Api.Upload) : string :=
  os_path_join folder (secure_filename (Api.up_filename u)).

(** What the batch endpoint reports for an accepted upload when the
    Gemini step is off: the extraction of the saved file, with the
    sanitized name added. *)
Definition batch_result (eng : Cli.Engine) (folder : string)
    (secure_filename : string -> string) (form : gmap string string)
    (u : Api.Upload) : PyDict :=
  <["filename" := VStr (secure_filename (Api.up_filename u))]>
    (Cli.extract_text eng
       (<[upload_path folder secure_filename u := Api.up_content u]> ∅)
       (upload_path folder secure_filename u)
       (Api.form_get form "language" "eng")
       (Api.form_get form "config" "--psm 6")
       (String.eqb (lower (Api.form_get form "preprocess" "false")) "true")).

(** The files once the batch endpoint is done with an upload: an
    accepted upload's path is cleared. *)
Definition cleared (folder : string) (secure_filename : string -> string)
    (files : Files) (u : Api.Upload) : Files :=
  if Api.allowed_file (Api.up_filename u)
  then delete (upload_path folder secure_filename u) files
  else files.

(** Why the batch endpoint does not come to extract an upload, if so:
    its extension is refused, or the file system does not save it. *)
Definition batch_failure (folder : string) (secure_filename : string -> string)
    (save_fault : string -> string -> option SaveFault) (u : Api.Upload)
  : option (string * string) :=
  if negb (Api.allowed_file (Api.up_filename u))
  then Some (Api.up_filename u, "File type not allowed")
  else
    (fun fault => (Api.up_filename u, exn_str (save_error fault)))
      <$> save_fault (upload_path folder secure_filename u) (Api.up_content u).

(** The uploads the batch endpoint saves: those with an allowed
    extension that the file system accepts. *)
Definition saved (folder : string) (secure_filename : string -> string)
    (save_fault : string -> string -> option SaveFault)
    (uploads : list Api.Upload) : list Api.Upload :=
  List.filter
    (fun u => match batch_failure folder secure_filename save_fault u with
              | None => true
              | Some _ => false
              end)
    uploads.
End Outcome.

(** ** Notions about the runs of the pool *)

Module Workers.
Import Py.

(** The files on which a worker has called [process_file], in order. *)
Definition started (tr : list BatchCli.Event) : list string :=
  omap (fun ev => match ev with
                  | BatchCli.Started file_path => Some file_path
                  | _ => None
                  end) tr.

Definition is_started (ev : BatchCli.Event) : bool :=
  match ev with
  | BatchCli.Started _ => true
  | _ => false
  end.

(** The events with which the process ends or [main] is left. *)
Definition is_end (ev : BatchCli.Event) : bool :=
  match ev with
  | BatchCli.Exit _ | BatchCli.Output _ | BatchCli.Uncaught _ => true
  | _ => false
  end.

Section Invariant.
Variable eng : Cli.Engine.
Variable fs : Files.
Variable args : BatchCli.Args.
Variable gemini : option (PyVal -> list (string * PyVal) -> Res PyDict).
Variable files_to_process : list string.
Variable processing_time : nat -> spec_float.

(** The future of [file_path], submitted at position [i], has failed. *)
Definition failed (file_path : string) : Prop :=
  ∃ i, files_to_process !! i = Some file_path
       ∧ Spec.is_failure
           (BatchCli.process_file eng fs file_path args gemini (processing_time i))
         = true.

(** The future of [file_path], submitted at position [i], has not
    failed. *)
Definition succeeded (file_path : string) : Prop :=
  ∃ i, files_to_process !! i = Some file_path
       ∧ Spec.is_failure
           (BatchCli.process_file eng fs file_path args gemini (processing_time i))
         = false.

(** An event of a run that goes on: it does not end the process, and
    when failures are not to be passed over, a result that is taken is
    not a failure. *)
Definition goes_on (ev : BatchCli.Event) : Prop :=
  is_end ev = false
  ∧ (BatchCli.continue_on_error args = false ->
     ∀ file_path, ev = BatchCli.Completed file_path -> succeeded file_path).

(** The trace of a run that [sys.exit(1)] has ended, or is ending:
    [pre], the result of the failed file taken, and then only workers
    starting on files. *)
Definition after_failure (tr post : list BatchCli.Event) : Prop :=
  ∃ pre file_path,
    tr = pre ++ BatchCli.Completed file_path :: post
    ∧ Forall goes_on pre
    ∧ failed file_path.

Definition phase (p : BatchCli.Pool) : Prop :=
  match BatchCli.main_thread p with
  | BatchCli.Submitting =>
      (BatchCli.submitted p < length files_to_process)%nat
      ∧ Forall goes_on (BatchCli.trace p)
  | BatchCli.Looping _ _ =>
      BatchCli.submitted p = length files_to_process
      ∧ Forall goes_on (BatchCli.trace p)
  | BatchCli.Leaving code =>
      code = 1
      ∧ BatchCli.submitted p = length files_to_process
      ∧ ∃ post, after_failure (BatchCli.trace p) post
                ∧ Forall (fun ev => is_started ev = true) post
  | BatchCli.Ended =>
      (∃ post, after_failure (BatchCli.trace p) (post ++ [BatchCli.Exit 1])
               ∧ Forall (fun ev => is_started ev = true) post
               ∧ started (BatchCli.trace p) = files_to_process)
      ∨ (∃ tr summary, BatchCli.trace p = tr ++ [BatchCli.Output summary]
                       ∧ Forall goes_on tr)
  end.

(** What every state of a run satisfies. *)
Definition invariant (p : BatchCli.Pool) : Prop :=
  (∃ k, (k <= BatchCli.submitted p)%nat
        ∧ BatchCli.queue p = seq k (BatchCli.submitted p - k)
        ∧ started (BatchCli.trace p) = take k files_to_process)
  ∧ (BatchCli.submitted p <= length files_to_process)%nat
  ∧ (Spec.processed (BatchCli.trace p) + length (BatchCli.finished p)
     + length (BatchCli.running p) + length (BatchCli.queue p)
     = BatchCli.submitted p)%nat
  ∧ Forall (fun i => (i < BatchCli.submitted p)%nat)
      (BatchCli.running p ++ BatchCli.finished p)
  ∧ phase p.
End Invariant.
End Workers.

(** ** More stand-ins for concrete runs *)

Module Sample.
Import Py.

(** An engine whose confidence column holds a value [int()] refuses. *)
Definition unreadable_cell : Cli.ConfCell :=
  Raise (mkExn "ValueError" "invalid literal for int() with base 10: '96.5'").

Definition unreadable_engine : Cli.Engine :=
  Cli.mkEngine string string
    Fixture.open_content (fun m => Return m) Fixture.read_content Fixture.need_array
    (fun m => Return m) (fun m => Return m)
    (fun img _ _ => Return img)
    (fun _ _ _ => Return [Return 96; unreadable_cell; Return 80]).

(** A file whose recognised text has blanks around it. *)
Definition padded_disk : Files := <["p.png" := "  scanned text "]> ∅.

(** An engine that opens no image and raises an exception whose
    message is empty. *)
Definition silent_engine : Cli.Engine :=
  Cli.mkEngine string string
    (fun _ => Raise (mkExn "Exception" "")) (fun m => Return m)
    Fixture.read_content Fixture.need_array
    (fun m => Return m) (fun m => Return m)
    (fun img _ _ => Return img)
    (fun _ _ _ => Return []).

(** A command line with [--gemini] and the defaults of the other Gemini
    options. *)
Definition gemini_options : BatchCli.GeminiArgs :=
  BatchCli.mkGeminiArgs true "analyze" None ApiOcr.default_temperature None.

Definition gemini_args : BatchCli.Args :=
  BatchCli.mkArgs "eng" "--psm 6" false 2 true (Some gemini_options).

(** A Gemini client whose model answers every call with success. *)
Definition gemini_ok : PyVal -> list (string * PyVal) -> Res PyDict :=
  Gemini.process_text (fun _ _ => <["success" := VBool true]> ∅).

(** Two live sessions, the first with one chunk received. *)
Definition two_sessions_requests : list Api.Request :=
  [Api.Init "u1" Fixture.png_request; Api.Init "u2" Fixture.png_request;
   Api.Chunk "u1" (Fixture.chunk 0 "AAAA")].

(** A session declared with no chunk at all. *)
Definition no_chunks : Api.World :=
  Fixture.serve Api.empty_world
    [Api.Init "u0" (Api.mkInitJson (Some "a.png") (Some 0) (Some 0))].

(** A session just initialised. *)
Definition fresh_session : Api.World :=
  Fixture.serve Api.empty_world [Api.Init "u1" Fixture.png_request].

(** A directory [in] with two images, a text file and a sub-directory,
    and a file [one.png] beside it. *)
Definition isfile (p : string) : bool :=
  str_in p ["in/b.PNG"; "in/a.jpg"; "in/notes.txt"; "one.png"].

Definition isdir (p : string) : bool := String.eqb p "in".

Definition glob (directory pattern : string) : list string :=
  if String.eqb directory "in"
  then ["in/b.PNG"; "in/sub"; "in/a.jpg"; "in/notes.txt"]
  else [].

(** [float()] and [int()] on text that is not a number. *)
Definition refuse_float (s : string) : Res spec_float :=
  Raise (mkExn "ValueError" ("could not convert string to float: '" +:+ s +:+ "'")).

Definition refuse_int (s : string) : Res Z :=
  Raise (mkExn "ValueError"
           ("invalid literal for int() with base 10: '" +:+ s +:+ "'")).

(** The upload folder with a file already stored as [a.png]. *)
Definition stored : Files := <["/tmp/a.png" := "old"]> ∅.

(** A file system that refuses to create a file whose name is longer
    than 255 bytes, and an upload with such a name. *)
Definition long_name_fault (p data : string) : option SaveFault :=
  if (255 <? String.length (BatchInputs.path_name p))%nat
  then Some (mkSaveFault
               (mkExn "OSError" ("[Errno 36] File name too long: '" +:+ p +:+ "'"))
               None)
  else None.

Definition long_name : string :=
  String.string_of_list_ascii (replicate 260 "a"%char) +:+ ".png".

Definition long_upload : Api.Upload := Api.mkUpload long_name "pixels".

(** Three files to process, the first of which is not on the disk of
    [Fixture]; and, for one worker, the schedule in which the main
    thread takes each result as soon as it is there. *)
Definition missing_first : list string := ["two.png"; "one.png"; "three.png"].

Definition prompt_schedule : list BatchCli.Step :=
  [BatchCli.Main_submits; BatchCli.Main_submits; BatchCli.Main_submits;
   BatchCli.Worker_takes; BatchCli.Worker_ends 0; BatchCli.Main_takes 0;
   BatchCli.Worker_takes; BatchCli.Worker_ends 1;
   BatchCli.Worker_takes; BatchCli.Worker_ends 2].

(** A model that answers every prompt. *)
Definition answering_model (prompt : string) (generation_config : PyDict)
  : Res (option string) := Return (Some "ok").
End Sample.

(** ** Theorems: the extraction invoker *)

Section ResultMonad.
Import Py.

Lemma bind_Return {A B} (a : A) (f : A -> Res B) : (Return a ≫= f) = f a.
Proof. reflexivity. Qed.

Lemma fmap_Return {A B} (a : A) (f : A -> B) : f <$> Return a = Return (f a).
Proof. reflexivity. Qed.
End ResultMonad.

Section Confidence.
Import Py.

(** The comprehension keeps exactly the strictly positive values when
    every [int(conf)] succeeds. *)
Lemma positive_confidences_filter (confs : list Z) :
  Cli.positive_confidences (Return <$> confs) = Return (Spec.positive confs).
Proof.
  induction confs as [|c confs IH]; [reflexivity|].
  rewrite fmap_cons. cbn [Cli.positive_confidences].
  rewrite bind_Return. unfold Spec.positive in *.
  destruct (0 <? c) eqn:Hc.
  - rewrite bind_Return, IH, bind_Return.
    apply Z.ltb_lt in Hc. by rewrite filter_cons_True.
  - rewrite IH. apply Z.ltb_ge in Hc.
    rewrite filter_cons_False; [done | lia].
Qed.

Lemma foldl_add_shift (l : list Z) (a : Z) : foldl Z.add a l = a + Spec.total l.
Proof.
  revert a. induction l as [|x l IH]; intros a; unfold Spec.total in *;
    cbn [foldl foldr]; [lia|].
  rewrite IH. lia.
Qed.

Lemma sum_total (l : list Z) : Cli.sum l = Spec.total l.
Proof. unfold Cli.sum. rewrite foldl_add_shift. lia. Qed.

Lemma avg_confidence_mean (confs : list Z) :
  Cli.avg_confidence (Spec.positive confs) = Spec.mean_of_positive confs.
Proof.
  unfold Cli.avg_confidence, Spec.mean_of_positive.
  destruct (Spec.positive confs) as [|p ps]; [reflexivity|].
  by rewrite sum_total.
Qed.

Lemma round_2_not_int0_of_float (r : Res spec_float) :
  ((VFloat <$> r) ≫= Cli.round_2) ≠ Return (VInt 0).
Proof.
  destruct r as [x|e]; cbn; [|discriminate].
  unfold Cli.round_2. destruct (round2 x); cbn; discriminate.
Qed.

(** The number of hundredths kept by [round2] is the integer nearest to
    a hundred times the exact value [m * 2^e]. *)
Lemma hundredths_nearest (m : positive) (e : Z) :
  e < 0 ->
  Z.abs (2 * (hundredths m e * 2 ^ (- e) - Zpos m * 100)) <= 2 ^ (- e).
Proof.
  intros He. unfold hundredths, nearest_even.
  destruct (0 <=? e) eqn:E; [apply Z.leb_le in E; lia|].
  set (d := 2 ^ (- e)). set (n := Z.pos m * 100).
  assert (Hd : 0 < d) by (apply Z.pow_pos_nonneg; lia).
  pose proof (Z.div_mod n d ltac:(lia)) as Hdiv.
  pose proof (Z.mod_pos_bound n d Hd) as Hmod.
  remember (n / d) as q eqn:Hq. remember (n mod d) as r eqn:Hr.
  clearbody n d. clear Hq Hr.
  destruct (Z.compare_spec (2 * r) d) as [C|C|C];
    [destruct (Z.even q)| |]; lia.
Qed.

Lemma hundredths_exact (m : positive) (e : Z) :
  0 <= e -> hundredths m e = Zpos m * 100 * 2 ^ e.
Proof.
  intros He. unfold hundredths, nearest_even.
  destruct (0 <=? e) eqn:E; [done | apply Z.leb_gt in E; lia].
Qed.

(** C8, as the code has it: the reported confidence is the arithmetic
    mean of the strictly positive confidences rounded to two decimal
    places by [round(_, 2)]; it is the integer 0 exactly when no
    confidence is strictly positive; the confidences [0, 0, 80, 60]
    give 70.0. *)
Theorem confidence_is_rounded_mean_of_positive (confs : list Z) :
  Cli.confidence_of (Return <$> confs)
    = (Spec.mean_of_positive confs ≫= Cli.round_2)
  ∧ (Spec.positive confs = [] ↔
     Cli.confidence_of (Return <$> confs) = Return (VInt 0))
  ∧ Cli.confidence_of (Return <$> [0; 0; 80; 60])
    = Return (VFloat (float_of_hundredths 7000)).
Proof.
  assert (Heq : Cli.confidence_of (Return <$> confs)
                = (Spec.mean_of_positive confs ≫= Cli.round_2)).
  { unfold Cli.confidence_of.
    by rewrite positive_confidences_filter, bind_Return, avg_confidence_mean. }
  split; [exact Heq|]. split; [|by vm_compute].
  rewrite Heq. unfold Spec.mean_of_positive.
  destruct (Spec.positive confs) as [|p ps] eqn:Hp.
  - split; [reflexivity | done].
  - split; [discriminate|]. intros H.
    by apply round_2_not_int0_of_float in H.
Qed.

Lemma confidence_is_rounded_mean_of_positive_witness :
  Cli.confidence_of (Return <$> [0; -1; 0]) = Return (VInt 0).
Proof.
  apply (proj1 (proj1 (proj2 (confidence_is_rounded_mean_of_positive [0; -1; 0])))
           eq_refl).
Defined.

(** C8 as stated fails: for the confidences [1, 1, 2] the code reports
    1.33, not their arithmetic mean 4/3. *)
Lemma confidence_not_the_mean :
  Cli.confidence_of (Return <$> [1; 1; 2])
    = Return (VFloat (float_of_hundredths 133))
  ∧ Spec.mean_of_positive [1; 1; 2] = (VFloat <$> int_truediv 4 3)
  ∧ Cli.confidence_of (Return <$> [1; 1; 2]) ≠ Spec.mean_of_positive [1; 1; 2].
Proof. split; [|split]; vm_compute; [reflexivity | reflexivity | discriminate]. Qed.
End Confidence.

Section ExtractText.
Import Py.
Variable eng : Cli.Engine.

(** C10, as the code has it: for every input, [extract_text] either
    returns the dictionary of its [try] block, which has no ['error']
    key; or the block raised an instance of [Exception], and it returns
    exactly [{'error': str(e), 'text': '', 'confidence': 0}]; or the
    block raised an exception that [except Exception] does not catch,
    and that exception leaves [extract_text]. *)
Theorem extract_text_catches_Exception (fs : Files)
    (image_path language config : string) (preprocess : bool) :
  (∃ d, Cli.extract_text_try eng fs image_path language config preprocess = Return d
        ∧ Cli.extract_text_outcome eng fs image_path language config preprocess
          = Return d
        ∧ d !! "error" = None
        ∧ is_Some (d !! "text") ∧ is_Some (d !! "confidence"))
  ∨ (∃ e d, Cli.extract_text_try eng fs image_path language config preprocess = Raise e
        ∧ is_Exception e = true
        ∧ Cli.extract_text_outcome eng fs image_path language config preprocess
          = Return d
        ∧ d = <["error" := VStr (exn_str e)]>
                (<["text" := VStr ""]> (<["confidence" := VInt 0]> ∅))
        ∧ d !! "error" = Some (VStr (exn_str e))
        ∧ d !! "text" = Some (VStr "")
        ∧ d !! "confidence" = Some (VInt 0))
  ∨ (∃ e, Cli.extract_text_try eng fs image_path language config preprocess = Raise e
        ∧ is_Exception e = false
        ∧ Cli.extract_text_outcome eng fs image_path language config preprocess
          = Raise e).
Proof.
  unfold Cli.extract_text_outcome.
  destruct (Cli.extract_text_try eng fs image_path language config preprocess)
    as [d|e] eqn:Htry.
  - left. exists d. split; [done|]. split; [done|].
    unfold Cli.extract_text_try in Htry.
    repeat match type of Htry with
           | (?m ≫= _) = Return _ =>
               let H := fresh "H" in
               destruct m eqn:H; cbn in Htry; [|discriminate]
           end.
    injection Htry as <-.
    split; [by simplify_map_eq|]. split; eexists; by simplify_map_eq.
  - right. unfold try_except_Exception.
    destruct (is_Exception e) eqn:Hcls.
    + left. exists e, (Cli.extract_text_except e). unfold Cli.extract_text_except.
      split; [done|]. split; [done|]. split; [done|]. split; [done|].
      repeat split; by simplify_map_eq.
    + right. by exists e.
Qed.

Lemma extract_text_outcome_Return (fs : Files)
    (image_path language config : string) (preprocess : bool) (d : PyDict) :
  Cli.extract_text_outcome eng fs image_path language config preprocess = Return d ->
  d = Cli.extract_text eng fs image_path language config preprocess.
Proof.
  unfold Cli.extract_text_outcome, Cli.extract_text, try_except_Exception, try_except.
  destruct (Cli.extract_text_try _ _ _ _ _ _) as [d'|e]; [congruence|].
  destruct (is_Exception e); [|discriminate]. by intros [= <-].
Qed.

(** C10 as stated fails: when the user interrupts the program while
    the image is being opened, the [KeyboardInterrupt] is not caught by
    [except Exception] and leaves [extract_text]; no dictionary is
    returned. *)
Lemma extract_text_propagates_KeyboardInterrupt :
  Cli.extract_text_outcome Fixture.interrupted_engine Fixture.disk "one.png" "eng"
    "--psm 6" false = Raise (mkExn "KeyboardInterrupt" "")
  ∧ ¬ Spec.returns_dictionary
        (Cli.extract_text_outcome Fixture.interrupted_engine Fixture.disk "one.png"
           "eng" "--psm 6" false).
Proof.
  split; [reflexivity|]. intros [d Hd]. discriminate Hd.
Qed.
End ExtractText.

(** ** Theorems: the chunked upload store *)

Section Upload.
Import Py.
Variable UPLOAD_FOLDER : string.
Variable secure_filename : string -> string.
Variable GEMINI_AVAILABLE : bool.
Variable ocr_processor : PyObject Cli.OcrMethod.
Variable GeminiProcessor : option string -> Res string.
Variable gemini_process_text : PyVal -> list (string * PyVal) -> Res PyDict.

Local Abbreviation init := (Api.init_chunked_upload UPLOAD_FOLDER secure_filename).
Local Abbreviation complete :=
  (Api.complete_chunked_upload UPLOAD_FOLDER GEMINI_AVAILABLE ocr_processor
     GeminiProcessor gemini_process_text).
Local Abbreviation processing :=
  (Api.complete_process_form GEMINI_AVAILABLE ocr_processor
     GeminiProcessor gemini_process_text).
Local Abbreviation handle :=
  (Api.handle UPLOAD_FOLDER secure_filename GEMINI_AVAILABLE ocr_processor
     GeminiProcessor gemini_process_text).
Local Abbreviation serve :=
  (Api.serve UPLOAD_FOLDER secure_filename GEMINI_AVAILABLE ocr_processor
     GeminiProcessor gemini_process_text).

(** *** init *)

Local Abbreviation init_rejects := (Spec.init_rejects secure_filename).

Lemma init_rejects_test (data : Api.InitJson) :
  let filename := secure_filename (default "" (Api.json_filename data)) in
  init_rejects data ↔
  (String.eqb filename "" || negb (Api.allowed_file filename)
   || (Api.MAX_FILE_SIZE <? default 0 (Api.json_filesize data))) = true.
Proof.
  unfold Spec.init_rejects. cbn zeta.
  rewrite !orb_true_iff, negb_true_iff, String.eqb_eq, Z.ltb_lt.
  split; [intros [H|[H|H]] | intros [[H|H]|H]];
    [left; left | left; right | right | left | right; left | right; right];
    exact H.
Qed.

Lemma init_rejected (uuid4 : string) (data : Api.InitJson) (w : Api.World) :
  init_rejects data ->
  fst (init uuid4 data w) = w
  ∧ Api.status (snd (init uuid4 data w)) = 400
  ∧ ∃ msg, Api.body (snd (init uuid4 data w)) = Api.Error msg.
Proof.
  intros H. apply init_rejects_test in H. cbn zeta in H.
  unfold Api.init_chunked_upload.
  destruct (String.eqb _ "" || negb _) eqn:E1; cbn; [eauto|].
  cbn in H. rewrite H. cbn. eauto.
Qed.

Lemma init_accepted (uuid4 : string) (data : Api.InitJson) (w : Api.World) :
  ¬ init_rejects data ->
  init uuid4 data w =
    (Api.mkWorld
       (<[uuid4 := Api.mkSession
                     (secure_filename (default "" (Api.json_filename data)))
                     (default 0 (Api.json_filesize data))
                     (default 0 (Api.json_chunk_count data))
                     []
                     (os_path_join UPLOAD_FOLDER ("upload_" +:+ uuid4))]>
          (Api.UPLOAD_SESSIONS w))
       (Api.files w),
     Api.mkResponse 200 (Api.InitOk uuid4 Api.CHUNK_SIZE)).
Proof.
  intros H. rewrite init_rejects_test in H. cbn zeta in H.
  apply not_true_is_false in H.
  unfold Api.init_chunked_upload.
  destruct (String.eqb _ "" || negb _) eqn:E1; [done|].
  cbn in H. by rewrite H.
Qed.

Lemma handle_sessions_generated (w : Api.World) (r : Api.Request)
    (ids : list string) :
  (∀ id s, Api.UPLOAD_SESSIONS w !! id = Some s -> id ∈ ids) ->
  ∀ id s, Api.UPLOAD_SESSIONS (fst (handle w r)) !! id = Some s ->
          id ∈ ids ++ Protocol.generated [r].
Proof.
  intros Hw id s.
  assert (Hkeep : Api.UPLOAD_SESSIONS w !! id = Some s -> id ∈ ids ++ Protocol.generated [r])
    by (intros H; apply elem_of_app; left; eauto).
  destruct r as [uuid4 data|upload_id form|upload_id form|upload_id]; cbn.
  - unfold Api.init_chunked_upload.
    destruct (String.eqb _ "" || negb _); [exact Hkeep|].
    destruct (Api.MAX_FILE_SIZE <? _); [exact Hkeep|].
    cbn. rewrite lookup_insert_Some.
    intros [[<- _]|[_ Hs]]; [|by apply Hkeep].
    apply elem_of_app. right. apply list_elem_of_here.
  - unfold Api.upload_chunk.
    destruct (Api.UPLOAD_SESSIONS w !! upload_id) as [session|] eqn:Hs; [|exact Hkeep].
    destruct (Api.form_chunk form); [|exact Hkeep].
    destruct (default _ _) as [chunk_index|]; [|exact Hkeep].
    destruct (chunk_index <? 0); [exact Hkeep|].
    cbn. rewrite lookup_insert_Some.
    intros [[<- _]|[_ Hs']]; [|by apply Hkeep].
    apply elem_of_app. left. eauto.
  - unfold Api.complete_chunked_upload.
    destruct (Api.UPLOAD_SESSIONS w !! upload_id) as [session|]; [|exact Hkeep].
    case_match; [exact Hkeep|]. case_match; [|exact Hkeep].
    case_match; [case_match|]; cbn; rewrite lookup_delete_Some;
      intros [_ Hs]; by apply Hkeep.
  - unfold Api.cancel_chunked_upload.
    destruct (Api.UPLOAD_SESSIONS w !! upload_id) as [session|]; [|exact Hkeep].
    cbn. rewrite lookup_delete_Some. intros [_ Hs]. by apply Hkeep.
Qed.

Lemma serve_sessions_generated (rs : list Api.Request) (w : Api.World)
    (ids : list string) :
  (∀ id s, Api.UPLOAD_SESSIONS w !! id = Some s -> id ∈ ids) ->
  ∀ id s, Api.UPLOAD_SESSIONS (serve w rs) !! id = Some s ->
          id ∈ ids ++ Protocol.generated rs.
Proof.
  revert w ids. induction rs as [|r rs IH]; intros w ids Hw id s.
  - cbn. rewrite app_nil_r. apply Hw.
  - cbn [Api.serve foldl]. intros Hs.
    apply (IH _ (ids ++ Protocol.generated [r])) in Hs.
    + rewrite <- app_assoc in Hs.
      replace (Protocol.generated (r :: rs))
        with (Protocol.generated [r] ++ Protocol.generated rs)
        by (destruct r; reflexivity).
      exact Hs.
    + by apply handle_sessions_generated.
Qed.

(** Every live session of a run from the empty store is stored under
    an identifier that [uuid4] produced in that run. *)
Lemma live_sessions_were_generated (rs : list Api.Request) (id : string) :
  id ∉ Protocol.generated rs ->
  Api.UPLOAD_SESSIONS (serve Api.empty_world rs) !! id = None.
Proof.
  intros Hfresh.
  destruct (Api.UPLOAD_SESSIONS (serve Api.empty_world rs) !! id) as [s|] eqn:Hs;
    [|done].
  exfalso. apply Hfresh.
  apply (serve_sessions_generated rs Api.empty_world [] ) in Hs; [exact Hs|].
  intros id' s' H. cbn in H. by rewrite lookup_empty in H.
Qed.

(** C3, as the code has it.  [init] answers 400 and leaves the store
    and the files as they were when the sanitized filename is empty or
    has a disallowed extension, or the declared size exceeds the
    maximum.  Otherwise it answers with the identifier [uuid4]
    generated, stores under it a session with the declared values, an
    empty list of received chunks and the path of the destination
    file, and creates no file; the other sessions are kept.  The
    identifier returned is unique among the live sessions: at any
    point of a run from the empty store, when [uuid4] yields an
    identifier that it has not yielded before in the run, no live
    session has it, and the store has one more session afterwards. *)
Theorem init_outcome (uuid4 : string) (data : Api.InitJson) (w : Api.World)
    (rs : list Api.Request) :
  (init_rejects data ->
     fst (init uuid4 data w) = w
     ∧ Api.status (snd (init uuid4 data w)) = 400
     ∧ ∃ msg, Api.body (snd (init uuid4 data w)) = Api.Error msg)
  ∧ (¬ init_rejects data ->
     snd (init uuid4 data w) = Api.mkResponse 200 (Api.InitOk uuid4 Api.CHUNK_SIZE)
     ∧ Api.files (fst (init uuid4 data w)) = Api.files w
     ∧ Api.UPLOAD_SESSIONS (fst (init uuid4 data w)) !! uuid4
       = Some (Api.mkSession
                 (secure_filename (default "" (Api.json_filename data)))
                 (default 0 (Api.json_filesize data))
                 (default 0 (Api.json_chunk_count data))
                 []
                 (os_path_join UPLOAD_FOLDER ("upload_" +:+ uuid4)))
     ∧ (∀ other, other ≠ uuid4 ->
          Api.UPLOAD_SESSIONS (fst (init uuid4 data w)) !! other
          = Api.UPLOAD_SESSIONS w !! other)
     ∧ (w = serve Api.empty_world rs ->
        uuid4 ∉ Protocol.generated rs ->
          Api.UPLOAD_SESSIONS w !! uuid4 = None
          ∧ size (Api.UPLOAD_SESSIONS (fst (init uuid4 data w)))
            = S (size (Api.UPLOAD_SESSIONS w)))).
Proof.
  split; [apply init_rejected|].
  intros H. rewrite (init_accepted _ _ _ H). cbn.
  split; [done|]. split; [done|]. split; [by rewrite lookup_insert_eq|].
  split.
  - intros other Hne. by rewrite lookup_insert_ne.
  - intros -> Hfresh.
    pose proof (live_sessions_were_generated rs uuid4 Hfresh) as Hnone.
    split; [exact Hnone|]. by apply map_size_insert_None.
Qed.

(** *** append_chunk *)

Lemma upload_chunk_accepted (w : Api.World) (upload_id : string)
    (session : Api.Session) (chunk_index : Z) (data : string) :
  Api.UPLOAD_SESSIONS w !! upload_id = Some session ->
  0 <= chunk_index ->
  Api.upload_chunk upload_id (Api.mkChunkForm (Some data) (Some (Return chunk_index))) w
  = (Api.mkWorld
       (<[upload_id := Api.mkSession (Api.filename session) (Api.filesize session)
                         (Api.chunk_count session)
                         (Api.received_chunks session ++ [chunk_index])
                         (Api.temp_path session)]> (Api.UPLOAD_SESSIONS w))
       (append_file (Api.temp_path session) data (Api.files w)),
     Api.mkResponse 200
       (Api.ChunkOk chunk_index
          (length (Api.received_chunks session ++ [chunk_index]))
          (Api.chunk_count session)
          (Z.of_nat (length (Api.received_chunks session ++ [chunk_index]))
           =? Api.chunk_count session))).
Proof.
  intros Hs Hi. unfold Api.upload_chunk. rewrite Hs. cbn.
  destruct (chunk_index <? 0) eqn:E; [apply Z.ltb_lt in E; lia | done].
Qed.

(** C9: two [append_chunk] calls with the same index on a live session
    are both accepted, and the backing file afterwards is its former
    content followed by the first payload and then the second; the
    index is recorded twice. *)
Theorem chunk_same_index_appends_twice (w : Api.World) (upload_id : string)
    (session : Api.Session) (chunk_index : Z) (data1 data2 : string) :
  Api.UPLOAD_SESSIONS w !! upload_id = Some session ->
  0 <= chunk_index ->
  let first := Api.upload_chunk upload_id
                 (Api.mkChunkForm (Some data1) (Some (Return chunk_index))) w in
  let second := Api.upload_chunk upload_id
                  (Api.mkChunkForm (Some data2) (Some (Return chunk_index)))
                  (fst first) in
  Api.status (snd first) = 200 ∧ Api.status (snd second) = 200
  ∧ Api.files (fst second) !! Api.temp_path session
    = Some ((default "" (Api.files w !! Api.temp_path session) +:+ data1) +:+ data2)
  ∧ Api.received_chunks <$> (Api.UPLOAD_SESSIONS (fst second) !! upload_id)
    = Some (Api.received_chunks session ++ [chunk_index; chunk_index]).
Proof.
  intros Hs Hi first second. subst first second.
  rewrite (upload_chunk_accepted _ _ _ _ data1 Hs Hi). cbn [fst snd].
  erewrite (upload_chunk_accepted _ _ _ _ data2);
    [| cbn; apply lookup_insert_eq | done].
  cbn. split; [done|]. split; [done|]. split.
  - unfold append_file. by rewrite !lookup_insert_eq.
  - rewrite lookup_insert_eq. cbn. by rewrite <- app_assoc.
Qed.

(** *** complete *)

(** C5: on a known session whose number of recorded chunks differs from
    the declared chunk count, [complete] answers 400 with the message
    [Incomplete upload: r/c chunks received], [r] the number recorded
    and [c] the declared count, and leaves the store and the files as
    they were: the session stays and nothing is processed. *)
Theorem complete_incomplete_upload (w : Api.World) (upload_id : string)
    (session : Api.Session) (form : gmap string string) :
  Api.UPLOAD_SESSIONS w !! upload_id = Some session ->
  Z.of_nat (length (Api.received_chunks session)) ≠ Api.chunk_count session ->
  complete upload_id form w
  = (w, Api.failure 400
          ("Incomplete upload: "
           +:+ pretty (length (Api.received_chunks session)) +:+ "/"
           +:+ pretty (Api.chunk_count session) +:+ " chunks received")).
Proof.
  intros Hs Hne. unfold Api.complete_chunked_upload. rewrite Hs.
  apply Z.eqb_neq in Hne. by rewrite Hne.
Qed.

(** What [complete] does on a fully received session whose backing
    file exists, on both paths. *)
Lemma complete_full_session (w : Api.World) (upload_id : string)
    (session : Api.Session) (form : gmap string string) (content : string) :
  Api.UPLOAD_SESSIONS w !! upload_id = Some session ->
  Z.of_nat (length (Api.received_chunks session)) = Api.chunk_count session ->
  Api.files w !! Api.temp_path session = Some content ->
  let final_path := os_path_join UPLOAD_FOLDER (Api.filename session) in
  let fs := <[final_path := content]> (delete (Api.temp_path session) (Api.files w)) in
  complete upload_id form w
  = (Api.mkWorld (delete upload_id (Api.UPLOAD_SESSIONS w)) (delete final_path fs),
     match processing form fs final_path with
     | Return response_data => Api.mkResponse 200 (Api.CompleteOk response_data)
     | Raise e => Api.failure 500 (exn_str e)
     end).
Proof.
  intros Hs Hfull Hfile final_path fs.
  unfold Api.complete_chunked_upload. rewrite Hs.
  apply Z.eqb_eq in Hfull. rewrite Hfull. cbn [negb].
  unfold os_rename. rewrite Hfile. fold final_path. fold fs.
  destruct (processing form fs final_path) as [response_data|e]; cbn.
  - unfold os_remove. subst fs. rewrite lookup_insert_eq. done.
  - unfold os_path_exists. subst fs. rewrite lookup_insert_eq.
    rewrite bool_decide_eq_true_2; [done | eauto].
Qed.


(** *** The store over a whole run *)

Local Abbreviation indices_nonnegative := Spec.indices_nonnegative.

Lemma indices_nonnegative_delete (w : Api.World) (upload_id : string) (fs : Files) :
  indices_nonnegative w ->
  indices_nonnegative (Api.mkWorld (delete upload_id (Api.UPLOAD_SESSIONS w)) fs).
Proof.
  intros Hw id sess. cbn. rewrite lookup_delete_Some. intros [_ Hs]. eauto.
Qed.

Lemma handle_indices_nonnegative (w : Api.World) (r : Api.Request) :
  indices_nonnegative w -> indices_nonnegative (fst (handle w r)).
Proof.
  intros Hw. destruct r as [uuid4 data|upload_id form|upload_id form|upload_id]; cbn.
  - unfold Api.init_chunked_upload.
    repeat (case_match; [done|]). cbn.
    intros id sess. cbn. rewrite lookup_insert_Some.
    intros [[_ <-]|[_ Hs]]; [constructor | eauto].
  - unfold Api.upload_chunk.
    destruct (Api.UPLOAD_SESSIONS w !! upload_id) as [session|] eqn:Hs; [|done].
    destruct (Api.form_chunk form); [|done].
    destruct (default _ _) as [chunk_index|]; [|done].
    destruct (chunk_index <? 0) eqn:E; [done|]. apply Z.ltb_ge in E.
    intros id sess. cbn. rewrite lookup_insert_Some.
    intros [[_ <-]|[_ Hs']]; [|eauto]. cbn.
    apply Forall_app. split; [eauto | by constructor].
  - unfold Api.complete_chunked_upload.
    destruct (Api.UPLOAD_SESSIONS w !! upload_id) as [session|]; [|done].
    case_match; [done|]. case_match; [|done].
    case_match; [case_match|]; by apply indices_nonnegative_delete.
  - unfold Api.cancel_chunked_upload.
    destruct (Api.UPLOAD_SESSIONS w !! upload_id) as [session|]; [|done].
    by apply indices_nonnegative_delete.
Qed.

Lemma serve_indices_nonnegative (w : Api.World) (rs : list Api.Request) :
  indices_nonnegative w -> indices_nonnegative (serve w rs).
Proof.
  revert w. induction rs as [|r rs IH]; intros w Hw; [done|].
  cbn. apply IH. by apply handle_indices_nonnegative.
Qed.

(** C2, as the code has it: at every point of every run of the
    protocol, the chunk indices recorded for a session are all
    nonnegative.  (They are kept as a list in arrival order, in which
    an index may occur again, and may reach or exceed the declared
    chunk count.) *)
Theorem received_indices_nonnegative (rs : list Api.Request)
    (upload_id : string) (session : Api.Session) :
  Api.UPLOAD_SESSIONS (serve Api.empty_world rs) !! upload_id = Some session ->
  Forall (fun i => 0 <= i) (Api.received_chunks session).
Proof.
  apply serve_indices_nonnegative. intros id sess. cbn. by rewrite lookup_empty.
Qed.
End Upload.

(** ** The upload scenario of the specification, on the code *)

Section Scenario.
Import Py.
Variable UPLOAD_FOLDER : string.
Variable secure_filename : string -> string.
Variable GEMINI_AVAILABLE : bool.
Variable eng : Cli.Engine.
Variable GeminiProcessor : option string -> Res string.
Variable gemini_process_text : PyVal -> list (string * PyVal) -> Res PyDict.

Local Abbreviation step :=
  (Api.handle UPLOAD_FOLDER secure_filename GEMINI_AVAILABLE (Cli.OCRProcessor eng)
     GeminiProcessor gemini_process_text).

(** The processor of [cli.py] has no [process_image]. *)
Lemma OCRProcessor_no_process_image :
  getattr (Cli.OCRProcessor eng) "process_image"
  = Raise (mkExn "AttributeError"
             "'OCRProcessor' object has no attribute 'process_image'").
Proof. reflexivity. Qed.

Lemma processing_raises (form : gmap string string) (fs : Files) (final_path : string) :
  Api.complete_process_form GEMINI_AVAILABLE (Cli.OCRProcessor eng)
    GeminiProcessor gemini_process_text form fs final_path
  = Raise (mkExn "AttributeError"
             "'OCRProcessor' object has no attribute 'process_image'").
Proof.
  unfold Api.complete_process_form, Api.complete_process.
  by rewrite OCRProcessor_no_process_image.
Qed.

(** C1 on the code: [init("a.png", 1000, 2)], then the chunks 0 =
    "AAAA" and 1 = "BBBB", leave the 8 bytes "AAAABBBB" in the backing
    file and the session complete; [complete] then answers with the
    500 failure of the missing [process_image] method instead of an
    extraction result, having deleted the file and removed the
    session. *)
Theorem scenario_complete_answers_failure (uuid4 : string) :
  secure_filename "a.png" = "a.png" ->
  let temp_path := os_path_join UPLOAD_FOLDER ("upload_" +:+ uuid4) in
  let s1 := step Api.empty_world (Api.Init uuid4 Fixture.png_request) in
  let s2 := step (fst s1) (Api.Chunk uuid4 (Fixture.chunk 0 "AAAA")) in
  let s3 := step (fst s2) (Api.Chunk uuid4 (Fixture.chunk 1 "BBBB")) in
  let s4 := step (fst s3) (Api.Complete uuid4 ∅) in
  snd s1 = Api.mkResponse 200 (Api.InitOk uuid4 Api.CHUNK_SIZE)
  ∧ snd s3 = Api.mkResponse 200 (Api.ChunkOk 1 2 2 true)
  ∧ Api.files (fst s3) = <[temp_path := "AAAABBBB"]> ∅
  ∧ String.length "AAAABBBB" = 8%nat
  ∧ snd s4 = Api.failure 500 "'OCRProcessor' object has no attribute 'process_image'"
  ∧ fst s4 = Api.empty_world.
Proof.
  intros Hname temp_path s1 s2 s3 s4.
  assert (H1 : s1 = (Api.mkWorld
                       (<[uuid4 := Api.mkSession "a.png" 1000 2 [] temp_path]> ∅) ∅,
                     Api.mkResponse 200 (Api.InitOk uuid4 Api.CHUNK_SIZE))).
  { subst s1. cbn [Api.handle]. rewrite init_accepted.
    - cbn. by rewrite Hname.
    - unfold Spec.init_rejects. cbn. rewrite Hname.
      intros [H|[H|H]]; [discriminate | by vm_compute in H | by vm_compute in H]. }
  assert (H2 : fst s2 = Api.mkWorld
                 (<[uuid4 := Api.mkSession "a.png" 1000 2 [0] temp_path]> ∅)
                 (<[temp_path := "AAAA"]> ∅)).
  { subst s2. rewrite H1. cbn [Api.handle fst]. unfold Fixture.chunk.
    erewrite upload_chunk_accepted; [|cbn; apply lookup_insert_eq | lia].
    cbn. unfold append_file. by rewrite insert_insert_eq, lookup_empty. }
  assert (H3 : s3 = (Api.mkWorld
                       (<[uuid4 := Api.mkSession "a.png" 1000 2 [0; 1] temp_path]> ∅)
                       (<[temp_path := "AAAABBBB"]> ∅),
                     Api.mkResponse 200 (Api.ChunkOk 1 2 2 true))).
  { subst s3. rewrite H2. cbn [Api.handle]. unfold Fixture.chunk.
    erewrite upload_chunk_accepted; [|cbn; apply lookup_insert_eq | lia].
    cbn. unfold append_file.
    by rewrite !insert_insert_eq, lookup_insert_eq. }
  split; [by rewrite H1|]. split; [by rewrite H3|]. split; [by rewrite H3|].
  split; [done|].
  subst s4. rewrite H3. cbn [Api.handle fst].
  erewrite complete_full_session;
    [| cbn; apply lookup_insert_eq | done | cbn; apply lookup_insert_eq].
  rewrite processing_raises. cbn.
  split; [done|]. unfold Api.empty_world. f_equal.
  - by rewrite delete_insert_eq, delete_empty.
  - by rewrite delete_insert_eq, delete_insert_eq, !delete_empty.
Qed.
End Scenario.

(** ** Concrete runs of the upload store *)

Section UploadRuns.
Import Py.

Lemma scenario_complete_answers_failure_witness :
  Fixture.keep_name "a.png" = "a.png"
  ∧ snd (Fixture.handle Fixture.both_chunks (Api.Complete "u1" ∅))
    = Api.failure 500 "'OCRProcessor' object has no attribute 'process_image'"
  ∧ fst (Fixture.handle Fixture.both_chunks (Api.Complete "u1" ∅)) = Api.empty_world.
Proof.
  split; [reflexivity|].
  destruct (scenario_complete_answers_failure "/tmp" Fixture.keep_name false
              Fixture.engine Fixture.no_gemini_init Fixture.no_gemini_call "u1"
              eq_refl) as (_ & _ & _ & _ & H5 & H6).
  split; [exact H5 | exact H6].
Defined.

(** C2 as stated fails: after [init] with chunk count 2, sending index
    0 twice and then index 7 leaves the recorded indices [0, 0, 7]. *)
Lemma recorded_indices_repeat_and_exceed :
  Api.received_chunks <$> (Api.UPLOAD_SESSIONS Fixture.repeated_index !! "u1")
    = Some [0; 0; 7]
  ∧ ¬ Spec.indices_unique_in_range Fixture.repeated_index.
Proof.
  split; [reflexivity|]. intros H.
  destruct (H "u1" (Api.mkSession "a.png" 1000 2 [0; 0; 7] "/tmp/upload_u1") eq_refl)
    as [Hdup _].
  apply NoDup_cons in Hdup as [Hin _]. apply Hin. by left.
Qed.

Lemma received_indices_nonnegative_witness :
  Api.UPLOAD_SESSIONS Fixture.repeated_index !! "u1"
    = Some (Api.mkSession "a.png" 1000 2 [0; 0; 7] "/tmp/upload_u1")
  ∧ Forall (fun i => 0 <= i) [0; 0; 7].
Proof.
  split; [reflexivity|].
  exact (received_indices_nonnegative "/tmp" Fixture.keep_name false
           (Cli.OCRProcessor Fixture.engine) Fixture.no_gemini_init
           Fixture.no_gemini_call Fixture.repeated_requests "u1"
           (Api.mkSession "a.png" 1000 2 [0; 0; 7] "/tmp/upload_u1") eq_refl).
Defined.

(** C3 as stated fails: a successful [init] stores the session and
    leaves no file at its destination path. *)
Lemma init_allocates_no_file :
  snd (Fixture.handle Api.empty_world (Api.Init "u1" Fixture.png_request))
    = Api.mkResponse 200 (Api.InitOk "u1" Api.CHUNK_SIZE)
  ∧ Api.temp_path <$>
      (Api.UPLOAD_SESSIONS
         (fst (Fixture.handle Api.empty_world (Api.Init "u1" Fixture.png_request)))
       !! "u1") = Some "/tmp/upload_u1"
  ∧ Api.files (fst (Fixture.handle Api.empty_world (Api.Init "u1" Fixture.png_request)))
      !! "/tmp/upload_u1" = None
  ∧ ¬ Spec.destination_allocated
        (fst (Fixture.handle Api.empty_world (Api.Init "u1" Fixture.png_request)))
        "u1".
Proof.
  split; [reflexivity|]. split; [reflexivity|]. split; [reflexivity|].
  intros (session & Hs & Hfile).
  assert (session = Api.mkSession "a.png" 1000 2 [] "/tmp/upload_u1") as ->
    by (vm_compute in Hs; congruence).
  vm_compute in Hfile. discriminate.
Qed.

Lemma init_outcome_witness :
  (Spec.init_rejects Fixture.keep_name Fixture.oversize_request
   ∧ fst (Api.init_chunked_upload "/tmp" Fixture.keep_name "u2"
            Fixture.oversize_request Fixture.one_chunk) = Fixture.one_chunk)
  ∧ (¬ Spec.init_rejects Fixture.keep_name Fixture.png_request
     ∧ snd (Api.init_chunked_upload "/tmp" Fixture.keep_name "u2"
              Fixture.png_request Fixture.one_chunk)
       = Api.mkResponse 200 (Api.InitOk "u2" Api.CHUNK_SIZE)
     ∧ Api.UPLOAD_SESSIONS Fixture.one_chunk !! "u2" = None
     ∧ size (Api.UPLOAD_SESSIONS
               (fst (Api.init_chunked_upload "/tmp" Fixture.keep_name "u2"
                       Fixture.png_request Fixture.one_chunk))) = 2%nat).
Proof.
  assert (Hbig : Spec.init_rejects Fixture.keep_name Fixture.oversize_request)
    by (right; right; vm_compute; reflexivity).
  assert (Hpng : ¬ Spec.init_rejects Fixture.keep_name Fixture.png_request)
    by (intros [H|[H|H]]; vm_compute in H; discriminate).
  assert (Hfresh : "u2" ∉ Protocol.generated
                            [Api.Init "u1" Fixture.png_request;
                             Api.Chunk "u1" (Fixture.chunk 0 "AAAA")])
    by (cbn; intros H; apply list_elem_of_singleton in H; discriminate H).
  split; (split; [assumption|]).
  - exact (proj1 (proj1 (init_outcome "/tmp" Fixture.keep_name false
                           (Cli.OCRProcessor Fixture.engine) Fixture.no_gemini_init
                           Fixture.no_gemini_call "u2"
                           Fixture.oversize_request Fixture.one_chunk []) Hbig)).
  - destruct (proj2 (init_outcome "/tmp" Fixture.keep_name false
                       (Cli.OCRProcessor Fixture.engine) Fixture.no_gemini_init
                       Fixture.no_gemini_call "u2"
                       Fixture.png_request Fixture.one_chunk
                       [Api.Init "u1" Fixture.png_request;
                        Api.Chunk "u1" (Fixture.chunk 0 "AAAA")]) Hpng)
      as (Hanswer & _ & _ & _ & Hunique).
    destruct (Hunique eq_refl Hfresh) as [Hnone Hsize].
    split; [exact Hanswer|]. split; [exact Hnone|].
    rewrite Hsize. reflexivity.
Defined.


Lemma complete_incomplete_upload_witness :
  Fixture.handle Fixture.one_chunk (Api.Complete "u1" ∅)
  = (Fixture.one_chunk, Api.failure 400 "Incomplete upload: 1/2 chunks received").
Proof.
  exact (complete_incomplete_upload "/tmp" false (Cli.OCRProcessor Fixture.engine)
           Fixture.no_gemini_init Fixture.no_gemini_call Fixture.one_chunk "u1"
           (Api.mkSession "a.png" 1000 2 [0] "/tmp/upload_u1") ∅ eq_refl
           ltac:(vm_compute; discriminate)).
Defined.

Lemma chunk_same_index_appends_twice_witness :
  Api.files Fixture.repeated_index !! "/tmp/upload_u1" = Some "AAAAAAAACCCC"
  ∧ Api.files
      (fst (Api.upload_chunk "u1" (Fixture.chunk 0 "AAAA")
              (fst (Api.upload_chunk "u1" (Fixture.chunk 0 "AAAA")
                      (fst (Fixture.handle Api.empty_world
                              (Api.Init "u1" Fixture.png_request)))))))
      !! "/tmp/upload_u1" = Some "AAAAAAAA".
Proof.
  split; [reflexivity|].
  exact (proj1 (proj2 (proj2
           (chunk_same_index_appends_twice
              (fst (Fixture.handle Api.empty_world (Api.Init "u1" Fixture.png_request)))
              "u1" (Api.mkSession "a.png" 1000 2 [] "/tmp/upload_u1") 0
              "AAAA" "AAAA" eq_refl ltac:(lia))))).
Defined.
End UploadRuns.

(** ** Theorems: the batch dispatcher and the batch endpoint *)

Section BatchLoop.
Import Py.

(** Looking up every position of a list, in order, gives the list. *)
Lemma omap_lookup_seq {A} (l1 l2 : list A) :
  omap (fun i => (l1 ++ l2) !! i) (seq (length l1) (length l2)) = l2.
Proof.
  revert l1. induction l2 as [|x l2 IH]; intros l1; [reflexivity|].
  assert (H : (l1 ++ x :: l2) !! length l1 = Some x).
  { rewrite lookup_app_r by lia. by rewrite Nat.sub_diag. }
  cbn [length seq]. cbn. rewrite H.
  f_equal. specialize (IH (l1 ++ [x])).
  rewrite <- app_assoc, length_app in IH. cbn in IH.
  by rewrite Nat.add_1_r in IH.
Qed.

(** [as_completed] yields every future once, in some order. *)
Lemma as_completed_Permutation {A} (futures : list A) (order : list nat) :
  order ≡ₚ seq 0 (length futures) ->
  BatchCli.as_completed futures order ≡ₚ futures.
Proof.
  intros Hperm. unfold BatchCli.as_completed. rewrite Hperm.
  pose proof (omap_lookup_seq [] futures) as H. cbn in H. by rewrite H.
Qed.

Lemma as_completed_length {A} (futures : list A) (order : list nat) :
  order ≡ₚ seq 0 (length futures) ->
  length (BatchCli.as_completed futures order) = length futures.
Proof. intros H. by rewrite (as_completed_Permutation _ _ H). Qed.

(** With [continue_on_error], the loop takes every future and files it
    under exactly one of the two collections. *)
Lemma collect_continue (completed : list (string * Res PyDict))
    (results : list PyDict) (failed_files : list (string * PyVal)) :
  ∃ results' failed_files',
    BatchCli.collect true completed results failed_files
    = (map (fun f => BatchCli.Completed (fst f)) completed,
       BatchCli.Finished results' failed_files')
    ∧ (length results' + length failed_files'
       = length results + length failed_files + length completed)%nat.
Proof.
  revert results failed_files.
  induction completed as [|[file_path outcome] rest IH]; intros results failed_files.
  - exists results, failed_files. cbn. split; [done | lia].
  - cbn [BatchCli.collect negb]. destruct outcome as [result|e].
    + destruct (result !! "error") as [err|].
      * destruct (IH results (failed_files ++ [(file_path, err)]))
          as (r' & f' & -> & Hlen).
        exists r', f'. split; [done|]. rewrite length_app in Hlen. cbn in *. lia.
      * destruct (IH (results ++ [result]) failed_files) as (r' & f' & -> & Hlen).
        exists r', f'. split; [done|]. rewrite length_app in Hlen. cbn in *. lia.
    + destruct (IH results (failed_files ++ [(file_path, VStr (exn_str e))]))
        as (r' & f' & -> & Hlen).
      exists r', f'. split; [done|]. rewrite length_app in Hlen. cbn in *. lia.
Qed.

(** Without it, the loop takes the futures up to the first failed one
    and leaves through [sys.exit(1)]. *)
Lemma collect_fail_fast (pre post : list (string * Res PyDict))
    (file_path : string) (outcome : Res PyDict)
    (results : list PyDict) (failed_files : list (string * PyVal)) :
  Forall (fun f => Spec.is_failure (snd f) = false) pre ->
  Spec.is_failure outcome = true ->
  ∃ results' failed_files',
    BatchCli.collect false (pre ++ (file_path, outcome) :: post) results failed_files
    = (map (fun f => BatchCli.Completed (fst f)) pre
         ++ [BatchCli.Completed file_path; BatchCli.Exit 1],
       BatchCli.SysExit 1 results' failed_files').
Proof.
  intros Hpre Hfail. revert results failed_files.
  induction Hpre as [|[f o] pre Ho Hpre IH]; intros results failed_files.
  - cbn [app map BatchCli.collect negb]. destruct outcome as [result|e].
    + cbn in Hfail. unfold has_key in Hfail. apply bool_decide_eq_true in Hfail.
      destruct Hfail as [err ->]. eauto.
    + eauto.
  - cbn [app map BatchCli.collect fst]. cbn in Ho. destruct o as [result|e]; [|done].
    unfold has_key in Ho. apply bool_decide_eq_false in Ho.
    destruct (result !! "error") as [err|] eqn:E; [exfalso; eauto|].
    destruct (IH (results ++ [result]) failed_files) as (r' & f' & ->).
    eauto.
Qed.

Lemma processed_app (t1 t2 : list BatchCli.Event) :
  Spec.processed (t1 ++ t2) = (Spec.processed t1 + Spec.processed t2)%nat.
Proof. unfold Spec.processed. by rewrite List.filter_app, length_app. Qed.

Lemma processed_submits (fs : list string) :
  Spec.processed (map BatchCli.Submit fs) = 0%nat.
Proof. induction fs as [|f fs IH]; [reflexivity | exact IH]. Qed.

Lemma processed_completed {A} (l : list (string * A)) :
  Spec.processed (map (fun f => BatchCli.Completed (fst f)) l) = length l.
Proof.
  induction l as [|f l IH]; [reflexivity|].
  unfold Spec.processed in *. cbn. by rewrite IH.
Qed.
End BatchLoop.

Section Batch.
Import Py.
Variable eng : Cli.Engine.
Variable fs : Files.
Variable UPLOAD_FOLDER : string.
Variable secure_filename : string -> string.
Variable GEMINI_AVAILABLE : bool.
Variable ocr_processor : PyObject Cli.OcrMethod.
Variable getenv_GEMINI_API_KEY : option string.
Variable GeminiProcessor : option string -> Res string.
Variable gemini_process_text : PyVal -> list (string * PyVal) -> Res PyDict.
Variable save_fault : string -> string -> option SaveFault.

Local Abbreviation batch_step :=
  (Api.batch_step UPLOAD_FOLDER secure_filename GEMINI_AVAILABLE ocr_processor
     getenv_GEMINI_API_KEY GeminiProcessor gemini_process_text save_fault).
Local Abbreviation batch_process :=
  (Api.batch_process UPLOAD_FOLDER secure_filename GEMINI_AVAILABLE ocr_processor
     getenv_GEMINI_API_KEY GeminiProcessor gemini_process_text save_fault).
Local Abbreviation main := (BatchCli.main eng fs).
Local Abbreviation future_to_file := (BatchCli.future_to_file eng fs).

(** One turn of the loop of [batch_process] files the upload under
    exactly one collection; a disallowed extension goes to [failed]. *)
Lemma batch_step_count (language config : string) (preprocess use_gemini : bool)
    (gemini_task : string) (files : Files) (results : list PyDict)
    (failed : list (string * string)) (file : Api.Upload) :
  ∃ files' results' more,
    batch_step language config preprocess use_gemini gemini_task
      (files, results, failed) file = (files', results', failed ++ more)
    ∧ (length results' + length more = S (length results))%nat
    ∧ (Api.allowed_file (Api.up_filename file) = false ->
       more = [(Api.up_filename file, "File type not allowed")]).
Proof.
  unfold Api.batch_step.
  destruct (Api.allowed_file (Api.up_filename file)) eqn:Hallowed; cbn [negb].
  2: { eexists _, _, _. split; [reflexivity|]. split; [cbn; lia | done]. }
  unfold file_save. destruct (save_fault _ _) as [fault|].
  { eexists _, _, _. split; [reflexivity|]. split; [cbn; lia | done]. }
  match goal with
  | |- context [match ?r with Return _ => _ | Raise _ => _ end] =>
      destruct r as [result|e]
  end.
  - unfold os_remove, save_file. rewrite lookup_insert_eq.
    eexists _, _, []. rewrite app_nil_r. split; [reflexivity|].
    split; [rewrite length_app; cbn; lia | done].
  - eexists _, _, _. split; [reflexivity|]. split; [cbn; lia | done].
Qed.

Lemma batch_loop_count (language config : string) (preprocess use_gemini : bool)
    (gemini_task : string) (uploads : list Api.Upload) (files : Files)
    (results : list PyDict) (failed : list (string * string)) :
  ∃ files' results' more,
    foldl (batch_step language config preprocess use_gemini gemini_task)
      (files, results, failed) uploads = (files', results', failed ++ more)
    ∧ (length results' + length more = length results + length uploads)%nat
    ∧ ∀ u, u ∈ uploads -> Api.allowed_file (Api.up_filename u) = false ->
           (Api.up_filename u, "File type not allowed") ∈ more.
Proof.
  revert files results failed.
  induction uploads as [|file uploads IH]; intros files results failed.
  - exists files, results, []. rewrite app_nil_r. cbn.
    split; [done|]. split; [lia|]. intros u Hu. by apply elem_of_nil in Hu.
  - cbn [foldl].
    destruct (batch_step_count language config preprocess use_gemini gemini_task
                files results failed file) as (f1 & r1 & m1 & -> & Hlen1 & Hrej1).
    destruct (IH f1 r1 (failed ++ m1)) as (f2 & r2 & m2 & -> & Hlen2 & Hrej2).
    exists f2, r2, (m1 ++ m2). rewrite app_assoc. split; [done|].
    split; [rewrite length_app; cbn; lia|].
    intros u Hu Hna. apply elem_of_app. apply elem_of_cons in Hu as [->|Hu].
    + left. rewrite (Hrej1 Hna). by left.
    + right. by apply Hrej2.
Qed.


End Batch.

(** ** Theorems: the pool of the batch dispatcher *)

Section PoolRuns.
Import Py.
Variable eng : Cli.Engine.
Variable fs : Files.
Variable args : BatchCli.Args.
Variable gemini : option (PyVal -> list (string * PyVal) -> Res PyDict).
Variable files_to_process : list string.
Variable processing_time : nat -> spec_float.

Local Abbreviation step := (BatchCli.step eng fs args gemini files_to_process processing_time).
Local Abbreviation steps := (BatchCli.steps eng fs args gemini files_to_process processing_time).
Local Abbreviation run := (BatchCli.run eng fs args gemini files_to_process processing_time).
Local Abbreviation invariant := (Workers.invariant eng fs args gemini files_to_process processing_time).
Local Abbreviation phase := (Workers.phase eng fs args gemini files_to_process processing_time).
Local Abbreviation after_failure := (Workers.after_failure eng fs args gemini files_to_process processing_time).
Local Abbreviation failed := (Workers.failed eng fs args gemini files_to_process processing_time).
Local Abbreviation succeeded := (Workers.succeeded eng fs args gemini files_to_process processing_time).
Local Abbreviation goes_on := (Workers.goes_on eng fs args gemini files_to_process processing_time).

Lemma submit_goes_on (file_path : string) : goes_on (BatchCli.Submit file_path).
Proof. split; [done|]. intros _ f [=]. Qed.

Lemma started_goes_on (file_path : string) : goes_on (BatchCli.Started file_path).
Proof. split; [done|]. intros _ f [=]. Qed.

Lemma started_app (a b : list BatchCli.Event) :
  Workers.started (a ++ b) = Workers.started a ++ Workers.started b.
Proof. unfold Workers.started. apply omap_app. Qed.

Lemma processed_concat (a b : list BatchCli.Event) :
  Spec.processed (a ++ b) = (Spec.processed a + Spec.processed b)%nat.
Proof. unfold Spec.processed. by rewrite List.filter_app, length_app. Qed.

Lemma remove_one_length (i : nat) (l : list nat) :
  BatchCli.mem i l = true -> S (length (BatchCli.remove_one i l)) = length l.
Proof.
  induction l as [|j l IH]; cbn; [done|].
  destruct (Nat.eqb i j); cbn; [done|]. intros H. by rewrite IH.
Qed.

Lemma mem_elem_of (i : nat) (l : list nat) : BatchCli.mem i l = true -> i ∈ l.
Proof.
  induction l as [|j l IH]; cbn; [done|].
  destruct (Nat.eqb_spec i j) as [->|]; cbn; [left | right; auto].
Qed.

Lemma remove_one_subseteq (i : nat) (l : list nat) (P : nat -> Prop) :
  Forall P l -> Forall P (BatchCli.remove_one i l).
Proof.
  induction 1 as [|j l Hj Hl IH]; cbn; [done|].
  destruct (Nat.eqb i j); [done | by constructor].
Qed.

Lemma loop_body_cases (i : nat) (file_path : string) (results : list PyDict)
    (failed_files : list (string * PyVal)) :
  (∃ results' failed_files',
     BatchCli.loop_body eng fs args gemini processing_time i file_path results failed_files
     = BatchCli.Looping results' failed_files'
     ∧ (BatchCli.continue_on_error args = false ->
        Spec.is_failure
          (BatchCli.process_file eng fs file_path args gemini (processing_time i))
        = false))
  ∨ (BatchCli.loop_body eng fs args gemini processing_time i file_path results failed_files
     = BatchCli.Leaving 1
     ∧ Spec.is_failure
         (BatchCli.process_file eng fs file_path args gemini (processing_time i)) = true).
Proof.
  unfold BatchCli.loop_body, Spec.is_failure, has_key.
  destruct (BatchCli.process_file _ _ _ _ _ _) as [result|e].
  - destruct (result !! "error") as [err|] eqn:E.
    + destruct (BatchCli.continue_on_error args); cbn [negb].
      * left. eexists _, _. split; [reflexivity | done].
      * right. split; [done|]. by apply bool_decide_eq_true_2.
    + left. eexists _, _. split; [reflexivity|]. intros _.
      apply bool_decide_eq_false_2. by intros [? ?].
  - destruct (BatchCli.continue_on_error args); cbn [negb].
    + left. eexists _, _. split; [reflexivity | done].
    + right. done.
Qed.

Ltac parts := split; [|split; [|split; [|split]]].

Ltac fields :=
  cbn [BatchCli.main_thread BatchCli.submitted BatchCli.queue BatchCli.running
       BatchCli.finished BatchCli.yielded BatchCli.trace] in *.

Lemma phase_started (m : BatchCli.MainThread) (sub : nat) (q r f q' r' f' : list nat)
    (y y' : nat) (tr : list BatchCli.Event) (file_path : string) :
  m ≠ BatchCli.Ended ->
  phase (BatchCli.mkPool m sub q r f y tr) ->
  phase (BatchCli.mkPool m sub q' r' f' y' (tr ++ [BatchCli.Started file_path])).
Proof.
  intros Hm. unfold Workers.phase. cbn.
  destruct m as [|results failed_files|code|]; [| | |done].
  - intros [? ?]. split; [done|]. apply Forall_app. split; [done|].
    constructor; [apply started_goes_on | done].
  - intros [? ?]. split; [done|]. apply Forall_app. split; [done|].
    constructor; [apply started_goes_on | done].
  - intros (? & ? & post & (pre & file & -> & Hpre & Hfailed) & Hpost).
    split; [done|]. split; [done|].
    exists (post ++ [BatchCli.Started file_path]). split.
    + exists pre, file. split; [by rewrite <- app_assoc|]. done.
    + apply Forall_app. split; [done|]. by repeat constructor.
Qed.

Lemma phase_same (m : BatchCli.MainThread) (sub : nat) (q r f q' r' f' : list nat)
    (y y' : nat) (tr : list BatchCli.Event) :
  phase (BatchCli.mkPool m sub q r f y tr) ->
  phase (BatchCli.mkPool m sub q' r' f' y' tr).
Proof. unfold Workers.phase. cbn. done. Qed.

Lemma invariant_worker_takes (m : BatchCli.MainThread) (sub : nat)
    (q r f : list nat) (y : nat) (tr : list BatchCli.Event) (i : nat) :
  m ≠ BatchCli.Ended ->
  invariant (BatchCli.mkPool m sub (i :: q) r f y tr) ->
  invariant (BatchCli.mkPool m sub q (r ++ [i]) f y
               (tr ++ [BatchCli.Started (default "" (files_to_process !! i))])).
Proof.
  intros Hm ((k & Hk & Hqueue & Hstarted) & Hsub & Hcount & Hidx & Hphase).
  fields.
  destruct (sub - k)%nat as [|n] eqn:Hn; [discriminate Hqueue|].
  cbn in Hqueue. injection Hqueue as -> ->.
  assert (Hlt : (k < length files_to_process)%nat) by lia.
  destruct (lookup_lt_is_Some_2 files_to_process k Hlt) as [file Hfile].
  unfold Workers.invariant. fields. parts.
  - exists (S k). split; [lia|]. split; [f_equal; lia|].
    rewrite started_app, Hstarted, Hfile. cbn.
    by rewrite (take_S_r _ _ _ Hfile).
  - done.
  - rewrite processed_concat, length_app, length_seq.
    cbn [length] in Hcount. rewrite length_seq in Hcount.
    change (Spec.processed [BatchCli.Started (default "" (files_to_process !! k))])
      with 0%nat.
    cbn [length]. lia.
  - rewrite <- app_assoc. apply Forall_app. apply Forall_app in Hidx as [Hr Hf].
    split; [done|]. constructor; [lia | done].
  - eapply phase_started; [exact Hm | exact Hphase].
Qed.

Lemma invariant_worker_ends (m : BatchCli.MainThread) (sub : nat)
    (q r f : list nat) (y : nat) (tr : list BatchCli.Event) (i : nat) :
  BatchCli.mem i r = true ->
  invariant (BatchCli.mkPool m sub q r f y tr) ->
  invariant (BatchCli.mkPool m sub q (BatchCli.remove_one i r) (f ++ [i]) y tr).
Proof.
  intros Hi (Hq & Hsub & Hcount & Hidx & Hphase). fields.
  pose proof (remove_one_length _ _ Hi) as Hlen.
  apply Forall_app in Hidx as [Hr Hf].
  unfold Workers.invariant. fields. parts.
  - exact Hq.
  - done.
  - cbn. rewrite length_app. cbn. lia.
  - cbn. apply Forall_app. split; [by apply remove_one_subseteq|].
    apply Forall_app. split; [done|]. constructor; [|done].
    rewrite Forall_forall in Hr. apply Hr. by apply mem_elem_of.
  - eapply phase_same; exact Hphase.
Qed.

Lemma invariant_main_submits (sub : nat) (q r f : list nat) (y : nat)
    (tr : list BatchCli.Event) (file_path : string) :
  files_to_process !! sub = Some file_path ->
  invariant (BatchCli.mkPool BatchCli.Submitting sub q r f y tr) ->
  invariant
    (BatchCli.mkPool
       (if (S sub =? length files_to_process)%nat
        then BatchCli.Looping [] [] else BatchCli.Submitting)
       (S sub) (q ++ [sub]) r f y (tr ++ [BatchCli.Submit file_path])).
Proof.
  intros Hfile ((k & Hk & Hqueue & Hstarted) & Hsub & Hcount & Hidx & Hphase).
  fields. apply lookup_lt_Some in Hfile.
  unfold Workers.invariant. fields. parts.
  - exists k. split; [lia|]. split.
    + replace (S sub - k)%nat with (S (sub - k)) by lia.
      rewrite seq_S, Hqueue. do 2 f_equal. lia.
    + rewrite started_app, Hstarted. cbn. by rewrite app_nil_r.
  - lia.
  - rewrite processed_concat, length_app.
    change (Spec.processed [BatchCli.Submit file_path]) with 0%nat.
    cbn [length]. lia.
  - eapply Forall_impl; [exact Hidx|]. cbn. lia.
  - unfold Workers.phase in *. fields. destruct Hphase as [_ Hquiet].
    assert (Hquiet' : Forall goes_on (tr ++ [BatchCli.Submit file_path]))
      by (apply Forall_app; split;
          [done | constructor; [apply submit_goes_on | done]]).
    destruct (Nat.eqb_spec (S sub) (length files_to_process)); fields.
    + done.
    + split; [lia | done].
Qed.

Lemma invariant_main_takes (results : list PyDict)
    (failed_files : list (string * PyVal)) (sub : nat) (q r f : list nat) (y : nat)
    (tr : list BatchCli.Event) (i : nat) :
  BatchCli.mem i f = true ->
  invariant (BatchCli.mkPool (BatchCli.Looping results failed_files) sub q r f y tr) ->
  invariant
    (step (BatchCli.mkPool (BatchCli.Looping results failed_files) sub q r f y tr)
       (BatchCli.Main_takes i)).
Proof.
  intros Hi ((k & Hk & Hqueue & Hstarted) & Hsub & Hcount & Hidx & Hphase).
  fields. unfold BatchCli.step. fields. rewrite Hi.
  pose proof (remove_one_length _ _ Hi) as Hlen.
  apply Forall_app in Hidx as [Hr Hf].
  assert (Hidx' : Forall (fun j => (j < sub)%nat) (r ++ BatchCli.remove_one i f))
    by (apply Forall_app; split; [done | by apply remove_one_subseteq]).
  unfold Workers.phase in Hphase. fields. destruct Hphase as [-> Hquiet].
  assert (Hlt : (i < length files_to_process)%nat).
  { rewrite Forall_forall in Hf. apply Hf. by apply mem_elem_of. }
  destruct (lookup_lt_is_Some_2 files_to_process i Hlt) as [file_path Hfile].
  rewrite Hfile. cbv zeta. cbn [default]. unfold id.
  assert (Hcounted : (Spec.processed (tr ++ [BatchCli.Completed file_path])
                      = S (Spec.processed tr))%nat).
  { rewrite processed_concat.
    change (Spec.processed [BatchCli.Completed file_path]) with 1%nat. lia. }
  assert (Hstarted' : Workers.started (tr ++ [BatchCli.Completed file_path])
                      = take k files_to_process)
    by (rewrite started_app, Hstarted; cbn; by rewrite app_nil_r).
  destruct (loop_body_cases i file_path results failed_files)
    as [(results' & failed_files' & -> & Hgood)|[-> Hfailed]].
  - assert (Hquiet' : Forall goes_on (tr ++ [BatchCli.Completed file_path])).
    { apply Forall_app. split; [done|]. constructor; [|done].
      split; [done|]. intros Hstop file [= <-]. exists i. auto. }
    destruct (Nat.eqb_spec (S y) (length files_to_process)).
    + unfold Workers.invariant. fields. parts.
      * exists k. split; [done|]. split; [done|].
        rewrite started_app, Hstarted'. cbn. by rewrite app_nil_r.
      * done.
      * rewrite processed_concat, Hcounted.
        match goal with
        | |- context [Spec.processed [BatchCli.Output ?s]] =>
            change (Spec.processed [BatchCli.Output s]) with 0%nat
        end. lia.
      * done.
      * unfold Workers.phase. fields. right.
        eexists _, _. split; [reflexivity | done].
    + unfold Workers.invariant. fields. parts.
      * exists k. done.
      * done.
      * rewrite Hcounted. lia.
      * done.
      * done.
  - unfold Workers.invariant. fields. parts.
    + exists k. done.
    + done.
    + rewrite Hcounted. lia.
    + done.
    + unfold Workers.phase. fields. split; [done|]. split; [done|].
      exists []. split; [|done].
      exists tr, file_path. split; [done|]. split; [done|].
      exists i. done.
Qed.

Lemma settle_invariant (p : BatchCli.Pool) :
  invariant p -> invariant (BatchCli.settle p).
Proof.
  intros Hp. unfold BatchCli.settle.
  destruct p as [m sub q r f y tr]. fields.
  destruct m as [|results failed_files|code|]; try done.
  destruct q as [|i q]; [|done]. destruct r as [|j r]; [|done].
  destruct Hp as ((k & Hk & Hqueue & Hstarted) & Hsub & Hcount & Hidx & Hphase).
  fields. unfold Workers.phase in Hphase. fields.
  destruct Hphase as (-> & -> & post & (pre & file_path & -> & Hpre & Hfailed) & Hpost).
  assert (k = length files_to_process) as ->.
  { destruct (length files_to_process - k)%nat eqn:E; [lia | discriminate Hqueue]. }
  rewrite firstn_all in Hstarted.
  unfold Workers.invariant. fields. parts.
  - exists (length files_to_process). split; [done|]. split; [by rewrite Nat.sub_diag|].
    rewrite started_app, Hstarted, firstn_all. cbn. by rewrite app_nil_r.
  - done.
  - rewrite processed_concat.
    change (Spec.processed [BatchCli.Exit 1]) with 0%nat. cbn [length] in *. lia.
  - done.
  - unfold Workers.phase. fields. left. exists post. split; [|split; [done|]].
    + exists pre, file_path. split; [by rewrite <- app_assoc|]. done.
    + rewrite started_app, Hstarted. cbn. by rewrite app_nil_r.
Qed.

Lemma step_invariant (p : BatchCli.Pool) (s : BatchCli.Step) :
  invariant p -> invariant (step p s).
Proof.
  intros Hp. destruct p as [m sub q r f y tr].
  destruct s as [| |i|i].
  - unfold BatchCli.step. fields.
    destruct m; try done.
    destruct (files_to_process !! sub) as [file_path|] eqn:Hfile; [|done].
    by apply invariant_main_submits.
  - unfold BatchCli.step. fields.
    destruct m; try done;
      (destruct q as [|i q]; [done|];
       destruct (Z.of_nat (length r) <? BatchCli.workers args); [|done];
       by apply invariant_worker_takes).
  - unfold BatchCli.step. fields.
    destruct m; try done;
      (destruct (BatchCli.mem i r) eqn:Hi; [|done];
       by apply invariant_worker_ends).
  - destruct m as [|results failed_files|code|]; try done.
    destruct (BatchCli.mem i f) eqn:Hi.
    + by apply invariant_main_takes.
    + unfold BatchCli.step. fields. by rewrite Hi.
Qed.

Lemma start_invariant : files_to_process ≠ [] -> invariant BatchCli.start.
Proof.
  intros Hne. unfold Workers.invariant, BatchCli.start. fields. parts.
  - exists 0%nat. done.
  - lia.
  - done.
  - done.
  - unfold Workers.phase. fields. split; [|done].
    destruct files_to_process; [done | cbn; lia].
Qed.

Lemma steps_invariant (schedule : list BatchCli.Step) :
  files_to_process ≠ [] -> invariant (steps schedule).
Proof.
  intros Hne. unfold BatchCli.steps.
  induction schedule as [|s schedule IH] using rev_ind; [by apply start_invariant|].
  rewrite foldl_snoc. by apply settle_invariant, step_invariant.
Qed.

Lemma started_completed (pre post : list BatchCli.Event) (file_path : string) :
  Workers.started (pre ++ BatchCli.Completed file_path :: post)
  = Workers.started (pre ++ post).
Proof. by rewrite !started_app. Qed.

(** C7 on the code.  A run that [sys.exit(1)] ends has this shape:
    results are taken, none of them a failure; the result of a failed
    file is taken; from then on the main thread takes no result and
    puts out no summary, but the workers go on: they start on every
    file that was still queued, and only when all the files have been
    started, in the order of submission, and are done does the process
    exit with status 1.  So work is dispatched after the first observed
    failure whenever a file was still waiting for a worker; what holds
    is that its results are discarded and that at most as many results
    are taken as there are files. *)
Theorem exit_waits_for_the_queued_files (schedule : list BatchCli.Step) :
  BatchCli.continue_on_error args = false ->
  0 < BatchCli.workers args ->
  files_to_process ≠ [] ->
  BatchCli.Exit 1 ∈ run schedule ->
  ∃ pre post file_path,
    run schedule
    = pre ++ BatchCli.Completed file_path :: post ++ [BatchCli.Exit 1]
    ∧ failed file_path
    ∧ (∀ ev, ev ∈ pre -> Workers.is_end ev = false)
    ∧ (∀ taken, BatchCli.Completed taken ∈ pre -> succeeded taken)
    ∧ Forall (fun ev => Workers.is_started ev = true) post
    ∧ Workers.started (pre ++ post) = files_to_process
    ∧ Workers.started post
      = drop (length (Workers.started pre)) files_to_process
    ∧ (Spec.processed (run schedule) <= length files_to_process)%nat.
Proof.
  intros Hstop Hworkers Hne Hexit. unfold BatchCli.run in *.
  destruct files_to_process as [|file files] eqn:Hfiles; [done|].
  rewrite <- Hfiles in *.
  destruct (BatchCli.workers args <=? 0) eqn:E; [apply Z.leb_le in E; lia|].
  assert (Hne' : files_to_process ≠ []) by (rewrite Hfiles; done).
  destruct (steps_invariant schedule Hne')
    as (_ & Hsub & Hcount & _ & Hphase).
  assert (Hgo : ∀ tr, Forall goes_on tr -> BatchCli.Exit 1 ∉ tr).
  { intros tr Htr Hin. rewrite Forall_forall in Htr.
    by destruct (Htr _ Hin) as [? _]. }
  assert (Hst : ∀ tr, Forall (fun ev => Workers.is_started ev = true) tr ->
                      BatchCli.Exit 1 ∉ tr).
  { intros tr Htr Hin. rewrite Forall_forall in Htr. by specialize (Htr _ Hin). }
  unfold Workers.phase in Hphase.
  destruct (BatchCli.main_thread (steps schedule)) as [|results failed_files|code|].
  - destruct Hphase as [_ Hquiet]. by apply Hgo in Hquiet.
  - destruct Hphase as [_ Hquiet]. by apply Hgo in Hquiet.
  - destruct Hphase as (_ & _ & post & (pre & f & Htr & Hpre & _) & Hpost).
    rewrite Htr in Hexit. apply elem_of_app in Hexit as [Hin|Hin].
    + by apply Hgo in Hin.
    + apply elem_of_cons in Hin as [Hin|Hin]; [done | by apply Hst in Hin].
  - destruct Hphase as [(post & (pre & f & Htr & Hpre & Hfailed) & Hpost & Hall)
                       |(tr & summary & Htr & Hquiet)].
    + exists pre, post, f. rewrite Htr in Hall.
      rewrite started_completed, app_assoc, started_app in Hall.
      cbn in Hall. rewrite app_nil_r in Hall.
      split; [done|]. split; [done|]. rewrite Forall_forall in Hpre.
      split; [intros ev Hev; by destruct (Hpre _ Hev)|].
      split; [intros taken Hev; destruct (Hpre _ Hev) as [_ H]; by apply H|].
      split; [done|]. split; [done|]. split.
      * rewrite <- Hall, started_app. by rewrite drop_app_length.
      * lia.
    + rewrite Htr in Hexit. apply elem_of_app in Hexit as [Hin|Hin].
      * by apply Hgo in Hin.
      * apply list_elem_of_singleton in Hin. discriminate Hin.
Qed.
End PoolRuns.

(** ** Concrete runs of the batch dispatcher and the batch endpoint *)

Section BatchRuns.
Import Py.




Lemma exit_waits_for_the_queued_files_witness :
  BatchCli.run Fixture.engine Fixture.disk (Fixture.args false 1) None
    Sample.missing_first Fixture.no_time Sample.prompt_schedule
  = [BatchCli.Submit "two.png"; BatchCli.Submit "one.png";
     BatchCli.Submit "three.png"; BatchCli.Started "two.png";
     BatchCli.Completed "two.png"; BatchCli.Started "one.png";
     BatchCli.Started "three.png"; BatchCli.Exit 1]
  ∧ List.filter (fun ev => negb (Workers.is_started ev))
      (BatchCli.run Fixture.engine Fixture.disk (Fixture.args false 1) None
         Sample.missing_first Fixture.no_time Sample.prompt_schedule)
    = BatchCli.main Fixture.engine Fixture.disk (Fixture.args false 1) None
        Sample.missing_first [0; 1; 2]%nat Fixture.no_time
  ∧ ∃ pre post file_path,
      BatchCli.run Fixture.engine Fixture.disk (Fixture.args false 1) None
        Sample.missing_first Fixture.no_time Sample.prompt_schedule
      = pre ++ BatchCli.Completed file_path :: post ++ [BatchCli.Exit 1]
      ∧ Forall (fun ev => Workers.is_started ev = true) post
      ∧ Workers.started (pre ++ post) = Sample.missing_first.
Proof.
  split; [reflexivity|]. split; [reflexivity|].
  destruct (exit_waits_for_the_queued_files Fixture.engine Fixture.disk
              (Fixture.args false 1) None Sample.missing_first Fixture.no_time
              Sample.prompt_schedule eq_refl eq_refl ltac:(discriminate)
              ltac:(vm_compute; repeat constructor))
    as (pre & post & file_path & Hrun & _ & _ & _ & Hpost & Hall & _).
  exists pre, post, file_path. split; [exact Hrun|]. split; [exact Hpost | exact Hall].
Defined.

(** The scenario of the specification: three files, the second of
    which fails.  Collecting all gives two successes and one failure;
    failing fast stops after the second file. *)
Lemma three_files_second_fails :
  (∃ r1 r3 err,
     BatchCli.main Fixture.engine Fixture.disk (Fixture.args true 2) None
       Fixture.three_files [0; 1; 2]%nat Fixture.no_time
     = [BatchCli.Submit "one.png"; BatchCli.Submit "two.png";
        BatchCli.Submit "three.png"; BatchCli.Completed "one.png";
        BatchCli.Completed "two.png"; BatchCli.Completed "three.png";
        BatchCli.Output (BatchCli.mkSummary 3 2 1 [r1; r3] [("two.png", err)])]).
Proof. eexists _, _, _. vm_compute. reflexivity. Qed.
End BatchRuns.

(** ** More on the chunked upload store *)

Section UploadStore.
Import Py.
Variable UPLOAD_FOLDER : string.
Variable secure_filename : string -> string.
Variable GEMINI_AVAILABLE : bool.
Variable ocr_processor : PyObject Cli.OcrMethod.
Variable GeminiProcessor : option string -> Res string.
Variable gemini_process_text : PyVal -> list (string * PyVal) -> Res PyDict.

Local Abbreviation complete :=
  (Api.complete_chunked_upload UPLOAD_FOLDER GEMINI_AVAILABLE ocr_processor
     GeminiProcessor gemini_process_text).
Local Abbreviation processing :=
  (Api.complete_process_form GEMINI_AVAILABLE ocr_processor
     GeminiProcessor gemini_process_text).
Local Abbreviation handle :=
  (Api.handle UPLOAD_FOLDER secure_filename GEMINI_AVAILABLE ocr_processor
     GeminiProcessor gemini_process_text).
Local Abbreviation serve :=
  (Api.serve UPLOAD_FOLDER secure_filename GEMINI_AVAILABLE ocr_processor
     GeminiProcessor gemini_process_text).

Lemma unknown_session (w : Api.World) (upload_id : string)
    (chunk_form : Api.ChunkForm) (form : gmap string string) :
  Api.UPLOAD_SESSIONS w !! upload_id = None ->
  Api.upload_chunk upload_id chunk_form w = (w, Api.failure 400 "Invalid upload session")
  ∧ complete upload_id form w = (w, Api.failure 400 "Invalid upload session")
  ∧ Api.cancel_chunked_upload upload_id w
    = (w, Api.failure 400 "Invalid upload session").
Proof.
  intros H.
  unfold Api.upload_chunk, Api.complete_chunked_upload, Api.cancel_chunked_upload.
  by rewrite H.
Qed.

(** X1: An unknown session identifier is refused by every operation on
    sessions, with the same 400 answer, and nothing changes. *)
Theorem unknown_session_is_refused (w : Api.World) (upload_id : string)
    (chunk_form : Api.ChunkForm) (form : gmap string string) :
  Api.UPLOAD_SESSIONS w !! upload_id = None ->
  Api.upload_chunk upload_id chunk_form w = (w, Api.failure 400 "Invalid upload session")
  ∧ complete upload_id form w = (w, Api.failure 400 "Invalid upload session")
  ∧ Api.cancel_chunked_upload upload_id w
    = (w, Api.failure 400 "Invalid upload session").
Proof.
  intros H.
  unfold Api.upload_chunk, Api.complete_chunked_upload, Api.cancel_chunked_upload.
  by rewrite H.
Qed.

(** X2: Cancelling a live session removes its entry and its backing file,
    and nothing else; afterwards the identifier is unknown, so that a
    chunk, a completion or a second cancel for it is refused. *)
Theorem cancel_forgets_the_session (w : Api.World) (upload_id : string)
    (session : Api.Session) (chunk_form : Api.ChunkForm) (form : gmap string string) :
  Api.UPLOAD_SESSIONS w !! upload_id = Some session ->
  let after := fst (Api.cancel_chunked_upload upload_id w) in
  snd (Api.cancel_chunked_upload upload_id w)
    = Api.mkResponse 200 (Api.CancelOk "Upload cancelled")
  ∧ Api.UPLOAD_SESSIONS after = delete upload_id (Api.UPLOAD_SESSIONS w)
  ∧ Api.files after = delete (Api.temp_path session) (Api.files w)
  ∧ Api.upload_chunk upload_id chunk_form after
    = (after, Api.failure 400 "Invalid upload session")
  ∧ complete upload_id form after = (after, Api.failure 400 "Invalid upload session")
  ∧ Api.cancel_chunked_upload upload_id after
    = (after, Api.failure 400 "Invalid upload session").
Proof.
  intros Hs after.
  assert (Hafter : Api.cancel_chunked_upload upload_id w
                   = (Api.mkWorld (delete upload_id (Api.UPLOAD_SESSIONS w))
                        (delete (Api.temp_path session) (Api.files w)),
                      Api.mkResponse 200 (Api.CancelOk "Upload cancelled"))).
  { unfold Api.cancel_chunked_upload. rewrite Hs. f_equal. f_equal.
    unfold os_path_exists. case_bool_decide as Hex; [done|].
    symmetry. apply delete_id. by apply eq_None_not_Some. }
  subst after. rewrite Hafter. cbn [fst snd Api.UPLOAD_SESSIONS Api.files].
  split; [done|]. split; [done|]. split; [done|].
  apply unknown_session. cbn. apply lookup_delete_eq.
Qed.

(** X3: A chunk request that is not answered with 200 changes nothing; and a
    chunk posted to a live session without a [chunk_index] field is
    refused as an invalid index. *)
Theorem refused_chunk_changes_nothing (w : Api.World) (upload_id : string)
    (form : Api.ChunkForm) :
  (Api.status (snd (Api.upload_chunk upload_id form w)) ≠ 200 ->
   fst (Api.upload_chunk upload_id form w) = w)
  ∧ (is_Some (Api.UPLOAD_SESSIONS w !! upload_id) ->
     is_Some (Api.form_chunk form) ->
     Api.form_chunk_index form = None ->
     Api.upload_chunk upload_id form w = (w, Api.failure 400 "Invalid chunk index")).
Proof.
  split.
  - unfold Api.upload_chunk.
    destruct (Api.UPLOAD_SESSIONS w !! upload_id); [|done].
    destruct (Api.form_chunk form); [|done].
    destruct (default _ _) as [i|]; [|done].
    destruct (i <? 0); [done|]. cbn. done.
  - intros [s Hs] [c Hc] Hi. unfold Api.upload_chunk. by rewrite Hs, Hc, Hi.
Qed.

Lemma string_app_cons (x : ascii) (a b : string) :
  String x a +:+ b = String x (a +:+ b).
Proof. reflexivity. Qed.

Lemma string_app_assoc (a b c : string) : (a +:+ b) +:+ c = a +:+ (b +:+ c).
Proof.
  induction a as [|x a IH]; [done|]. by rewrite !string_app_cons, IH.
Qed.

Lemma string_app_empty (a : string) : a +:+ "" = a.
Proof. induction a as [|x a IH]; [done|]. by rewrite string_app_cons, IH. Qed.

(** X4: The backing file is the payloads in the order of arrival: after any
    chunks with nonnegative indices, sent one after the other to a live
    session, the file holds its former content followed by the payloads
    in that order, whatever the indices say, the session has recorded
    the indices in that order, and no other file or session changed. *)
Theorem chunks_are_appended_in_arrival_order (chunks : list (Z * string))
    (w : Api.World) (upload_id : string) (session : Api.Session) :
  Api.UPLOAD_SESSIONS w !! upload_id = Some session ->
  Forall (fun c => 0 <= fst c) chunks ->
  let after := serve w (Protocol.chunk_requests upload_id chunks) in
  Api.UPLOAD_SESSIONS after !! upload_id
    = Some (Protocol.with_received session (map fst chunks))
  ∧ default "" (Api.files after !! Api.temp_path session)
    = default "" (Api.files w !! Api.temp_path session)
      +:+ Protocol.joined (map snd chunks)
  ∧ (∀ other, other ≠ upload_id ->
       Api.UPLOAD_SESSIONS after !! other = Api.UPLOAD_SESSIONS w !! other)
  ∧ (∀ path, path ≠ Api.temp_path session ->
       Api.files after !! path = Api.files w !! path).
Proof.
  intros Hs Hall. revert w session Hs.
  induction Hall as [|[i d] chunks Hi Hall IH]; intros w session Hs after.
  - subst after. cbn. unfold Protocol.with_received.
    rewrite app_nil_r, string_app_empty. destruct session. cbn. done.
  - subst after.
    cbn [Protocol.chunk_requests map Api.serve foldl Api.handle fst snd].
    cbn [fst snd] in Hi.
    rewrite (upload_chunk_accepted w upload_id session i d Hs Hi). cbn [fst].
    set (w1 := Api.mkWorld _ _).
    specialize (IH w1 (Protocol.with_received session [i])).
    destruct IH as (IH1 & IH2 & IH3 & IH4).
    { subst w1. cbn. apply lookup_insert_eq. }
    fold (Protocol.chunk_requests upload_id chunks).
    change (foldl _ w1 (Protocol.chunk_requests upload_id chunks))
      with (serve w1 (Protocol.chunk_requests upload_id chunks)).
    cbn [Protocol.with_received Api.temp_path] in IH2, IH4.
    split; [|split; [|split]].
    + rewrite IH1. unfold Protocol.with_received. cbn. by rewrite <- app_assoc.
    + rewrite IH2. subst w1. cbn [Api.files]. unfold append_file.
      rewrite lookup_insert_eq. unfold Protocol.joined.
      cbn [default map snd foldr]. unfold id.
      by rewrite string_app_assoc.
    + intros other Hne. rewrite (IH3 other Hne). subst w1. cbn.
      by rewrite lookup_insert_ne.
    + intros path Hne. rewrite (IH4 path Hne). subst w1. cbn. unfold append_file.
      by rewrite lookup_insert_ne.
Qed.

(** X5: A fully received session whose backing file does not exist (no
    chunk was ever accepted, the declared chunk count being 0) cannot
    be completed: the rename fails, [complete] answers 500 with the
    message of the [FileNotFoundError], and the session stays in the
    store. *)
Theorem complete_without_backing_file (w : Api.World) (upload_id : string)
    (session : Api.Session) (form : gmap string string) :
  Api.UPLOAD_SESSIONS w !! upload_id = Some session ->
  Z.of_nat (length (Api.received_chunks session)) = Api.chunk_count session ->
  Api.files w !! Api.temp_path session = None ->
  complete upload_id form w
  = (w, Api.failure 500
          ("[Errno 2] No such file or directory: '" +:+ Api.temp_path session
           +:+ "' -> '" +:+ os_path_join UPLOAD_FOLDER (Api.filename session) +:+ "'")).
Proof.
  intros Hs Hfull Hnone. unfold Api.complete_chunked_upload. rewrite Hs.
  apply Z.eqb_eq in Hfull. rewrite Hfull. cbn [negb].
  unfold os_rename. rewrite Hnone. reflexivity.
Qed.


Lemma handle_sessions_well_formed (w : Api.World) (r : Api.Request) :
  (∀ id s, Api.UPLOAD_SESSIONS w !! id = Some s ->
           Protocol.session_well_formed UPLOAD_FOLDER id s) ->
  ∀ id s, Api.UPLOAD_SESSIONS (fst (handle w r)) !! id = Some s ->
          Protocol.session_well_formed UPLOAD_FOLDER id s.
Proof.
  intros Hw. destruct r as [uuid4 data|upload_id form|upload_id form|upload_id]; cbn.
  - unfold Api.init_chunked_upload.
    destruct (String.eqb _ "" || negb _) eqn:E1; [exact Hw|].
    destruct (Api.MAX_FILE_SIZE <? _) eqn:E2; [exact Hw|].
    apply orb_false_iff in E1 as [Hname Hallowed].
    apply String.eqb_neq in Hname. apply negb_false_iff in Hallowed.
    intros id sess. cbn. rewrite lookup_insert_Some.
    intros [[<- <-]|[_ Hs]]; [|eauto]. repeat split; cbn; done.
  - unfold Api.upload_chunk.
    destruct (Api.UPLOAD_SESSIONS w !! upload_id) as [session|] eqn:Hs; [|exact Hw].
    destruct (Api.form_chunk form); [|exact Hw].
    destruct (default _ _) as [chunk_index|]; [|exact Hw].
    destruct (chunk_index <? 0); [exact Hw|].
    intros id sess. cbn. rewrite lookup_insert_Some.
    intros [[<- <-]|[_ Hs']]; [|eauto]. exact (Hw _ _ Hs).
  - unfold Api.complete_chunked_upload.
    destruct (Api.UPLOAD_SESSIONS w !! upload_id) as [session|]; [|exact Hw].
    case_match; [exact Hw|]. case_match; [|exact Hw].
    case_match; [case_match|]; intros id sess; cbn; rewrite lookup_delete_Some;
      intros [_ Hs]; eauto.
  - unfold Api.cancel_chunked_upload.
    destruct (Api.UPLOAD_SESSIONS w !! upload_id) as [session|]; [|exact Hw].
    intros id sess. cbn. rewrite lookup_delete_Some. intros [_ Hs]. eauto.
Qed.

Lemma serve_sessions_well_formed (rs : list Api.Request) (w : Api.World) :
  (∀ id s, Api.UPLOAD_SESSIONS w !! id = Some s ->
           Protocol.session_well_formed UPLOAD_FOLDER id s) ->
  ∀ id s, Api.UPLOAD_SESSIONS (serve w rs) !! id = Some s ->
          Protocol.session_well_formed UPLOAD_FOLDER id s.
Proof.
  revert w. induction rs as [|r rs IH]; intros w Hw; [exact Hw|].
  cbn. apply IH. by apply handle_sessions_well_formed.
Qed.

Lemma reachable_sessions_well_formed (rs : list Api.Request)
    (upload_id : string) (session : Api.Session) :
  Api.UPLOAD_SESSIONS (serve Api.empty_world rs) !! upload_id = Some session ->
  Protocol.session_well_formed UPLOAD_FOLDER upload_id session.
Proof.
  apply serve_sessions_well_formed. intros id sess. cbn. by rewrite lookup_empty.
Qed.

(** X7: At every point of every run of the protocol, each live session
    keeps what [init] checked of its name and set up for its file: its
    backing file path is [upload_<id>] under the upload folder, and its
    filename is not empty and has an allowed extension. *)
Theorem live_sessions_are_well_formed (rs : list Api.Request)
    (upload_id : string) (session : Api.Session) :
  Api.UPLOAD_SESSIONS (serve Api.empty_world rs) !! upload_id = Some session ->
  Protocol.session_well_formed UPLOAD_FOLDER upload_id session.
Proof. apply reachable_sessions_well_formed. Qed.

Lemma temp_path_inj (a b : string) :
  os_path_join UPLOAD_FOLDER ("upload_" +:+ a)
  = os_path_join UPLOAD_FOLDER ("upload_" +:+ b) -> a = b.
Proof.
  unfold os_path_join. cbn [startswith_slash].
  change (startswith_slash ("upload_" +:+ a)) with false.
  change (startswith_slash ("upload_" +:+ b)) with false.
  cbn iota. intros H.
  destruct (String.eqb UPLOAD_FOLDER "" || endswith_slash UPLOAD_FOLDER);
    apply String.app_inj in H.
  - by apply (String.app_inj "upload_") in H.
  - apply (String.app_inj "/") in H. by apply (String.app_inj "upload_") in H.
Qed.

(** X8: Sessions do not interfere through chunks: at any point of a run, a
    chunk request for one live session leaves every other live session's
    record and backing file as they were. *)
Theorem chunk_leaves_other_sessions_alone (rs : list Api.Request)
    (upload_id other : string) (session : Api.Session) (form : Api.ChunkForm) :
  other ≠ upload_id ->
  Api.UPLOAD_SESSIONS (serve Api.empty_world rs) !! other = Some session ->
  let w := serve Api.empty_world rs in
  let after := fst (Api.upload_chunk upload_id form w) in
  Api.UPLOAD_SESSIONS after !! other = Some session
  ∧ Api.files after !! Api.temp_path session = Api.files w !! Api.temp_path session.
Proof.
  intros Hne Hother w after. subst after.
  unfold Api.upload_chunk.
  destruct (Api.UPLOAD_SESSIONS w !! upload_id) as [target|] eqn:Hs; [|done].
  destruct (Api.form_chunk form); [|done].
  destruct (default _ _) as [chunk_index|]; [|done].
  destruct (chunk_index <? 0); [done|]. cbn.
  split; [by rewrite lookup_insert_ne|].
  unfold append_file. rewrite lookup_insert_ne; [done|].
  destruct (reachable_sessions_well_formed rs upload_id target Hs) as [-> _].
  destruct (reachable_sessions_well_formed rs other session Hother) as [-> _].
  intros H. apply temp_path_inj in H. congruence.
Qed.
End UploadStore.

(** ** More on file names and on the extraction invoker *)

Section FileNames.
Import Py.

Lemma str_in_elem_of (x : string) (l : list string) : str_in x l = true ↔ x ∈ l.
Proof.
  unfold str_in. induction l as [|y l IH]; cbn.
  - split; [discriminate | intros H; by apply elem_of_nil in H].
  - rewrite orb_true_iff, IH, elem_of_cons, String.eqb_eq. done.
Qed.

Lemma rsplit_dot_app (stem ext : string) :
  rsplit_dot ext = None -> rsplit_dot (stem +:+ "." +:+ ext) = Some ext.
Proof.
  intros Hext. induction stem as [|c stem IH].
  - change ("" +:+ "." +:+ ext) with (String "."%char ext).
    cbn [rsplit_dot]. by rewrite Hext.
  - rewrite string_app_cons. cbn [rsplit_dot]. by rewrite IH.
Qed.

Lemma rsplit_dot_Some (s ext : string) :
  rsplit_dot s = Some ext ->
  ∃ stem, s = stem +:+ "." +:+ ext ∧ rsplit_dot ext = None.
Proof.
  revert ext. induction s as [|c s IH]; intros ext; cbn [rsplit_dot]; [discriminate|].
  destruct (rsplit_dot s) as [t|] eqn:Hs.
  - intros [= <-]. destruct (IH t eq_refl) as (stem & -> & Hnone).
    exists (String c stem). by rewrite string_app_cons.
  - destruct (Ascii.eqb c ".") eqn:Hc; [|discriminate].
    apply Ascii.eqb_eq in Hc as ->. intros [= <-]. by exists "".
Qed.

(** X9: [allowed_file] accepts exactly the names of the form
    [stem.ext] in which [ext] contains no dot and, put in lower case, is
    one of the allowed extensions: only the text after the last dot
    counts, and a name without a dot is refused. *)
Theorem allowed_file_iff (filename : string) :
  Api.allowed_file filename = true ↔
  ∃ stem ext, filename = stem +:+ "." +:+ ext
              ∧ rsplit_dot ext = None
              ∧ lower ext ∈ Api.ALLOWED_EXTENSIONS.
Proof.
  unfold Api.allowed_file. split.
  - destruct (rsplit_dot filename) as [ext|] eqn:H; [|discriminate].
    intros Hin. destruct (rsplit_dot_Some _ _ H) as (stem & -> & Hnone).
    exists stem, ext. by rewrite <- str_in_elem_of.
  - intros (stem & ext & -> & Hnone & Hin).
    rewrite (rsplit_dot_app _ _ Hnone). by apply str_in_elem_of.
Qed.

Lemma allowed_file_iff_witness :
  Api.allowed_file "scan.v2.PNG" = true ∧ Api.allowed_file "scan.png.exe" = false.
Proof.
  split.
  - apply (proj2 (allowed_file_iff "scan.v2.PNG")).
    exists "scan.v2", "PNG". repeat split. vm_compute. set_solver.
  - reflexivity.
Defined.

Lemma lower_char_idemp (c : ascii) : lower_char (lower_char c) = lower_char c.
Proof. by destruct c as [[] [] [] [] [] [] [] []]. Qed.

Lemma lower_char_dot (c : ascii) : Ascii.eqb (lower_char c) "." = Ascii.eqb c ".".
Proof. by destruct c as [[] [] [] [] [] [] [] []]. Qed.

Lemma lower_idemp (s : string) : lower (lower s) = lower s.
Proof. induction s as [|c s IH]; cbn; [done|]. by rewrite lower_char_idemp, IH. Qed.

Lemma rsplit_dot_lower (s : string) : rsplit_dot (lower s) = lower <$> rsplit_dot s.
Proof.
  induction s as [|c s IH]; cbn [lower rsplit_dot]; [done|].
  rewrite IH, lower_char_dot. destruct (rsplit_dot s); cbn; [done|].
  by destruct (Ascii.eqb c ".").
Qed.

(** X10: The extension check does not depend on the case of the letters:
    a name is allowed exactly when its lower-case form is. *)
Theorem allowed_file_ignores_case (filename : string) :
  Api.allowed_file (lower filename) = Api.allowed_file filename.
Proof.
  unfold Api.allowed_file. rewrite rsplit_dot_lower.
  destruct (rsplit_dot filename) as [ext|]; cbn; [|done].
  by rewrite lower_idemp.
Qed.
End FileNames.

Section Extraction.
Import Py.

Lemma split_go_length (cur : list ascii) (s : string) :
  (length (split_go cur s)
   <= String.length s + match cur with [] => 0 | _ => 1 end)%nat.
Proof.
  revert cur. induction s as [|c s IH]; intros cur; cbn [split_go String.length].
  - destruct cur; cbn; lia.
  - destruct (isspace c).
    + specialize (IH []). destruct cur; simpl in *; lia.
    + specialize (IH (c :: cur)). simpl in *. lia.
Qed.

Lemma split_go_nil (cur : list ascii) (s : string) :
  split_go cur s = [] ↔ cur = [] ∧ lstrip s = "".
Proof.
  revert cur. induction s as [|c s IH]; intros cur; cbn [split_go lstrip].
  - destruct cur; split; [done | done | discriminate | intros [? _]; discriminate].
  - destruct (isspace c).
    + destruct cur as [|x cur].
      * rewrite (IH []). done.
      * split; [discriminate | intros [? _]; discriminate].
    + rewrite (IH (c :: cur)).
      split; [intros [? _]; discriminate | intros [_ ?]; discriminate].
Qed.

Lemma lstrip_length (s : string) : (String.length (lstrip s) <= String.length s)%nat.
Proof. induction s as [|c s IH]; cbn; [lia|]. destruct (isspace c); cbn; lia. Qed.

Lemma rstrip_length (s : string) : (String.length (rstrip s) <= String.length s)%nat.
Proof.
  induction s as [|c s IH]; cbn [rstrip String.length]; [lia|].
  destruct (rstrip s) as [|x r]; [destruct (isspace c)|]; cbn [String.length] in *; lia.
Qed.

Lemma lstrip_idemp (s : string) : lstrip (lstrip s) = lstrip s.
Proof.
  induction s as [|c s IH]; cbn [lstrip]; [done|].
  destruct (isspace c) eqn:E; [done|]. cbn [lstrip]. by rewrite E.
Qed.

Lemma rstrip_idemp (s : string) : rstrip (rstrip s) = rstrip s.
Proof.
  induction s as [|c s IH]; cbn [rstrip]; [done|].
  destruct (rstrip s) as [|x r] eqn:Hr.
  - destruct (isspace c) eqn:E; [done|]. cbn [rstrip]. by rewrite E.
  - cbn [rstrip]. cbn [rstrip] in IH.
    destruct (rstrip r) as [|y r'] eqn:Hr'.
    + destruct (isspace x); [discriminate|]. by rewrite IH.
    + by rewrite IH.
Qed.

Lemma rstrip_empty (s : string) : rstrip s = "" ↔ lstrip s = "".
Proof.
  induction s as [|c s IH]; cbn [rstrip lstrip]; [done|].
  destruct (isspace c) eqn:E.
  - rewrite <- IH. destruct (rstrip s); [done|]. split; discriminate.
  - destruct (rstrip s); split; discriminate.
Qed.

Lemma lstrip_rstrip (s : string) : lstrip (rstrip s) = rstrip (lstrip s).
Proof.
  induction s as [|c s IH]; [done|]. cbn [rstrip lstrip].
  destruct (isspace c) eqn:E.
  - destruct (rstrip s) as [|x r] eqn:Hr.
    + rewrite <- IH. done.
    + cbn [lstrip]. by rewrite E.
  - cbn [rstrip]. destruct (rstrip s) as [|x r]; cbn [lstrip]; by rewrite E.
Qed.

Lemma strip_idemp (s : string) : strip (strip s) = strip s.
Proof.
  unfold strip. by rewrite lstrip_rstrip, lstrip_idemp, rstrip_idemp.
Qed.

Lemma strip_empty (s : string) : strip s = "" ↔ split s = [].
Proof.
  unfold strip, split. rewrite rstrip_empty, lstrip_idemp, split_go_nil.
  split; [by intros Hs | by intros [_ Hs]].
Qed.

Variable eng : Cli.Engine.

(** X11: When the extraction succeeds, the returned text carries no leading
    or trailing whitespace (stripping it again changes nothing), the
    word count is at most the character count, which is that of the
    text before stripping and so at least the length of the returned
    text, and the word count is 0 exactly when the returned text is
    empty. *)
Theorem extraction_counts_are_consistent (fs : Files)
    (image_path language config : string) (preprocess : bool) (d : PyDict) :
  Cli.extract_text_try eng fs image_path language config preprocess = Return d ->
  ∃ (returned : string) (words chars : nat),
    d !! "text" = Some (VStr returned)
    ∧ d !! "word_count" = Some (VInt (Z.of_nat words))
    ∧ d !! "character_count" = Some (VInt (Z.of_nat chars))
    ∧ strip returned = returned
    ∧ (words <= chars)%nat
    ∧ (String.length returned <= chars)%nat
    ∧ (words = 0%nat ↔ returned = "").
Proof.
  unfold Cli.extract_text_try. intros Htry.
  repeat match type of Htry with
         | (?m ≫= _) = Return _ =>
             let H := fresh "H" in
             destruct m eqn:H; cbn in Htry; [|discriminate]
         end.
  injection Htry as <-.
  match goal with
  | Ht : Cli.image_to_string _ _ _ _ = Return ?t |- _ => rename t into text
  end.
  exists (strip text), (length (split text)), (String.length text).
  split; [by simplify_map_eq|]. split; [by simplify_map_eq|].
  split; [by simplify_map_eq|]. split; [apply strip_idemp|].
  split; [pose proof (split_go_length [] text) as Hlen; cbn beta iota in Hlen;
          unfold split; lia|].
  split.
  - unfold strip. pose proof (rstrip_length (lstrip text)).
    pose proof (lstrip_length text). lia.
  - rewrite strip_empty. by destruct (split text).
Qed.
End Extraction.

Section Confidences.
Import Py.

Lemma extraction_counts_are_consistent_witness :
  ∃ (returned : string) (words chars : nat),
    Cli.extract_text Fixture.engine Sample.padded_disk "p.png" "eng" "--psm 6" false
      !! "text" = Some (VStr returned)
    ∧ Cli.extract_text Fixture.engine Sample.padded_disk "p.png" "eng" "--psm 6" false
      !! "word_count" = Some (VInt (Z.of_nat words))
    ∧ strip returned = returned
    ∧ (words <= chars)%nat ∧ (String.length returned <= chars)%nat.
Proof.
  destruct (extraction_counts_are_consistent Fixture.engine Sample.padded_disk
              "p.png" "eng" "--psm 6" false
              (Cli.extract_text Fixture.engine Sample.padded_disk "p.png" "eng"
                 "--psm 6" false) eq_refl)
    as (returned & words & chars & Ht & Hw & Hc & Hs & Hwc & Hrc & _).
  exists returned, words, chars. repeat split; assumption.
Defined.

Lemma positive_confidences_raise (pre : list Z) (e : PyExn) (post : list Cli.ConfCell) :
  Cli.positive_confidences ((Return <$> pre) ++ Raise e :: post) = Raise e.
Proof.
  induction pre as [|c pre IH]; [reflexivity|].
  rewrite fmap_cons. cbn [app Cli.positive_confidences]. rewrite bind_Return.
  destruct (0 <? c); [rewrite bind_Return|]; by rewrite IH.
Qed.

(** X12: One value of the confidence column that [int()] refuses fails the
    whole extraction: although the image was opened and its text
    recognised, [extract_text] returns the error dictionary carrying
    the message of that conversion, with empty text and confidence 0. *)
Theorem unreadable_confidence_fails_the_extraction (eng : Cli.Engine) (fs : Files)
    (image_path language config : string) (image : Cli.Image eng) (text : string)
    (pre : list Z) (e : PyExn) (post : list Cli.ConfCell) :
  Cli.Image_open eng (fs !! image_path) = Return image ->
  Cli.image_to_string eng image language config = Return text ->
  Cli.image_to_data eng image language config
    = Return ((Return <$> pre) ++ Raise e :: post) ->
  Cli.extract_text eng fs image_path language config false
  = <["error" := VStr (exn_str e)]>
      (<["text" := VStr ""]> (<["confidence" := VInt 0]> ∅)).
Proof.
  intros Hopen Htext Hdata.
  unfold Cli.extract_text, Cli.extract_text_try.
  rewrite Hopen, bind_Return, Htext, bind_Return, Hdata, bind_Return.
  unfold Cli.confidence_of. by rewrite positive_confidences_raise.
Qed.

Lemma unreadable_confidence_fails_the_extraction_witness :
  Cli.extract_text Sample.unreadable_engine Fixture.disk "one.png" "eng" "--psm 6" false
  = <["error" := VStr "invalid literal for int() with base 10: '96.5'"]>
      (<["text" := VStr ""]> (<["confidence" := VInt 0]> ∅)).
Proof.
  exact (unreadable_confidence_fails_the_extraction Sample.unreadable_engine
           Fixture.disk "one.png" "eng" "--psm 6" "first" "first" [96]
           (mkExn "ValueError" "invalid literal for int() with base 10: '96.5'")
           [Return 80] eq_refl eq_refl eq_refl).
Defined.

Lemma total_Permutation (l l' : list Z) : l ≡ₚ l' -> Spec.total l = Spec.total l'.
Proof.
  unfold Spec.total. induction 1; cbn [foldr]; lia.
Qed.

Lemma avg_confidence_Permutation (l l' : list Z) :
  l ≡ₚ l' -> Cli.avg_confidence l = Cli.avg_confidence l'.
Proof.
  intros H. unfold Cli.avg_confidence.
  destruct l as [|x l], l' as [|y l'].
  - done.
  - by apply Permutation_nil_cons in H.
  - symmetry in H. by apply Permutation_nil_cons in H.
  - by rewrite !sum_total, (total_Permutation _ _ H), (Permutation_length H).
Qed.

(** X13: The reported confidence depends only on the strictly positive
    confidences, as a collection: two confidence columns whose positive
    values agree up to order give the same confidence, so that zeros,
    the -1 of boxes without text, and the order of the tokens do not
    matter. *)
Theorem confidence_depends_on_positive_values (confs confs' : list Z) :
  Spec.positive confs ≡ₚ Spec.positive confs' ->
  Cli.confidence_of (Return <$> confs) = Cli.confidence_of (Return <$> confs').
Proof.
  intros H. unfold Cli.confidence_of.
  by rewrite !positive_confidences_filter, !bind_Return,
    (avg_confidence_Permutation _ _ H).
Qed.

Lemma confidence_depends_on_positive_values_witness :
  Cli.confidence_of (Return <$> [0; 80; -1; 60; 0])
  = Cli.confidence_of (Return <$> [60; 80]).
Proof.
  apply confidence_depends_on_positive_values. apply perm_swap.
Defined.
End Confidences.

(** ** More on the batch dispatcher *)

Section Dispatch.
Import Py.
Variable eng : Cli.Engine.
Variable fs : Files.

Local Abbreviation main := (BatchCli.main eng fs).
Local Abbreviation future_to_file := (BatchCli.future_to_file eng fs).
Local Abbreviation process_file := (BatchCli.process_file eng fs).

(** X14: The Gemini step never changes whether a file counts as failed: a
    result of [process_file] has an ['error'] entry exactly as the
    extraction had it, and carries the file path and the processing
    time. *)
Theorem gemini_step_keeps_the_error_status (file_path : string) (args : BatchCli.Args)
    (gemini : option (PyVal -> list (string * PyVal) -> Res PyDict))
    (processing_time : spec_float) (result : PyDict) :
  process_file file_path args gemini processing_time = Return result ->
  result !! "error"
  = Cli.extract_text eng fs file_path (BatchCli.language args) (BatchCli.config args)
      (BatchCli.preprocess args) !! "error"
  ∧ result !! "file_path" = Some (VStr file_path)
  ∧ is_Some (result !! "processing_time").
Proof.
  unfold BatchCli.process_file.
  destruct (round2 processing_time) as [rounded|e]; [|discriminate].
  rewrite bind_Return.
  set (extracted := Cli.extract_text _ _ _ _ _ _).
  assert (Hplain : ∀ r : PyDict,
             r = <["processing_time" := VFloat rounded]>
                   (<["file_path" := VStr file_path]> extracted) ->
             r !! "error" = extracted !! "error"
             ∧ r !! "file_path" = Some (VStr file_path)
             ∧ is_Some (r !! "processing_time")).
  { intros r ->. split; [by simplify_map_eq|]. split; [by simplify_map_eq|].
    eexists. by simplify_map_eq. }
  assert (Hgem : ∀ (g : PyVal) (r : PyDict),
             r = <["gemini" := g]>
                   (<["processing_time" := VFloat rounded]>
                      (<["file_path" := VStr file_path]> extracted)) ->
             r !! "error" = extracted !! "error"
             ∧ r !! "file_path" = Some (VStr file_path)
             ∧ is_Some (r !! "processing_time")).
  { intros g r ->. split; [by simplify_map_eq|]. split; [by simplify_map_eq|].
    eexists. by simplify_map_eq. }
  destruct gemini as [process_text|]; [|intros [= <-]; by apply Hplain].
  destruct (BatchCli.gemini_args args) as [ga|]; [|intros [= <-]; by apply Hplain].
  destruct (negb _ && BatchCli.gemini ga); [|intros [= <-]; by apply Hplain].
  intros [= <-]. unfold try_except.
  match goal with
  | |- context [getitem ?d ?k] => destruct (getitem d k) as [text|e]
  end; cbn; [|by eapply Hgem].
  match goal with
  | |- context [process_text ?t ?kw] => destruct (process_text t kw) as [g|e]
  end; cbn; by eapply Hgem.
Qed.

(** X15: When the extraction fails with an exception whose message is
    empty, [process_file] still sends the (empty) text to Gemini: the
    result has both the ['error'] entry, by which the batch loop counts
    the file as failed, and a ['gemini'] entry. *)
Theorem empty_error_message_still_calls_gemini (file_path : string)
    (args : BatchCli.Args) (ga : BatchCli.GeminiArgs)
    (process_text : PyVal -> list (string * PyVal) -> Res PyDict)
    (processing_time rounded : spec_float) (e : PyExn) (gemini_result : PyDict) :
  Cli.extract_text_try eng fs file_path (BatchCli.language args)
    (BatchCli.config args) (BatchCli.preprocess args) = Raise e ->
  exn_str e = "" ->
  BatchCli.gemini_args args = Some ga ->
  BatchCli.gemini ga = true ->
  round2 processing_time = Return rounded ->
  process_text (VStr "")
    [("prompt", BatchCli.opt_val VStr (BatchCli.gemini_prompt ga));
     ("task", VStr (BatchCli.gemini_task ga));
     ("temperature", VFloat (BatchCli.gemini_temperature ga));
     ("max_tokens", BatchCli.opt_val VInt (BatchCli.gemini_max_tokens ga))]
  = Return gemini_result ->
  ∃ result,
    process_file file_path args (Some process_text) processing_time = Return result
    ∧ result !! "error" = Some (VStr "")
    ∧ result !! "gemini" = Some (VDict gemini_result)
    ∧ Spec.is_failure (Return result) = true.
Proof.
  intros Htry Hmsg Hga Hon Hround Hcall.
  unfold BatchCli.process_file, Cli.extract_text.
  rewrite Htry. cbn [try_except]. rewrite Hmsg, Hround, bind_Return, Hga, Hon.
  set (base := <["processing_time" := VFloat rounded]> _).
  assert (Herr : base !! "error" = Some (VStr "")) by (subst base; by simplify_map_eq).
  assert (Htext : getitem base "text" = Return (VStr "")).
  { unfold getitem. subst base. by simplify_map_eq. }
  rewrite Herr. cbn [truthy String.eqb negb andb].
  rewrite Htext, bind_Return, Hcall, bind_Return. cbn [try_except].
  eexists. split; [reflexivity|].
  split; [by rewrite lookup_insert_ne|].
  split; [by rewrite lookup_insert_eq|].
  cbn. unfold has_key. apply bool_decide_eq_true.
  rewrite lookup_insert_ne by done. by rewrite Herr.
Qed.

Lemma collect_all (completed : list (string * Res PyDict))
    (results : list PyDict) (failed_files : list (string * PyVal)) :
  BatchCli.collect true completed results failed_files
  = (map (fun f => BatchCli.Completed (fst f)) completed,
     BatchCli.Finished (results ++ Outcome.successes completed)
       (failed_files ++ Outcome.failures completed)).
Proof.
  revert results failed_files.
  induction completed as [|[file_path outcome] rest IH]; intros results failed_files.
  - cbn. by rewrite !app_nil_r.
  - cbn [BatchCli.collect negb]. unfold Outcome.successes, Outcome.failures.
    cbn [omap list_omap snd fst].
    destruct outcome as [result|e]; [destruct (result !! "error") as [err|]|];
      rewrite IH; cbn; unfold Outcome.successes, Outcome.failures;
      by rewrite <- ?app_assoc.
Qed.


Lemma collect_without_failure (continue_on_error : bool)
    (completed : list (string * Res PyDict))
    (results : list PyDict) (failed_files : list (string * PyVal)) :
  Forall (fun f => Spec.is_failure (snd f) = false) completed ->
  BatchCli.collect continue_on_error completed results failed_files
  = (map (fun f => BatchCli.Completed (fst f)) completed,
     BatchCli.Finished (results ++ Outcome.successes completed) failed_files)
  ∧ length (Outcome.successes completed) = length completed.
Proof.
  intros Hall. revert results.
  induction Hall as [|[file_path outcome] rest Ho Hall IH]; intros results.
  - cbn. by rewrite app_nil_r.
  - cbn [BatchCli.collect]. unfold Outcome.successes. cbn [omap list_omap snd fst].
    cbn in Ho. destruct outcome as [result|e]; [|done].
    unfold has_key in Ho. apply bool_decide_eq_false in Ho.
    destruct (result !! "error") as [err|] eqn:E; [exfalso; eauto|].
    destruct (IH (results ++ [result])) as [-> Hlen].
    unfold Outcome.successes in Hlen. rewrite <- app_assoc. cbn. by rewrite Hlen.
Qed.

End Dispatch.

(** ** Saving and removing an upload *)

Section SavedUploads.
Import Py.

Lemma exists_then_removed (path : string) (fs : Files) :
  (if os_path_exists path fs then delete path fs else fs) = delete path fs.
Proof.
  unfold os_path_exists. case_bool_decide as H; [done|].
  symmetry. apply delete_id. by apply eq_None_not_Some.
Qed.

(** Whatever a failed save has written is at the path of the upload. *)
Lemma failed_save_removed (fault : SaveFault) (path data : string) (fs : Files) :
  delete path (fst (file_save (Some fault) path data fs)) = delete path fs.
Proof.
  unfold file_save. cbn [fst].
  destruct (save_written fault); [apply delete_insert_eq | done].
Qed.
End SavedUploads.

(** ** More on the batch endpoint *)

Section BatchEndpoint.
Import Py.
Variable UPLOAD_FOLDER : string.
Variable secure_filename : string -> string.
Variable GEMINI_AVAILABLE : bool.
Variable ocr_processor : PyObject Cli.OcrMethod.
Variable getenv_GEMINI_API_KEY : option string.
Variable GeminiProcessor : option string -> Res string.
Variable gemini_process_text : PyVal -> list (string * PyVal) -> Res PyDict.
Variable save_fault : string -> string -> option SaveFault.

Local Abbreviation batch_step :=
  (Api.batch_step UPLOAD_FOLDER secure_filename GEMINI_AVAILABLE ocr_processor
     getenv_GEMINI_API_KEY GeminiProcessor gemini_process_text save_fault).
Local Abbreviation batch_process :=
  (Api.batch_process UPLOAD_FOLDER secure_filename GEMINI_AVAILABLE ocr_processor
     getenv_GEMINI_API_KEY GeminiProcessor gemini_process_text save_fault).
Local Abbreviation path_of := (Outcome.upload_path UPLOAD_FOLDER secure_filename).
Local Abbreviation cleared := (Outcome.cleared UPLOAD_FOLDER secure_filename).

Lemma batch_step_files (language config : string) (preprocess use_gemini : bool)
    (gemini_task : string) (files : Files) (results : list PyDict)
    (failed : list (string * string)) (file : Api.Upload) :
  fst (fst (batch_step language config preprocess use_gemini gemini_task
              (files, results, failed) file)) = cleared files file.
Proof.
  unfold Api.batch_step, Outcome.cleared, Outcome.upload_path.
  destruct (Api.allowed_file (Api.up_filename file)); cbn [negb]; [|done].
  destruct (save_fault _ _) as [fault|].
  { cbn [file_save fst]. rewrite exists_then_removed.
    apply (failed_save_removed fault _ (Api.up_content file)). }
  cbn [file_save].
  match goal with
  | |- context [match ?r with Return _ => _ | Raise _ => _ end] =>
      destruct r as [result|e]
  end.
  - unfold os_remove, save_file. rewrite lookup_insert_eq. cbn.
    by rewrite delete_insert_eq.
  - cbn. unfold os_path_exists, save_file. rewrite lookup_insert_eq.
    rewrite bool_decide_eq_true_2 by eauto. by rewrite delete_insert_eq.
Qed.

Lemma batch_loop_files (language config : string) (preprocess use_gemini : bool)
    (gemini_task : string) (uploads : list Api.Upload) (files : Files)
    (results : list PyDict) (failed : list (string * string)) :
  fst (fst (foldl (batch_step language config preprocess use_gemini gemini_task)
              (files, results, failed) uploads))
  = foldl cleared files uploads.
Proof.
  revert files results failed.
  induction uploads as [|u uploads IH]; intros files results failed; [done|].
  cbn [foldl].
  pose proof (batch_step_files language config preprocess use_gemini gemini_task
                files results failed u) as Hstep.
  destruct (batch_step _ _ _ _ _ _ u) as [[f1 r1] m1]. cbn in Hstep. subst f1.
  apply IH.
Qed.

Lemma cleared_keeps_None (uploads : list Api.Upload) (files : Files) (path : string) :
  files !! path = None -> foldl cleared files uploads !! path = None.
Proof.
  revert files. induction uploads as [|u uploads IH]; intros files H; [done|].
  cbn [foldl]. apply IH. unfold Outcome.cleared.
  destruct (Api.allowed_file _); [|done]. rewrite lookup_delete_None. by right.
Qed.

Lemma cleared_removes (uploads : list Api.Upload) (files : Files) (u : Api.Upload) :
  u ∈ uploads -> Api.allowed_file (Api.up_filename u) = true ->
  foldl cleared files uploads !! path_of u = None.
Proof.
  revert files. induction uploads as [|v uploads IH]; intros files Hin Hallowed.
  - by apply elem_of_nil in Hin.
  - cbn [foldl]. apply elem_of_cons in Hin as [<-|Hin]; [|by apply IH].
    apply cleared_keeps_None. unfold Outcome.cleared. rewrite Hallowed.
    apply lookup_delete_eq.
Qed.

Lemma cleared_keeps_others (uploads : list Api.Upload) (files : Files) (path : string) :
  (∀ u, u ∈ uploads -> Api.allowed_file (Api.up_filename u) = true -> path ≠ path_of u) ->
  foldl cleared files uploads !! path = files !! path.
Proof.
  revert files. induction uploads as [|v uploads IH]; intros files Hother; [done|].
  cbn [foldl]. rewrite IH.
  - unfold Outcome.cleared. destruct (Api.allowed_file _) eqn:E; [|done].
    rewrite lookup_delete_ne; [done|]. intros Heq. eapply Hother; [by left | done | done].
  - intros u Hu. apply Hother. by right.
Qed.

End BatchEndpoint.

Section BatchEndpointResults.
Import Py.
Variable eng : Cli.Engine.
Variable UPLOAD_FOLDER : string.
Variable secure_filename : string -> string.
Variable getenv_GEMINI_API_KEY : option string.
Variable GeminiProcessor : option string -> Res string.
Variable gemini_process_text : PyVal -> list (string * PyVal) -> Res PyDict.
Variable save_fault : string -> string -> option SaveFault.

Local Abbreviation batch_step :=
  (Api.batch_step UPLOAD_FOLDER secure_filename false (Cli.OCRProcessor eng)
     getenv_GEMINI_API_KEY GeminiProcessor gemini_process_text save_fault).
Local Abbreviation batch_process :=
  (Api.batch_process UPLOAD_FOLDER secure_filename false (Cli.OCRProcessor eng)
     getenv_GEMINI_API_KEY GeminiProcessor gemini_process_text save_fault).
Local Abbreviation result_of := (Outcome.batch_result eng UPLOAD_FOLDER secure_filename).
Local Abbreviation failure_of :=
  (Outcome.batch_failure UPLOAD_FOLDER secure_filename save_fault).
Local Abbreviation saved := (Outcome.saved UPLOAD_FOLDER secure_filename save_fault).

(** The extraction reads the file at its path and nothing else. *)
Lemma extract_text_reads_its_path (files files' : Files)
    (image_path language config : string) (preprocess : bool) :
  files !! image_path = files' !! image_path ->
  Cli.extract_text eng files image_path language config preprocess
  = Cli.extract_text eng files' image_path language config preprocess.
Proof.
  intros H. unfold Cli.extract_text, Cli.extract_text_try, Cli._preprocess_image.
  by rewrite H.
Qed.

Lemma batch_step_without_gemini (form : gmap string string) (use_gemini : bool)
    (gemini_task : string) (files : Files) (results : list PyDict)
    (failed : list (string * string)) (u : Api.Upload) :
  ∃ files',
    batch_step (Api.form_get form "language" "eng")
      (Api.form_get form "config" "--psm 6")
      (String.eqb (lower (Api.form_get form "preprocess" "false")) "true")
      use_gemini gemini_task (files, results, failed) u
    = match failure_of u with
      | None => (files', results ++ [result_of form u], failed)
      | Some failure => (files', results, failed ++ [failure])
      end.
Proof.
  unfold Api.batch_step, Outcome.batch_failure.
  destruct (Api.allowed_file (Api.up_filename u)); cbn [negb]; [|by eexists].
  fold (Outcome.upload_path UPLOAD_FOLDER secure_filename u).
  destruct (save_fault _ _) as [fault|]; cbn [file_save fmap option_fmap option_map];
    [by eexists|].
  change (getattr (Cli.OCRProcessor eng) "extract_text")
    with (Return (Cli.call_extract_text eng)).
  rewrite bind_Return. unfold Cli.call_extract_text at 1.
  rewrite bind_Return, andb_false_r. cbn [andb].
  unfold os_remove, save_file. rewrite lookup_insert_eq.
  eexists. do 4 f_equal. unfold Outcome.batch_result. f_equal.
  apply extract_text_reads_its_path. by rewrite !lookup_insert_eq.
Qed.

Lemma batch_loop_without_gemini (form : gmap string string) (use_gemini : bool)
    (gemini_task : string) (uploads : list Api.Upload) (files : Files)
    (results : list PyDict) (failed : list (string * string)) :
  ∃ files',
    foldl (batch_step (Api.form_get form "language" "eng")
             (Api.form_get form "config" "--psm 6")
             (String.eqb (lower (Api.form_get form "preprocess" "false")) "true")
             use_gemini gemini_task)
      (files, results, failed) uploads
    = (files',
       results ++ map (result_of form) (saved uploads),
       failed ++ omap failure_of uploads).
Proof.
  revert files results failed.
  induction uploads as [|u uploads IH]; intros files results failed.
  - exists files. cbn. by rewrite !app_nil_r.
  - cbn [foldl].
    destruct (batch_step_without_gemini form use_gemini gemini_task files results
                failed u) as [f1 ->].
    unfold Outcome.saved. cbn [List.filter omap list_omap].
    destruct (failure_of u) as [failure|] eqn:E.
    + destruct (IH f1 results (failed ++ [failure])) as [f2 ->].
      exists f2. by rewrite <- app_assoc.
    + destruct (IH f1 (results ++ [result_of form u]) failed) as [f2 ->].
      exists f2. cbn [map]. by rewrite <- app_assoc.
Qed.

End BatchEndpointResults.

(** ** Collecting the files of a batch *)

Section Inputs.
Import Py.
Variable isfile : string -> bool.
Variable isdir : string -> bool.
Variable glob : string -> string -> list string.

Local Abbreviation is_image_file := (BatchInputs.is_image_file isfile).
Local Abbreviation find_image_files := (BatchInputs.find_image_files isfile glob).
Local Abbreviation files_to_process := (BatchInputs.files_to_process isfile isdir glob).

Lemma filter_elem_of {A} (f : A -> bool) (l : list A) (x : A) :
  x ∈ List.filter f l ↔ x ∈ l ∧ f x = true.
Proof. rewrite !list_elem_of_In. apply List.filter_In. Qed.

Lemma find_image_files_elem (directory : string) (recursive : bool)
    (file_path : string) :
  file_path ∈ find_image_files directory recursive ->
  isfile file_path = true
  ∧ lower (BatchInputs.path_suffix file_path) ∈ BatchInputs.image_extensions.
Proof.
  unfold BatchInputs.find_image_files, BatchInputs.sorted.
  rewrite merge_sort_Permutation, filter_elem_of.
  unfold BatchInputs.is_image_file. rewrite andb_true_iff, str_in_elem_of.
  by intros [_ ?].
Qed.

(** X20: [find_image_files] returns, in ascending order, exactly the paths
    of the directory listing that are regular files with an image
    suffix, each as often as the listing yields it. *)
Theorem find_image_files_sorted_images (directory : string) (recursive : bool) :
  StronglySorted String.le (find_image_files directory recursive)
  ∧ find_image_files directory recursive
    ≡ₚ List.filter is_image_file
         (glob directory (if recursive then "**/*" else "*"))
  ∧ ∀ file_path, file_path ∈ find_image_files directory recursive ->
      isfile file_path = true
      ∧ lower (BatchInputs.path_suffix file_path) ∈ BatchInputs.image_extensions.
Proof.
  split; [|split; [|apply find_image_files_elem]];
    unfold BatchInputs.find_image_files, BatchInputs.sorted.
  - apply StronglySorted_merge_sort; apply _.
  - apply merge_sort_Permutation.
Qed.

Lemma files_to_process_flat (recursive : bool) (inputs : list string)
    (files : list string) :
  foldl (fun files input_path =>
           if isfile input_path then files ++ [input_path]
           else if isdir input_path
                then files ++ find_image_files input_path recursive
                else files)
        files inputs
  = files ++ mjoin (map (fun input_path =>
                           if isfile input_path then [input_path]
                           else if isdir input_path
                                then find_image_files input_path recursive
                                else []) inputs).
Proof.
  revert files. induction inputs as [|p inputs IH]; intros files; cbn.
  - by rewrite app_nil_r.
  - rewrite IH. destruct (isfile p); [|destruct (isdir p)];
      by rewrite <- ?app_assoc, ?app_nil_r.
Qed.

(** X21: The files to process are regular files, in the order of the
    command line.  A path named there that is a regular file is taken
    whatever its extension (only the files found in a directory are
    filtered by extension); a path that is neither a file nor a
    directory contributes nothing, so that when no input exists there is
    nothing to process. *)
Theorem listed_files_are_taken_as_they_are (recursive : bool) (inputs : list string) :
  (∀ file_path, file_path ∈ files_to_process recursive inputs ->
                isfile file_path = true)
  ∧ (Forall (fun p => isfile p = true) inputs ->
     files_to_process recursive inputs = inputs)
  ∧ (Forall (fun p => isfile p = false ∧ isdir p = false) inputs ->
     files_to_process recursive inputs = []).
Proof.
  unfold BatchInputs.files_to_process. rewrite files_to_process_flat. cbn [app].
  split; [|split].
  - intros file_path. rewrite list_elem_of_join.
    intros (l & Hin & Hl). apply list_elem_of_fmap in Hl as (p & -> & _).
    destruct (isfile p) eqn:E.
    + apply list_elem_of_singleton in Hin as ->. done.
    + destruct (isdir p); [|by apply elem_of_nil in Hin].
      by apply find_image_files_elem in Hin as [? _].
  - induction 1 as [|p inputs Hp _ IH]; [done|].
    cbn [map]. rewrite Hp. change (mjoin ([p] :: ?l)) with (p :: mjoin l).
    by rewrite IH.
  - induction 1 as [|p inputs [Hf Hd] _ IH]; [done|].
    cbn [map]. rewrite Hf, Hd. change (mjoin ([] :: ?l)) with (mjoin l).
    exact IH.
Qed.

Lemma rsplit_dot_after_last (s : string) : rsplit_dot s = BatchInputs.after_last "." s.
Proof.
  induction s as [|c s IH]; [done|].
  cbn [rsplit_dot BatchInputs.after_last]. by rewrite IH.
Qed.

Lemma after_last_app (sep : ascii) (a b x : string) :
  BatchInputs.after_last sep b = Some x ->
  BatchInputs.after_last sep (a +:+ b) = Some x.
Proof.
  intros H. induction a as [|c a IH]; [done|].
  rewrite string_app_cons. cbn [BatchInputs.after_last]. by rewrite IH.
Qed.

Lemma after_last_Some (sep : ascii) (s t : string) :
  BatchInputs.after_last sep s = Some t -> ∃ stem, s = stem +:+ String sep t.
Proof.
  revert t. induction s as [|c s IH]; intros t; cbn [BatchInputs.after_last];
    [discriminate|].
  destruct (BatchInputs.after_last sep s) as [u|] eqn:Hs.
  - intros [= <-]. destruct (IH u eq_refl) as [stem ->].
    exists (String c stem). by rewrite string_app_cons.
  - destruct (Ascii.eqb c sep) eqn:Hc; [|discriminate].
    apply Ascii.eqb_eq in Hc as ->. intros [= <-]. by exists "".
Qed.

Lemma image_extension_is_allowed (e : string) :
  str_in (String "." e) BatchInputs.image_extensions = true ->
  str_in e Api.ALLOWED_EXTENSIONS = true.
Proof.
  unfold str_in, BatchInputs.image_extensions, Api.ALLOWED_EXTENSIONS.
  cbn [existsb String.eqb Ascii.eqb Bool.eqb]. intros H.
  repeat (apply orb_true_iff in H as [H|H]); try discriminate;
    rewrite H; by rewrite ?orb_true_r.
Qed.

(** X22: The directory scan of the batch command is at least as strict as
    the extension check of the API: every path it picks would pass
    [allowed_file]. *)
Theorem scanned_images_are_allowed_files (file_path : string) :
  is_image_file file_path = true -> Api.allowed_file file_path = true.
Proof.
  unfold BatchInputs.is_image_file, BatchInputs.path_suffix, Api.allowed_file.
  intros [_ H]%andb_true_iff.
  destruct (BatchInputs.after_last "." (BatchInputs.path_name file_path))
    as [ext|] eqn:Hext; [|discriminate].
  destruct ((String.length ext =? 0)%nat || _); [discriminate|].
  assert (Hdot : rsplit_dot file_path = Some ext).
  { rewrite rsplit_dot_after_last. unfold BatchInputs.path_name in Hext.
    destruct (BatchInputs.after_last "/" file_path) as [name|] eqn:Hname; [|done].
    apply after_last_Some in Hname as [stem ->]. cbn [default from_option id] in Hext.
    apply after_last_app.
    change (String "/" name) with ("/" +:+ name). by apply after_last_app. }
  rewrite Hdot. apply image_extension_is_allowed. exact H.
Qed.
End Inputs.

(** ** The single-file endpoints *)

Section SingleFile.
Import Py.

Variable UPLOAD_FOLDER : string.
Variable secure_filename : string -> string.
Variable getenv_GEMINI_API_KEY : option string.
Variable GeminiProcessor : option string -> Res string.
Variable gemini_process_text : PyVal -> list (string * PyVal) -> Res PyDict.
Variable allowed_types : string.
Variable parse_float : string -> Res spec_float.
Variable parse_int : string -> Res Z.
Variable save_fault : string -> string -> option SaveFault.

Local Abbreviation path_of := (Outcome.upload_path UPLOAD_FOLDER secure_filename).
Local Abbreviation process_ocr :=
  (ApiOcr.process_ocr UPLOAD_FOLDER secure_filename).
Local Abbreviation process_ocr_with_gemini :=
  (ApiOcr.process_ocr_with_gemini UPLOAD_FOLDER secure_filename).

Lemma bind_Raise {A B} (e : PyExn) (f : A -> Res B) : (Raise e ≫= f) = Raise e.
Proof. reflexivity. Qed.

Lemma check_upload_accepts (file : Api.Upload) :
  Api.allowed_file (Api.up_filename file) = true ->
  ApiOcr.check_upload allowed_types (Some file) = inr file.
Proof.
  intros Hok. unfold ApiOcr.check_upload.
  destruct (String.eqb_spec (Api.up_filename file) "") as [Heq|_].
  - rewrite Heq in Hok. discriminate Hok.
  - by rewrite Hok.
Qed.

Lemma saved_then_removed (path content : string) (fs : Files) :
  os_remove path (save_file path content fs) = Return (delete path fs).
Proof.
  unfold os_remove, save_file. rewrite lookup_insert_eq.
  by rewrite delete_insert_eq.
Qed.

Lemma on_exception_saved (path content : string) (fs : Files) (e : PyExn) :
  ApiOcr.on_exception path (save_file path content fs) e
  = (delete path fs, ApiOcr.refuse 500 (exn_str e)).
Proof.
  unfold ApiOcr.on_exception, os_path_exists, save_file.
  rewrite lookup_insert_eq, bool_decide_eq_true_2 by eauto.
  by rewrite delete_insert_eq.
Qed.

Lemma on_exception_removed (path : string) (fs : Files) (e : PyExn) :
  ApiOcr.on_exception path (delete path fs) e
  = (delete path fs, ApiOcr.refuse 500 (exn_str e)).
Proof.
  unfold ApiOcr.on_exception, os_path_exists.
  rewrite lookup_delete_eq, bool_decide_eq_false_2; [done|].
  by intros [? ?].
Qed.

Lemma on_exception_not_saved (fault : SaveFault) (path data : string) (fs : Files)
    (e : PyExn) :
  ApiOcr.on_exception path (fst (file_save (Some fault) path data fs)) e
  = (delete path fs, ApiOcr.refuse 500 (exn_str e)).
Proof.
  unfold ApiOcr.on_exception.
  by rewrite exists_then_removed, failed_save_removed.
Qed.



Lemma extraction_then_removed (ocr_processor : PyObject Cli.OcrMethod)
    (path content : string) (fs : Files) (language : string)
    (config : option string) (preprocess : bool) (result : PyDict) (fs2 : Files) :
  (extract_text ← getattr ocr_processor "extract_text";
   result ← extract_text (save_file path content fs) path language config preprocess;
   fs2 ← os_remove path (save_file path content fs);
   Return (result, fs2)) = Return (result, fs2) ->
  fs2 = delete path fs.
Proof.
  destruct (getattr ocr_processor "extract_text") as [extract_text|e];
    [rewrite bind_Return | by rewrite bind_Raise].
  destruct (extract_text _ _ _ _ _) as [r|e];
    [rewrite bind_Return | by rewrite bind_Raise].
  rewrite saved_then_removed, bind_Return. by intros [= _ <-].
Qed.


(** X26: once the upload is saved, [process_ocr_with_gemini] converts the
    [gemini_temperature] field before it looks for the API key or runs
    the extraction: when [float()] refuses the field, the answer is 500
    with the message of that exception, whatever the key and the
    processor, unless the save before it raised, in which case the
    message is that of the save; the upload is removed in both
    cases. *)
Theorem malformed_temperature_is_a_server_error
    (ocr_processor : PyObject Cli.OcrMethod)
    (file : Api.Upload) (form : gmap string string) (fs : Files)
    (field : string) (e : PyExn) :
  Api.allowed_file (Api.up_filename file) = true ->
  form !! "gemini_temperature" = Some field ->
  parse_float field = Raise e ->
  process_ocr_with_gemini true ocr_processor getenv_GEMINI_API_KEY
    GeminiProcessor gemini_process_text allowed_types parse_float parse_int
    save_fault (Some file) form fs
  = (delete (path_of file) fs,
     ApiOcr.refuse 500
       (exn_str match save_fault (path_of file) (Api.up_content file) with
                | Some fault => save_error fault
                | None => e
                end)).
Proof.
  intros Hok Hfield Hfloat. unfold ApiOcr.process_ocr_with_gemini. cbn [negb].
  rewrite (check_upload_accepts _ Hok). cbn zeta.
  fold (path_of file).
  destruct (save_fault _ _) as [fault|].
  { change (file_save (Some fault) (path_of file) (Api.up_content file) fs)
      with (fst (file_save (Some fault) (path_of file) (Api.up_content file) fs),
            Some (save_error fault)).
    cbv iota beta. by rewrite on_exception_not_saved. }
  cbn [file_save].
  rewrite Hfield, Hfloat, bind_Raise. apply on_exception_saved.
Qed.

End SingleFile.

(** ** The Gemini prompts *)

Section Prompts.
Import Py.

Variable generate_content : string -> PyDict -> Res (option string).

Local Abbreviation process_text := (GeminiText.process_text generate_content).

Lemma prompts_unknown (text task : string) :
  GeminiText.get_available_tasks !! task = None ->
  GeminiText.prompts text !! task = None.
Proof.
  unfold GeminiText.get_available_tasks, GeminiText.prompts. intros H.
  repeat (apply lookup_insert_None in H as [H ?]).
  by rewrite !lookup_insert_ne by done.
Qed.

Lemma full_prompt_unknown (text : string) (prompt : option string) (task : string) :
  GeminiText.get_available_tasks !! task = None ->
  GeminiText.full_prompt text prompt task
  = GeminiText.full_prompt text prompt "analyze".
Proof.
  intros H. unfold GeminiText.full_prompt, GeminiText._build_task_prompt.
  rewrite (prompts_unknown _ _ H).
  by destruct prompt as [p|]; [destruct (String.eqb p "")|].
Qed.

(** X27: a task name that [get_available_tasks] does not list is
    processed exactly as the task [analyze], with or without a custom
    prompt, except that the result carries the name that was given. *)
Theorem unknown_task_is_processed_as_analyze (text : string)
    (prompt : option string) (task : string) (temperature max_tokens : PyVal) :
  GeminiText.get_available_tasks !! task = None ->
  process_text text prompt task temperature max_tokens
  = <["task" := VStr task]>
      (process_text text prompt "analyze" temperature max_tokens).
Proof.
  intros H. unfold GeminiText.process_text. cbn zeta.
  rewrite (full_prompt_unknown _ _ _ H).
  destruct (generate_content _ _) as [response_text|e]; cbn [mbind Res_bind try_except mret Res_ret].
  - apply map_eq. intros k.
    destruct (decide (k = "task")) as [->|Hk].
    + by rewrite lookup_insert_eq, !(lookup_insert_ne _ _ "task"), lookup_insert_eq by done.
    + rewrite (lookup_insert_ne _ "task" k) by done.
      destruct (decide (k = "success")) as [->|?]; [by rewrite !lookup_insert_eq|].
      rewrite !(lookup_insert_ne _ "success" k) by done.
      destruct (decide (k = "response")) as [->|?]; [by rewrite !lookup_insert_eq|].
      rewrite !(lookup_insert_ne _ "response" k) by done.
      by rewrite !(lookup_insert_ne _ "task" k) by done.
  - apply map_eq. intros k.
    destruct (decide (k = "task")) as [->|Hk].
    + by rewrite lookup_insert_eq, !(lookup_insert_ne _ _ "task"), lookup_insert_eq by done.
    + rewrite (lookup_insert_ne _ "task" k) by done.
      destruct (decide (k = "success")) as [->|?]; [by rewrite !lookup_insert_eq|].
      rewrite !(lookup_insert_ne _ "success" k) by done.
      destruct (decide (k = "error")) as [->|?]; [by rewrite !lookup_insert_eq|].
      rewrite !(lookup_insert_ne _ "error" k) by done.
      by rewrite !(lookup_insert_ne _ "task" k) by done.
Qed.

Lemma lines_single (text : string) :
  ∃ head, GeminiText.lines [text] = head +:+ text +:+ GeminiText.nl.
Proof. exists "". unfold GeminiText.lines. cbn [foldr]. by rewrite string_app_empty. Qed.

Lemma lines_cons_ends (line : string) (l : list string) (text : string) :
  (∃ head, GeminiText.lines l = head +:+ text +:+ GeminiText.nl) ->
  ∃ head, GeminiText.lines (line :: l) = head +:+ text +:+ GeminiText.nl.
Proof.
  intros [head Hl]. exists (line +:+ GeminiText.nl +:+ head).
  unfold GeminiText.lines in *. cbn [foldr]. rewrite Hl.
  by rewrite !string_app_assoc.
Qed.

Lemma template_ends_with_the_text (text task p : string) :
  GeminiText.prompts text !! task = Some p ->
  ∃ head, p = head +:+ text +:+ GeminiText.nl.
Proof.
  unfold GeminiText.prompts, GeminiText.analyze. intros H.
  repeat (apply lookup_insert_Some in H as [[_ <-]|[_ H]];
          [repeat (first [apply lines_single | apply lines_cons_ends])|]).
  by rewrite lookup_empty in H.
Qed.

(** X28: whatever the task and the custom prompt, the prompt sent to the
    model ends with the text to process, followed by a line break when a
    task template is used. *)
Theorem prompt_ends_with_the_text (text : string) (prompt : option string)
    (task : string) :
  ∃ head,
    GeminiText.full_prompt text prompt task
    = head +:+ text +:+ (if truthy (VStr <$> prompt) then "" else GeminiText.nl).
Proof.
  assert (Htemplate : ∃ head, GeminiText._build_task_prompt text task
                              = head +:+ text +:+ GeminiText.nl).
  { unfold GeminiText._build_task_prompt.
    destruct (GeminiText.prompts text !! task) as [p|] eqn:Hp.
    - apply (template_ends_with_the_text _ _ _ Hp).
    - apply (template_ends_with_the_text text "analyze"). reflexivity. }
  unfold GeminiText.full_prompt. destruct prompt as [p|]; [|exact Htemplate].
  cbn [fmap option_fmap option_map truthy].
  destruct (String.eqb p ""); [exact Htemplate|].
  exists (p +:+ GeminiText.nl +:+ GeminiText.nl +:+ "Text to process:" +:+ GeminiText.nl).
  cbn [negb]. by rewrite string_app_empty, !string_app_assoc.
Qed.
End Prompts.

(** ** More concrete runs *)

Section MoreRuns.
Import Py.

Lemma unknown_session_is_refused_witness :
  Api.upload_chunk "u9" (Fixture.chunk 0 "AAAA") Fixture.one_chunk
  = (Fixture.one_chunk, Api.failure 400 "Invalid upload session")
  ∧ Fixture.handle Fixture.one_chunk (Api.Complete "u9" ∅)
    = (Fixture.one_chunk, Api.failure 400 "Invalid upload session")
  ∧ Api.cancel_chunked_upload "u9" Fixture.one_chunk
    = (Fixture.one_chunk, Api.failure 400 "Invalid upload session").
Proof.
  exact (unknown_session_is_refused "/tmp" false (Cli.OCRProcessor Fixture.engine)
           Fixture.no_gemini_init Fixture.no_gemini_call Fixture.one_chunk "u9"
           (Fixture.chunk 0 "AAAA") ∅ eq_refl).
Defined.

Lemma cancel_forgets_the_session_witness :
  Api.UPLOAD_SESSIONS (fst (Api.cancel_chunked_upload "u1" Fixture.one_chunk)) = ∅
  ∧ Api.files (fst (Api.cancel_chunked_upload "u1" Fixture.one_chunk)) = ∅
  ∧ snd (Api.upload_chunk "u1" (Fixture.chunk 1 "BBBB")
           (fst (Api.cancel_chunked_upload "u1" Fixture.one_chunk)))
    = Api.failure 400 "Invalid upload session".
Proof.
  destruct (cancel_forgets_the_session "/tmp" false (Cli.OCRProcessor Fixture.engine)
              Fixture.no_gemini_init Fixture.no_gemini_call Fixture.one_chunk "u1"
              (Api.mkSession "a.png" 1000 2 [0] "/tmp/upload_u1")
              (Fixture.chunk 1 "BBBB") ∅ eq_refl)
    as (_ & Hs & Hf & Hc & _).
  split; [exact Hs|]. split; [exact Hf|]. by rewrite Hc.
Defined.

Lemma refused_chunk_changes_nothing_witness :
  Api.upload_chunk "u1" (Api.mkChunkForm (Some "BBBB") None) Fixture.one_chunk
  = (Fixture.one_chunk, Api.failure 400 "Invalid chunk index").
Proof.
  apply (refused_chunk_changes_nothing Fixture.one_chunk "u1"
           (Api.mkChunkForm (Some "BBBB") None));
    [eexists; reflexivity | eexists; reflexivity | reflexivity].
Defined.

Lemma chunks_are_appended_in_arrival_order_witness :
  Api.received_chunks
    <$> Api.UPLOAD_SESSIONS
          (Fixture.serve Sample.fresh_session
             (Protocol.chunk_requests "u1" [(1, "BBBB"); (0, "AAAA")])) !! "u1"
  = Some [1; 0]
  ∧ default ""
      (Api.files
         (Fixture.serve Sample.fresh_session
            (Protocol.chunk_requests "u1" [(1, "BBBB"); (0, "AAAA")]))
         !! "/tmp/upload_u1") = "BBBBAAAA".
Proof.
  destruct (chunks_are_appended_in_arrival_order "/tmp" Fixture.keep_name false
              (Cli.OCRProcessor Fixture.engine) Fixture.no_gemini_init
              Fixture.no_gemini_call [(1, "BBBB"); (0, "AAAA")]
              Sample.fresh_session "u1"
              (Api.mkSession "a.png" 1000 2 [] "/tmp/upload_u1") eq_refl
              ltac:(repeat constructor; discriminate)) as (Hs & Hf & _).
  split.
  - unfold Fixture.serve. by rewrite Hs.
  - exact Hf.
Defined.

Lemma complete_without_backing_file_witness :
  Fixture.handle Sample.no_chunks (Api.Complete "u0" ∅)
  = (Sample.no_chunks,
     Api.failure 500
       "[Errno 2] No such file or directory: '/tmp/upload_u0' -> '/tmp/a.png'").
Proof.
  exact (complete_without_backing_file "/tmp" false (Cli.OCRProcessor Fixture.engine)
           Fixture.no_gemini_init Fixture.no_gemini_call Sample.no_chunks "u0"
           (Api.mkSession "a.png" 0 0 [] "/tmp/upload_u0") ∅
           eq_refl eq_refl eq_refl).
Defined.


Lemma live_sessions_are_well_formed_witness :
  Protocol.session_well_formed "/tmp" "u1"
    (Api.mkSession "a.png" 1000 2 [0; 0; 7] "/tmp/upload_u1").
Proof.
  exact (live_sessions_are_well_formed "/tmp" Fixture.keep_name false
           (Cli.OCRProcessor Fixture.engine) Fixture.no_gemini_init
           Fixture.no_gemini_call Fixture.repeated_requests "u1"
           (Api.mkSession "a.png" 1000 2 [0; 0; 7] "/tmp/upload_u1") eq_refl).
Defined.

Lemma chunk_leaves_other_sessions_alone_witness :
  Api.UPLOAD_SESSIONS
    (fst (Api.upload_chunk "u1" (Fixture.chunk 1 "BBBB")
            (Fixture.serve Api.empty_world Sample.two_sessions_requests))) !! "u2"
  = Some (Api.mkSession "a.png" 1000 2 [] "/tmp/upload_u2")
  ∧ Api.files
      (fst (Api.upload_chunk "u1" (Fixture.chunk 1 "BBBB")
              (Fixture.serve Api.empty_world Sample.two_sessions_requests)))
      !! "/tmp/upload_u2"
    = Api.files (Fixture.serve Api.empty_world Sample.two_sessions_requests)
        !! "/tmp/upload_u2".
Proof.
  exact (chunk_leaves_other_sessions_alone "/tmp" Fixture.keep_name false
           (Cli.OCRProcessor Fixture.engine) Fixture.no_gemini_init
           Fixture.no_gemini_call Sample.two_sessions_requests "u1" "u2"
           (Api.mkSession "a.png" 1000 2 [] "/tmp/upload_u2")
           (Fixture.chunk 1 "BBBB") ltac:(discriminate) eq_refl).
Defined.

Lemma gemini_step_keeps_the_error_status_witness :
  ∃ result,
    BatchCli.process_file Fixture.engine Fixture.disk "two.png" Sample.gemini_args
      (Some Sample.gemini_ok) (S754_zero false) = Return result
    ∧ result !! "error"
      = Some (VStr "[Errno 2] No such file or directory: image")
    ∧ result !! "file_path" = Some (VStr "two.png")
    ∧ result !! "gemini" = None.
Proof.
  destruct (BatchCli.process_file Fixture.engine Fixture.disk "two.png"
              Sample.gemini_args (Some Sample.gemini_ok) (S754_zero false))
    as [result|e] eqn:Hrun; [|discriminate Hrun].
  exists result. split; [reflexivity|].
  destruct (gemini_step_keeps_the_error_status Fixture.engine Fixture.disk "two.png"
              Sample.gemini_args (Some Sample.gemini_ok) (S754_zero false) result Hrun)
    as (Herr & Hpath & _).
  split; [rewrite Herr; reflexivity|]. split; [exact Hpath|].
  injection Hrun as <-. reflexivity.
Defined.

Lemma empty_error_message_still_calls_gemini_witness :
  ∃ result,
    BatchCli.process_file Sample.silent_engine ∅ "x.png" Sample.gemini_args
      (Some Sample.gemini_ok) (S754_zero false) = Return result
    ∧ result !! "error" = Some (VStr "")
    ∧ result !! "gemini" = Some (VDict (<["success" := VBool true]> ∅))
    ∧ Spec.is_failure (Return result) = true.
Proof.
  exact (empty_error_message_still_calls_gemini Sample.silent_engine ∅ "x.png"
           Sample.gemini_args Sample.gemini_options Sample.gemini_ok
           (S754_zero false) (S754_zero false) (mkExn "Exception" "")
           (<["success" := VBool true]> ∅)
           eq_refl eq_refl eq_refl eq_refl eq_refl eq_refl).
Defined.





Lemma listed_files_are_taken_as_they_are_witness :
  BatchInputs.files_to_process Sample.isfile Sample.isdir Sample.glob false
    ["one.png"; "in/notes.txt"] = ["one.png"; "in/notes.txt"]
  ∧ BatchInputs.files_to_process Sample.isfile Sample.isdir Sample.glob false
      ["missing.png"; "nowhere"] = [].
Proof.
  split.
  - apply (listed_files_are_taken_as_they_are Sample.isfile Sample.isdir Sample.glob
             false ["one.png"; "in/notes.txt"]).
    repeat constructor.
  - apply (listed_files_are_taken_as_they_are Sample.isfile Sample.isdir Sample.glob
             false ["missing.png"; "nowhere"]).
    repeat constructor.
Defined.

Lemma scanned_images_are_allowed_files_witness :
  Api.allowed_file "in/b.PNG" = true.
Proof.
  exact (scanned_images_are_allowed_files Sample.isfile "in/b.PNG" eq_refl).
Defined.




Lemma malformed_temperature_is_a_server_error_witness :
  ApiOcr.process_ocr_with_gemini "/tmp" Fixture.keep_name true
    (Cli.OCRProcessor Fixture.engine) (Some "key") Fixture.no_gemini_init
    Fixture.no_gemini_call "jpg, jpeg, png, bmp, tiff, tif, gif, webp, pdf"
    Sample.refuse_float Sample.refuse_int Sample.long_name_fault
    (Some Fixture.image_upload) (<["gemini_temperature" := "hot"]> ∅) ∅
  = (delete "/tmp/a.png" ∅,
     ApiOcr.refuse 500 "could not convert string to float: 'hot'")
  ∧ snd (ApiOcr.process_ocr_with_gemini "/tmp" Fixture.keep_name true
           (Cli.OCRProcessor Fixture.engine) (Some "key") Fixture.no_gemini_init
           Fixture.no_gemini_call "jpg, jpeg, png, bmp, tiff, tif, gif, webp, pdf"
           Sample.refuse_float Sample.refuse_int Sample.long_name_fault
           (Some Sample.long_upload) (<["gemini_temperature" := "hot"]> ∅) ∅)
    = ApiOcr.refuse 500
        ("[Errno 36] File name too long: '/tmp/" +:+ Sample.long_name +:+ "'").
Proof.
  split.
  - exact (malformed_temperature_is_a_server_error "/tmp" Fixture.keep_name
             (Some "key") Fixture.no_gemini_init Fixture.no_gemini_call
             "jpg, jpeg, png, bmp, tiff, tif, gif, webp, pdf"
             Sample.refuse_float Sample.refuse_int Sample.long_name_fault
             (Cli.OCRProcessor Fixture.engine) Fixture.image_upload
             (<["gemini_temperature" := "hot"]> ∅) ∅ "hot"
             (mkExn "ValueError" "could not convert string to float: 'hot'")
             eq_refl eq_refl eq_refl).
  - pose proof (malformed_temperature_is_a_server_error "/tmp" Fixture.keep_name
                  (Some "key") Fixture.no_gemini_init Fixture.no_gemini_call
                  "jpg, jpeg, png, bmp, tiff, tif, gif, webp, pdf"
                  Sample.refuse_float Sample.refuse_int Sample.long_name_fault
                  (Cli.OCRProcessor Fixture.engine) Sample.long_upload
                  (<["gemini_temperature" := "hot"]> ∅) ∅ "hot"
                  (mkExn "ValueError" "could not convert string to float: 'hot'")
                  eq_refl eq_refl eq_refl) as H.
    rewrite H. reflexivity.
Defined.

Lemma unknown_task_is_processed_as_analyze_witness :
  GeminiText.process_text Sample.answering_model "scanned" None "classify"
    (VFloat ApiOcr.default_temperature) VNone
  = <["task" := VStr "classify"]>
      (GeminiText.process_text Sample.answering_model "scanned" None "analyze"
         (VFloat ApiOcr.default_temperature) VNone).
Proof.
  exact (unknown_task_is_processed_as_analyze Sample.answering_model "scanned" None
           "classify" (VFloat ApiOcr.default_temperature) VNone eq_refl).
Defined.
End MoreRuns.
